(* ===== verification/_CoqProject ===== *)
-Q . S2P
Prelude.v
Layers.v
Sequential.v
Shapes.v
StateDict.v
Urls.v
Module.v
Tensor.v
Numeric.v
Training.v
LoadErrors.v
Compose.v
