(* ===== verification/Prelude.v ===== *)
(** * A verification development of kornia's SOSNet patch descriptor

    The program is one file, src/kornia/feature/sosnet.py: a table [urls]
    of pretrained-weight locations (lines 7-9) and the class [SOSNet]
    (lines 12-70).  [SOSNet.__init__] declares two [nn.Sequential]
    containers, [self.layers] (22 children: instance norm, six
    convolution/batch-norm/ReLU blocks, dropout, a final 8x8 convolution
    and batch norm) and [self.desc_norm] (one local-response norm), and,
    when [pretrained], downloads a checkpoint and copies its ['state_dict']
    into the module with [load_state_dict(strict=True)].
    [SOSNet.forward] runs [self.layers], adds [1e-10], runs
    [self.desc_norm] and flattens with [view(size(0), -1)].  Everything
    else is PyTorch; the layers' behaviour is modelled after PyTorch 1.6
    (the version kornia required when this file was written).

    ** Files (in dependency order)

    - Prelude.v (this file): the Python exceptions the modelled paths raise
      ([exn]), the result monad [res] with its notation in [py_scope],
      the association-list dict operations ([dict_setitem], [getitem]),
      shared lemmas on [res] ([bind_respects] among them) and on the
      integer arithmetic of shapes, the hint databases [sosnet] and
      [sosnet_rw] and the tactic [inv_res].
    - Layers.v: the inductive [Layer] of the layer kinds, with the
      constructors' keyword defaults, and the two containers built by
      [__init__] ([sosnet_layers], [desc_norm_layers]), lines 31-57.
    - Sequential.v: the interface between the containers and the layers.
      A class [ModuleSem Env T] gives a layer a meaning on values of type
      [T]; [sequential] is [nn.Sequential.forward] and [forward] is
      [SOSNet.forward] (lines 67-70), both defined once against the
      interface ([TensorOps] supplies [+ 1e-10] and [view]).  The
      simulation lemmas ([sequential_from_sim], [forward_sim]) transport a
      layer-by-layer correspondence of two semantics to the whole forward;
      the respect lemmas ([forward_respects], [forward_head_respects])
      transport a relation preserved by the layers.
    - Shapes.v: the shape semantics (instance [shape_sem], environment =
      the [training] flag) with every check the layers make, including
      the empty-input paths of PyTorch 1.6: [torch.batch_norm] returns an
      input with no element unchecked, [local_response_norm]'s internal
      [view(sizes[0], 1, sizes[1], sizes[2], -1)] raises on one, and
      [infer_size] makes [view(size(0), -1)] raise only when [size(0)] is
      0.  C2 and C3 give the descriptor's shape for every patch size
      (symbolic batch and sides, no bound), C19-C24 every exception
      [forward] raises: a single patch in training mode, [dim_desc <> 128]
      (a channel mismatch, or for [dim_desc = 0] the LRN's view), sides
      below 29, an empty batch (at the LRN's view), more than one channel,
      a non-4-d input.
    - StateDict.v: the keys under which a module holds its tensors
      ([module_entry], [sosnet_entries]), [state_dict], and
      [load_state_dict] with the [_load_from_state_dict] hooks of
      [nn.Module], [_NormBase] and [_InstanceNorm], as explicit state
      passing over a [load_state] record; tensors are abstract ([V] with
      its [shape_of]), the module's store is a [gmap], and [same_shapes]
      is the setoid the invariant respects ([Proper] instances).  The
      invariant [params_wf] (one tensor of the registered size per key) is
      kept by every call, returning or raising (C18); loading a SOSNet
      module's own [state_dict] returns no error and the same store (C4).
    - Urls.v: the [urls] dict of lines 7-9 that [__init__] reads.
    - Module.v: the module as a record ([SOSNet]: [training], the two
      containers and the store), attribute lookup ([getattr]) against the
      class body, and [SOSNet_init], every step of [__init__] with the
      download as a section variable.  As written, [__init__] raises
      [AttributeError 'dim_desc'] (C1); with the attribute declared it
      loads the downloaded ['state_dict'] (C17) or raises [KeyError]
      without one (C25).
    - Tensor.v: tensors as a size and a value function on indices over
      the reals, zero-padded reading [get], sums [rsum] and their lemmas,
      and the setoid [teq] (same size, same values within it).
    - Numeric.v: the real-valued semantics (instance [num_sem]): every
      layer makes its shape checks, then computes PyTorch's formula
      (instance/batch norm with input or running statistics, convolution
      with zero padding, ReLU, dropout with its mask in the environment,
      local-response norm); a tensor with no element has no value to
      compute.  It reads tensors only up to [teq] ([forward_num_proper]);
      [desc_norm] is the L2 normalisation across channels (C6); every
      descriptor row [forward] returns is a unit vector, or zero when the
      features are exactly [-1e-10] (C5); and [forward] ignores a
      constant offset of its input, because its first layer is an
      instance norm (C7).
    - Training.v: the module's state across calls.  A small
      state-and-error monad [st] (a computation returns the state with
      its result, also when it raises, as Python keeps mutations made
      before an exception) runs the layers; [bn_call] is
      [_BatchNorm.forward] in PyTorch 1.6's order: input-dim check,
      [num_batches_tracked += 1], the batch-size check, the early return
      of an input with no element, the channel check, the output, the
      moving averages of [running_mean] and of the unbiased [running_var]
      (momentum 0.1).  [reachable] is the module's life as a step
      relation: buffers as [reset_running_stats] leaves them
      ([fresh_stats]), then calls and [train()]/[eval()] switches.  One
      batch norm in training mode, on each of its branches (C27): it
      raises on a single value per channel after counting it, passes an
      empty input through counted but unchecked and without update, and
      otherwise normalises with the batch's biased variance while its
      [running_var] moves towards the unbiased one.  A call changes
      nothing in eval mode (C13); a training call that returns counts one
      batch in each of the seven batch norms (C12); a call that raises at
      [layers.21], with [1 <= dim_desc <> 128] on two or more patches
      (C10) or on a single patch (C11), has already counted it everywhere
      and moved the running statistics of the six first; and in every
      reachable state the counters are natural numbers, never higher in a
      layer than in a tracked batch norm before it (C26, by rule
      induction: a call bumps the counters of an initial segment of the
      layers, [seq_st_nbt_prefix]).
    - LoadErrors.v: the error paths of [load_state_dict]: a key the
      module registers that the checkpoint lacks is reported missing
      (C14, except the [num_batches_tracked] counters the version hook
      fills), a key outside [layers] and [desc_norm] (a [module.] prefix
      from [nn.DataParallel]) unexpected (C15), both in strict mode and
      both collected by the walk over the submodules ([load_walk]); a
      tensor of another size raises even with [strict=False] (C16).
    - Compose.v: the module object across its life.  The store [__init__]
      fills is the layers' environment ([env_of]: child [i] reads its
      attribute [name] under [layers.<i>.<name>]); [SOSNet_call] is
      [module(x)], running [forward] on the module's own containers and
      writing the updated buffers back into the store; [SOSNet_train]
      is [module.train(b)].  With [dim_desc] declared, the pretrained
      module after [.eval()] returns unit descriptors and stays unchanged
      (C8); the module as constructed fails on a single patch and has
      counted it in its store (C9), while on a batch of two or more it
      returns unit descriptors and counts the batch (C28).

    No definition uses fuel: every recursion is structural, and the
    theorems on shapes and values are stated for symbolic batch sizes,
    sides and parameters.  The concrete checks ([vm_compute]) are on the
    22-layer key list and on the witnesses' inputs.

    ** Not modelled

    The download itself ([torch.hub.load_state_dict_from_url], network and
    cache), dtypes and devices ([map_location]), floating point (values
    are reals: no rounding, no NaN; [0 / 0] is [0]), autograd, the random
    initial values of the weights (the environment holds any values), the
    [momentum=None] cumulative average of batch norm (the constructors
    keep the default 0.1), the 64-bit width of [num_batches_tracked]
    (a real here: overflowing it would take 2^63 training calls), and the
    convolutions' [dilation]/[groups] arguments, which keep their
    defaults here.  Of the empty-input paths, the pooling inside
    [local_response_norm] on a map with a zero spatial size, and the
    3-d input path of that function, are not modelled: neither is
    reachable from [forward], whose input to [desc_norm] is 4-d with
    sides of at least 1.  Every definition is
    structural (or a bounded enumeration), so termination holds by
    construction and has no theorem of its own; the program has no
    unbounded loop or server behaviour for liveness to be about. *)

From Stdlib Require Import List Arith Lia ZifyNat String.
Import ListNotations.

(** ** Python exceptions raised along the modelled paths *)

(** Reasons a [ValueError] is raised by the framework's layer checks. *)
Inductive value_error : Type :=
| ExpectedDim (expected got : nat)
| ExpectedDimAtLeast (least got : nat)
| MoreThanOneValuePerChannel (size : list nat).

(** Messages [load_state_dict] collects in [error_msgs]. *)
Inductive load_msg : Type :=
| SizeMismatch (key : string) (checkpoint model : list nat)
| UnexpectedRunningStats (keys : list string).

(** Reasons a [RuntimeError] is raised. *)
Inductive runtime_error : Type :=
| ChannelMismatch (expected got : nat)
| InputDimMismatch (expected got : nat)
| KernelTooLarge (padded kernel : nat)
| KernelNotPositive (kernel : nat)
| ViewAmbiguous (size : list nat)
| ViewInvalid (size : list nat)
| LoadStateDictErrors (missing unexpected : list string) (msgs : list load_msg).

Inductive exn : Type :=
| ValueError (r : value_error)
| RuntimeError (r : runtime_error)
| AttributeError (name : string)
| KeyError (key : string)
| IndexError (dim : nat).

(** ** The result monad: a Python call returns a value or raises *)

Inductive res (A : Type) : Type :=
| Ok (a : A)
| Err (e : exn).
Arguments Ok {A} a.
Arguments Err {A} e.

Definition bind {A B : Type} (c : res A) (k : A -> res B) : res B :=
  match c with
  | Ok a => k a
  | Err e => Err e
  end.

Definition res_map {A B : Type} (f : A -> B) (c : res A) : res B :=
  bind c (fun a => Ok (f a)).

Definition is_ok {A : Type} (c : res A) : bool :=
  match c with Ok _ => true | Err _ => false end.

(** Two results related by [R] when both return, equal when both raise. *)
Definition res_rel {A : Type} (R : A -> A -> Prop) (a b : res A) : Prop :=
  match a, b with
  | Ok x, Ok y => R x y
  | Err e1, Err e2 => e1 = e2
  | _, _ => False
  end.

Declare Scope py_scope.
Delimit Scope py_scope with py.
Notation "x <- c ;; k" := (bind c (fun x => k))
  (at level 63, c at next level, right associativity) : py_scope.
Notation "'raise' e" := (Err e) (at level 10) : py_scope.
Open Scope py_scope.

(** [math.prod] of a shape: the number of elements of a tensor. *)
Definition numel (s : list nat) : nat := fold_right Nat.mul 1 s.

(** ** Python dicts kept as association lists in insertion order *)

(** [d[k]], with [None] where Python raises [KeyError]. *)
Fixpoint sd_lookup {A : Type} (k : string) (sd : list (string * A)) : option A :=
  match sd with
  | [] => None
  | (k', v) :: r => if String.eqb k' k then Some v else sd_lookup k r
  end.

(** [d[k] = v]: replaces the value of an existing key in place, appends a
    new key. *)
Fixpoint dict_setitem {A : Type} (k : string) (v : A) (d : list (string * A)) : list (string * A) :=
  match d with
  | [] => [(k, v)]
  | (k', v') :: r => if String.eqb k' k then (k', v) :: r else (k', v') :: dict_setitem k v r
  end.

(** [d[k]] as an expression that raises. *)
Definition getitem {A : Type} (d : list (string * A)) (k : string) : res A :=
  match sd_lookup k d with Some v => Ok v | None => Err (KeyError k) end.

(** ** Generic lemmas on the result monad *)

Lemma bind_Ok {A B} (a : A) (k : A -> res B) : bind (Ok a) k = k a.
Proof. reflexivity. Qed.

Lemma bind_Err {A B} (e : exn) (k : A -> res B) : bind (Err e) k = Err e.
Proof. reflexivity. Qed.

Lemma bind_assoc {A B C} (c : res A) (k1 : A -> res B) (k2 : B -> res C) :
  bind (bind c k1) k2 = bind c (fun a => bind (k1 a) k2).
Proof. destruct c; reflexivity. Qed.

Lemma bind_eq_Ok {A B} (c : res A) (k : A -> res B) (b : B) :
  bind c k = Ok b <-> exists a, c = Ok a /\ k a = Ok b.
Proof.
  destruct c as [a|e]; simpl; split.
  - eauto.
  - intros (a' & Ha & Hk). congruence.
  - discriminate.
  - intros (a' & Ha & _). discriminate.
Qed.

Lemma res_map_bind {A B C} (f : B -> C) (c : res A) (k : A -> res B) :
  res_map f (bind c k) = bind c (fun a => res_map f (k a)).
Proof. destruct c; reflexivity. Qed.

Lemma numel_app (s t : list nat) : numel (s ++ t) = numel s * numel t.
Proof. induction s as [|x s IH]; simpl; [lia | rewrite IH; lia]. Qed.

(** ** Integer arithmetic shared by the shape computations *)

(** Output length of a 3-wide, padding-1 window moved with stride 2: the
    length is halved and rounded up. *)
Lemma stride2_len (n : nat) : 1 <= n -> (n + 2 * 1 - 3) / 2 + 1 = (n + 1) / 2.
Proof.
  intros H. replace (n + 2 * 1 - 3) with (n - 1) by lia.
  replace (n + 1) with ((n - 1) + 1 * 2) by lia.
  rewrite Nat.div_add by lia. lia.
Qed.

(** A 3-wide, padding-1 window with stride 1 keeps the length. *)
Lemma stride1_len (n : nat) : 1 <= n -> (n + 2 * 1 - 3) / 1 + 1 = n.
Proof. intros H. rewrite Nat.div_1_r. lia. Qed.

Create HintDb sosnet.
Create Rewrite HintDb sosnet_rw.
(** [bind] maps related computations, with related continuations, to
    related computations. *)
Lemma bind_respects {A B : Type} (R : A -> A -> Prop) (S : B -> B -> Prop)
    (c1 c2 : res A) (k1 k2 : A -> res B) :
  res_rel R c1 c2 -> (forall a1 a2, R a1 a2 -> res_rel S (k1 a1) (k2 a2)) ->
  res_rel S (bind c1 k1) (bind c2 k2).
Proof. destruct c1, c2; simpl; intros H Hk; try contradiction; [apply Hk | ]; assumption. Qed.

(** ** Folds *)

(** A property every step keeps holds at the end of a fold. *)
Lemma fold_left_inv {A B : Type} (f : A -> B -> A) (I : A -> Prop) (l : list B) (a : A) :
  I a -> (forall a b, In b l -> I a -> I (f a b)) -> I (fold_left f l a).
Proof.
  revert a. induction l as [|b l IH]; intros a Ha Hf; simpl; [exact Ha|].
  apply IH; [apply Hf; [left; reflexivity | exact Ha] | intros; apply Hf; [right |]; assumption].
Qed.

(** A property the visit of [b] establishes (where an invariant [I]
    holds) and every later step keeps holds at the end of a fold over a
    list containing [b]. *)
Lemma fold_left_reach {A B : Type} (f : A -> B -> A) (I P : A -> Prop) (l : list B) (a : A) (b : B) :
  In b l -> I a -> (forall a b', In b' l -> I a -> I (f a b')) ->
  (forall a, I a -> P (f a b)) -> (forall a b', In b' l -> P a -> P (f a b')) ->
  P (fold_left f l a).
Proof.
  revert a. induction l as [|b' l IH]; intros a Hin Ha HI HP Hkeep; [destruct Hin|].
  simpl. destruct Hin as [<-|Hin].
  - apply fold_left_inv; [apply HP, Ha | intros; apply Hkeep; [right |]; assumption].
  - apply IH; [exact Hin | apply HI; [left; reflexivity | exact Ha] | | exact HP |];
      intros; [apply HI | apply Hkeep]; solve [right; assumption | assumption].
Qed.

#[export] Hint Rewrite @bind_Ok @bind_Err @bind_assoc : sosnet_rw.

(** [inv_res] cleans up equalities between results. *)
Ltac inv_res :=
  repeat match goal with
  | H : Ok _ = Ok _ |- _ => injection H as H; subst
  | H : Ok _ = Err _ |- _ => discriminate H
  | H : Err _ = Ok _ |- _ => discriminate H
  | H : Err _ = Err _ |- _ => injection H as H; subst
  end.
