(* ===== verification/Layers.v ===== *)
(** * Layers: the architecture declared in [SOSNet.__init__]

    The layer kinds the module instantiates ([nn.InstanceNorm2d],
    [nn.Conv2d], [nn.BatchNorm2d], [nn.ReLU], [nn.Dropout],
    [nn.LocalResponseNorm]) as one inductive type whose fields are the
    constructor arguments, with the framework's defaults for the arguments
    the source leaves out; and the two [nn.Sequential] stacks of
    src/kornia/feature/sosnet.py lines 31-57 as lists of layers, indexed
    like the children of [nn.Sequential]. Real-valued hyperparameters are
    rationals, so the lists compute. *)

From Stdlib Require Import List Arith Lia QArith.
From S2P Require Import Prelude.
Import ListNotations.

Inductive Layer : Type :=
| InstanceNorm2d (num_features : nat) (eps : Q) (affine track_running_stats : bool)
| Conv2d (in_channels out_channels kernel_size stride padding : nat) (bias : bool)
| BatchNorm2d (num_features : nat) (eps momentum : Q) (affine track_running_stats : bool)
| ReLU
| Dropout (p : Q)
| LocalResponseNorm (size : nat) (alpha beta k : Q).

(** Python calls with their keyword defaults filled in:
    [eps=1e-5], [momentum=0.1], [track_running_stats] ([False] for
    instance norm, [True] for batch norm), [stride=1], [padding=0]. *)
Definition instance_norm2d (n : nat) (affine : bool) : Layer :=
  InstanceNorm2d n (1 # 100000) affine false.
Definition batch_norm2d (n : nat) (affine : bool) : Layer :=
  BatchNorm2d n (1 # 100000) (1 # 10) affine true.
Definition conv2d (cin cout k : nat) (stride padding : nat) (bias : bool) : Layer :=
  Conv2d cin cout k stride padding bias.

(** [self.layers], lines 31-54. [dim_desc] is the value line 52 reads from
    [self.dim_desc]. *)
Definition sosnet_layers (dim_desc : nat) : list Layer :=
  [ instance_norm2d 1 false;
    conv2d 1 32 3 1 1 false;
    batch_norm2d 32 false;
    ReLU;
    conv2d 32 32 3 1 1 false;
    batch_norm2d 32 false;
    ReLU;
    conv2d 32 64 3 2 1 false;
    batch_norm2d 64 false;
    ReLU;
    conv2d 64 64 3 1 1 false;
    batch_norm2d 64 false;
    ReLU;
    conv2d 64 128 3 2 1 false;
    batch_norm2d 128 false;
    ReLU;
    conv2d 128 128 3 1 1 false;
    batch_norm2d 128 false;
    ReLU;
    Dropout (1 # 10);
    conv2d 128 dim_desc 8 1 0 false;
    batch_norm2d 128 false ].

(** [self.desc_norm], lines 55-57: [LocalResponseNorm(2 * dim_desc,
    alpha=2 * dim_desc, beta=0.5, k=0)]. *)
Definition desc_norm_layers (dim_desc : nat) : list Layer :=
  [ LocalResponseNorm (2 * dim_desc) (inject_Z (Z.of_nat (2 * dim_desc))) (1 # 2) 0 ].

(** The epsilon [1e-10] added in [forward], line 68. *)
Definition forward_eps : Q := 1 # 10000000000.

(** Layers that hold a learnable weight or a running-statistics buffer. *)
Definition is_conv (l : Layer) : bool :=
  match l with Conv2d _ _ _ _ _ _ => true | _ => false end.
Definition is_batchnorm (l : Layer) : bool :=
  match l with BatchNorm2d _ _ _ _ _ => true | _ => false end.
