(* ===== verification/Sequential.v ===== *)
(** * Sequential: the container [nn.Sequential] as an interface

    A module kind is given a semantics by an instance of [ModuleSem Env T]:
    how a layer, at its index among the children of its [nn.Sequential],
    maps a value of type [T] under an environment [Env] (training flag,
    parameters).  [nn.Sequential.forward] ([for module in self: input =
    module(input)]) is [sequential], defined once against the interface;
    the shape semantics (Shapes.v) and the real-valued semantics
    (Numeric.v) are instances, and the simulation lemma of this file
    relates any two of them. *)

From Stdlib Require Import List Arith Lia QArith.
From S2P Require Import Prelude Layers.
Import ListNotations.
Open Scope nat_scope.

Class ModuleSem (Env T : Type) :=
  module_call : Env -> nat -> Layer -> T -> res T.

Section Sequential.
Context {Env T : Type} {sem : ModuleSem Env T}.

(** The children from index [i] on, applied in order; the first
    exception propagates. *)
Fixpoint sequential_from (env : Env) (i : nat) (ls : list Layer) (x : T) : res T :=
  match ls with
  | [] => Ok x
  | l :: ls' => y <- module_call env i l x ;; sequential_from env (S i) ls' y
  end.

Definition sequential (env : Env) (ls : list Layer) (x : T) : res T :=
  sequential_from env 0 ls x.

Lemma sequential_from_app env i ls1 ls2 x :
  sequential_from env i (ls1 ++ ls2) x =
  y <- sequential_from env i ls1 x ;; sequential_from env (i + length ls1) ls2 y.
Proof.
  revert i x. induction ls1 as [|l ls1 IH]; intros i x; simpl.
  - rewrite Nat.add_0_r. reflexivity.
  - destruct (module_call env i l x) as [y|e]; simpl; [|reflexivity].
    rewrite IH. replace (S i + length ls1) with (i + S (length ls1)) by lia.
    reflexivity.
Qed.

(** When every child before index [k] succeeds and child [k] raises,
    the container raises the same exception. *)
Lemma sequential_from_raises env i pre l post x y e :
  sequential_from env i pre x = Ok y ->
  module_call env (i + length pre) l y = Err e ->
  sequential_from env i (pre ++ l :: post) x = Err e.
Proof.
  intros Hpre Hl. rewrite sequential_from_app, Hpre. simpl. rewrite Hl. reflexivity.
Qed.

Lemma sequential_from_cons_ok env i l ls x y :
  module_call env i l x = Ok y ->
  sequential_from env i (l :: ls) x = sequential_from env (S i) ls y.
Proof. intros H. simpl. rewrite H. reflexivity. Qed.

(** Forward form of [sequential_from_cons_ok], to run the container one
    child at a time with [eapply]. *)
Lemma seq_step env i l ls x y r :
  module_call env i l x = Ok y ->
  sequential_from env (S i) ls y = r ->
  sequential_from env i (l :: ls) x = r.
Proof. intros H1 H2. simpl. rewrite H1. exact H2. Qed.
End Sequential.

(** ** Simulation between two semantics

    If one semantics maps, layer by layer, onto another through an
    abstraction of values and environments, the containers do too. *)
Section Simulation.
Context {Env1 T1 Env2 T2 : Type}.
Context (sem1 : ModuleSem Env1 T1) (sem2 : ModuleSem Env2 T2).
Variable abs : T1 -> T2.
Variable abs_env : Env1 -> Env2.
Hypothesis call_sim : forall env i l x,
  res_map abs (@module_call _ _ sem1 env i l x) =
  @module_call _ _ sem2 (abs_env env) i l (abs x).

Lemma sequential_from_sim env i ls x :
  res_map abs (@sequential_from _ _ sem1 env i ls x) =
  @sequential_from _ _ sem2 (abs_env env) i ls (abs x).
Proof.
  revert i x. induction ls as [|l ls IH]; intros i x; [reflexivity|].
  simpl. rewrite <- call_sim.
  destruct (@module_call _ _ sem1 env i l x) as [y|e]; simpl; [apply IH | reflexivity].
Qed.
End Simulation.

(** ** Tensor operations used by [SOSNet.forward] outside the containers *)

Class TensorOps (T : Type) := {
  (** [t + c] for a Python float [c], broadcast to every element *)
  add_scalar : Q -> T -> T;
  (** [t.view(t.size(0), -1)] *)
  view_batch : T -> res T
}.

(** [SOSNet.forward], lines 67-70, against the interfaces:
    [descr = self.desc_norm(self.layers(input) + 1e-10)];
    [descr = descr.view(descr.size(0), -1)]. *)
Definition forward {Env T : Type} {sem : ModuleSem Env T} {ops : TensorOps T}
    (env : Env) (layers desc_norm : list Layer) (input : T) : res T :=
  y <- sequential env layers input ;;
  descr <- sequential env desc_norm (add_scalar forward_eps y) ;;
  view_batch descr.

Section ForwardSimulation.
Context {Env1 T1 Env2 T2 : Type}.
Context (sem1 : ModuleSem Env1 T1) (sem2 : ModuleSem Env2 T2).
Context (ops1 : TensorOps T1) (ops2 : TensorOps T2).
Variable abs : T1 -> T2.
Variable abs_env : Env1 -> Env2.
Hypothesis call_sim : forall env i l x,
  res_map abs (@module_call _ _ sem1 env i l x) =
  @module_call _ _ sem2 (abs_env env) i l (abs x).
Hypothesis add_sim : forall c x, abs (@add_scalar _ ops1 c x) = @add_scalar _ ops2 c (abs x).
Hypothesis view_sim : forall x, res_map abs (@view_batch _ ops1 x) = @view_batch _ ops2 (abs x).

Lemma forward_sim env layers desc_norm x :
  res_map abs (@forward _ _ sem1 ops1 env layers desc_norm x) =
  @forward _ _ sem2 ops2 (abs_env env) layers desc_norm (abs x).
Proof.
  unfold forward, sequential.
  rewrite <- (sequential_from_sim sem1 sem2 abs abs_env call_sim).
  destruct (@sequential_from _ _ sem1 env 0 layers x) as [y|e]; simpl; [|reflexivity].
  rewrite <- add_sim, <- (sequential_from_sim sem1 sem2 abs abs_env call_sim).
  destruct (@sequential_from _ _ sem1 env 0 desc_norm _) as [z|e]; simpl; [|reflexivity].
  apply view_sim.
Qed.
End ForwardSimulation.

(** ** Semantics that respect an equivalence of values

    If every layer maps related inputs to related results, so do the
    containers and [forward]. *)
Section Respect.
Context {Env T : Type} (sem : ModuleSem Env T) (ops : TensorOps T).
Variable R : T -> T -> Prop.
Hypothesis call_respects : forall env i l x y,
  R x y -> res_rel R (@module_call _ _ sem env i l x) (@module_call _ _ sem env i l y).
Hypothesis add_respects : forall c x y, R x y -> R (@add_scalar _ ops c x) (@add_scalar _ ops c y).
Hypothesis view_respects : forall x y, R x y -> res_rel R (@view_batch _ ops x) (@view_batch _ ops y).

Lemma sequential_from_respects env i ls x y :
  R x y -> res_rel R (@sequential_from _ _ sem env i ls x) (@sequential_from _ _ sem env i ls y).
Proof.
  revert i x y. induction ls as [|l ls IH]; intros i x y Hxy; [exact Hxy|]. simpl.
  pose proof (call_respects env i l x y Hxy) as Hc.
  destruct (@module_call _ _ sem env i l x), (@module_call _ _ sem env i l y); simpl in *;
    try contradiction; [apply IH; exact Hc | exact Hc].
Qed.

Lemma forward_head_respects env l layers desc_norm x y :
  res_rel R (@module_call _ _ sem env 0 l x) (@module_call _ _ sem env 0 l y) ->
  res_rel R (@forward _ _ sem ops env (l :: layers) desc_norm x)
            (@forward _ _ sem ops env (l :: layers) desc_norm y).
Proof.
  intros Hl. unfold forward, sequential. cbn [sequential_from]. rewrite !bind_assoc.
  apply (bind_respects R); [exact Hl|]. intros a b Hab.
  apply (bind_respects R); [apply sequential_from_respects; exact Hab|]. intros c d Hcd.
  apply (bind_respects R); [apply sequential_from_respects, add_respects; exact Hcd|].
  intros e f Hef. apply view_respects. exact Hef.
Qed.

Lemma forward_respects env layers desc_norm x y :
  R x y -> res_rel R (@forward _ _ sem ops env layers desc_norm x)
                     (@forward _ _ sem ops env layers desc_norm y).
Proof.
  intros Hxy. unfold forward, sequential.
  apply (bind_respects R); [apply sequential_from_respects; exact Hxy|]. intros a b Hab.
  apply (bind_respects R); [apply sequential_from_respects, add_respects; exact Hab|].
  intros c d Hcd. apply view_respects. exact Hcd.
Qed.
End Respect.
