(* ===== verification/Shapes.v ===== *)
(** * Shapes: the shape semantics of every layer and of [SOSNet.forward]

    Each layer maps the size of its input tensor to the size of its output
    or raises the framework's exception, as PyTorch 1.6 does:
    [_check_input_dim] of the 2d norm layers, [F._verify_batch_size] in
    training mode, the channel and kernel checks of [F.conv2d], the rank
    check of [F.local_response_norm], and the [view(size(0), -1)] of
    [forward].  The environment is the module's [training] flag.  The
    theorems give the descriptor's shape on every patch size, and every
    way the call raises. *)

From Stdlib Require Import List Arith ZArith Lia ZifyNat QArith.
From S2P Require Import Prelude Layers Sequential.
Import ListNotations.
Open Scope nat_scope.

Definition shape := list nat.

(** [_check_input_dim] of [InstanceNorm2d] and [BatchNorm2d]. *)
Definition check_input_dim (s : shape) : res unit :=
  if length s =? 4 then Ok tt else Err (ValueError (ExpectedDim 4 (length s))).

(** [F._verify_batch_size]: [size[0] * prod(size[2:]) == 1] raises. *)
Definition verify_batch_size (s : shape) : res unit :=
  match s with
  | b :: _ :: rest =>
      if numel (b :: rest) =? 1 then Err (ValueError (MoreThanOneValuePerChannel s))
      else Ok tt
  | _ => Ok tt
  end.

(** A per-channel weight or running buffer of [num_features] entries must
    match the channel count; without either there is nothing to check. *)
Definition check_features (num_features : nat) (has_buffers : bool) (s : shape) : res shape :=
  match s with
  | _ :: c :: _ =>
      if has_buffers && negb (c =? num_features)
      then Err (RuntimeError (ChannelMismatch num_features c)) else Ok s
  | _ => Ok s
  end.

(** [torch.instance_norm] reshapes to [(1, B * C, ...)] and calls
    [torch.batch_norm], whose [_batch_norm_impl_index] returns
    [input.clone()] for an input with no element before any check of the
    channel count against the weight or running buffers. *)
Definition instance_norm_shape (num_features : nat) (affine trs : bool) (s : shape) : res shape :=
  _ <- check_input_dim s ;;
  if numel s =? 0 then Ok s else check_features num_features (affine || trs) s.

(** [_BatchNorm.forward]: [_check_input_dim]; then [F.batch_norm], which
    verifies the batch size when it uses the batch statistics ([training]
    or no running statistics); then [torch.batch_norm], which returns
    [input.clone()] for an input with no element and otherwise compares
    the channel count with the weight and running buffers. *)
Definition batch_norm_shape (training : bool) (num_features : nat) (affine trs : bool)
    (s : shape) : res shape :=
  _ <- check_input_dim s ;;
  _ <- (if training || negb trs then verify_batch_size s else Ok tt) ;;
  if numel s =? 0 then Ok s else check_features num_features (affine || trs) s.

(** Output length of a convolution along one axis. *)
Definition conv_len (n k stride padding : nat) : nat := (n + 2 * padding - k) / stride + 1.

Definition conv2d_shape (cin cout k stride padding : nat) (s : shape) : res shape :=
  match s with
  | [n; c; h; w] =>
      if negb (c =? cin) then Err (RuntimeError (ChannelMismatch cin c))
      else if h + 2 * padding <? k then Err (RuntimeError (KernelTooLarge (h + 2 * padding) k))
      else if w + 2 * padding <? k then Err (RuntimeError (KernelTooLarge (w + 2 * padding) k))
      else Ok [n; cout; conv_len h k stride padding; conv_len w k stride padding]
  | _ => Err (RuntimeError (InputDimMismatch 4 (length s)))
  end.

(** [F.local_response_norm(input, size, ...)]: a rank check; for a 4-d
    or larger input, [div.view(sizes[0], 1, sizes[1], sizes[2], -1)],
    whose [-1] is ambiguous when [sizes[0] * sizes[1] * sizes[2] = 0];
    then the average pooling over a window of [size] channels, which
    refuses a kernel of size 0. *)
Definition lrn_shape (size : nat) (s : shape) : res shape :=
  if length s <? 3 then Err (ValueError (ExpectedDimAtLeast 3 (length s)))
  else if (3 <? length s) && (numel (firstn 3 s) =? 0) then Err (RuntimeError (ViewAmbiguous s))
  else if size =? 0 then Err (RuntimeError (KernelNotPositive size))
  else Ok s.

#[export] Instance shape_sem : ModuleSem bool shape :=
  fun training _ l s =>
    match l with
    | InstanceNorm2d nf _ affine trs => instance_norm_shape nf affine trs s
    | Conv2d cin cout k stride padding _ => conv2d_shape cin cout k stride padding s
    | BatchNorm2d nf _ _ affine trs => batch_norm_shape training nf affine trs s
    | ReLU => Ok s
    | Dropout _ => Ok s
    | LocalResponseNorm size _ _ _ => lrn_shape size s
    end.

(** [t.view(t.size(0), -1)]: [size(0)] of a 0-d tensor raises
    [IndexError]; [infer_size] finds [-1] ambiguous exactly when the given
    size [size(0)] is 0 (a [2 x 0] tensor views to [2 x 0]). *)
Definition view_batch_shape (s : shape) : res shape :=
  match s with
  | [] => Err (IndexError 0)
  | b :: rest => if b =? 0 then Err (RuntimeError (ViewAmbiguous s)) else Ok [b; numel rest]
  end.

#[export] Instance shape_ops : TensorOps shape := {
  add_scalar _ s := s;
  view_batch := view_batch_shape
}.

Definition forward_shape (training : bool) (dim_desc : nat) (s : shape) : res shape :=
  forward training (sosnet_layers dim_desc) (desc_norm_layers dim_desc) s.

(** ** One layer at a time on a 4-d shape *)

Lemma conv_len_pos n k stride padding : 1 <= conv_len n k stride padding.
Proof. unfold conv_len. lia. Qed.

Lemma conv_step training i cin cout k stride padding bias n c h w :
  c = cin -> k <= h + 2 * padding -> k <= w + 2 * padding ->
  module_call training i (Conv2d cin cout k stride padding bias) [n; c; h; w] =
  Ok [n; cout; conv_len h k stride padding; conv_len w k stride padding].
Proof.
  intros -> Hh Hw. unfold module_call, shape_sem, conv2d_shape.
  rewrite Nat.eqb_refl. simpl negb. cbv iota.
  destruct (Nat.ltb_spec (h + 2 * padding) k); [lia|].
  destruct (Nat.ltb_spec (w + 2 * padding) k); [lia|]. reflexivity.
Qed.

Lemma bn_step training i nf eps mom affine n c h w :
  c = nf -> (training = false \/ (n <> 1 /\ 1 <= h /\ 1 <= w)) ->
  module_call training i (BatchNorm2d nf eps mom affine true) [n; c; h; w] = Ok [n; c; h; w].
Proof.
  intros -> Hb.
  assert (Hv : (if training || negb true then verify_batch_size [n; nf; h; w] else Ok tt) = Ok tt).
  { destruct Hb as [-> | (Hn & Hh & Hw)]; [reflexivity|]. destruct training; [|reflexivity].
    cbn [orb verify_batch_size]. destruct (Nat.eqb_spec (numel [n; h; w]) 1) as [E|_]; [|reflexivity].
    cbn in E. destruct (Nat.eq_dec n 0) as [->|Hn0]; [discriminate|nia]. }
  unfold module_call, shape_sem, batch_norm_shape. cbn [check_input_dim List.length Nat.eqb bind].
  rewrite Hv. cbn [bind]. destruct (numel _ =? 0); [reflexivity|].
  cbn [check_features]. rewrite orb_true_r, Nat.eqb_refl. reflexivity.
Qed.

Lemma in_step training i nf eps s :
  length s = 4 ->
  module_call training i (InstanceNorm2d nf eps false false) s = Ok s.
Proof.
  intros Hs. unfold module_call, shape_sem, instance_norm_shape, check_input_dim.
  rewrite Hs. simpl. destruct (numel s =? 0); [reflexivity|].
  destruct s as [|a [|c t]]; reflexivity.
Qed.

Lemma relu_step training i s : module_call training i ReLU s = Ok s.
Proof. reflexivity. Qed.

Lemma dropout_step training i p s : module_call training i (Dropout p) s = Ok s.
Proof. reflexivity. Qed.

Lemma lrn_step training i size alpha beta k s :
  3 <= length s -> numel (firstn 3 s) <> 0 -> size <> 0 ->
  module_call training i (LocalResponseNorm size alpha beta k) s = Ok s.
Proof.
  intros Hs Hn Hz. unfold module_call, shape_sem, lrn_shape.
  destruct (Nat.ltb_spec (length s) 3); [lia|].
  replace (numel (firstn 3 s) =? 0) with false by (symmetry; apply Nat.eqb_neq, Hn).
  rewrite andb_false_r. replace (size =? 0) with false by (symmetry; apply Nat.eqb_neq, Hz).
  reflexivity.
Qed.

Lemma lrn_shape_ok size s s' : lrn_shape size s = Ok s' -> s' = s.
Proof.
  unfold lrn_shape. intros H.
  destruct (length s <? 3); [discriminate|].
  destruct ((3 <? length s) && (numel (firstn 3 s) =? 0)); [discriminate|].
  destruct (size =? 0); [discriminate|]. injection H as <-. reflexivity.
Qed.

Lemma instance_norm_shape_ok nf s s' : instance_norm_shape nf false false s = Ok s' -> s' = s.
Proof.
  unfold instance_norm_shape. intros H.
  destruct (check_input_dim s); [|discriminate]. cbn [bind] in H.
  destruct (numel s =? 0); [congruence|]. destruct s as [|s0 [|s1 t]]; cbn in H; congruence.
Qed.

(** Every [conv_len] in the goal is at least one. *)
Ltac conv_len_facts :=
  repeat match goal with
  | |- context [conv_len ?n ?k ?s ?p] =>
      lazymatch goal with
      | _ : 1 <= conv_len n k s p |- _ => fail
      | _ => pose proof (conv_len_pos n k s p)
      end
  end.

Ltac shape_side := conv_len_facts;
  solve [ reflexivity | lia | left; reflexivity | right; lia ].

(** Run the next child of a container on a known shape. *)
Ltac shape_step :=
  eapply seq_step;
  [ first [ apply conv_step | apply bn_step | apply in_step | apply relu_step
          | apply dropout_step | apply lrn_step ]; shape_side | ].

Lemma conv3_s1_len n : 1 <= n -> conv_len n 3 1 1 = n.
Proof. apply stride1_len. Qed.

Lemma conv3_s2_len n : 1 <= n -> conv_len n 3 2 1 = (n + 1) / 2.
Proof. apply stride2_len. Qed.

(** Side length after the six 3x3 convolutions of the feature stack. *)
Lemma features_len n :
  1 <= n ->
  conv_len (conv_len (conv_len (conv_len (conv_len (conv_len n 3 1 1) 3 1 1) 3 2 1)
    3 1 1) 3 2 1) 3 1 1 = (n + 3) / 4.
Proof.
  intros Hn. rewrite (conv3_s1_len n Hn), (conv3_s1_len n Hn), (conv3_s2_len n Hn).
  rewrite (conv3_s1_len ((n + 1) / 2)), (conv3_s2_len ((n + 1) / 2)) by lia.
  rewrite (conv3_s1_len (((n + 1) / 2 + 1) / 2)) by lia.
  lia.
Qed.

(** The architecture is its first twenty children (every one fixed by the
    source) followed by the final convolution and batch norm. *)
Lemma sosnet_layers_split dim_desc :
  sosnet_layers dim_desc =
  firstn 20 (sosnet_layers 0) ++ [conv2d 128 dim_desc 8 1 0 false; batch_norm2d 128 false].
Proof. reflexivity. Qed.

(** The twenty first children take a [B x 1 x H x W] batch to
    [B x 128 x ceil(H/4) x ceil(W/4)]: two stride-2 convolutions, each
    halving the side rounding up, and the rest keeping it. *)
Lemma features_shape training B H W :
  1 <= H -> 1 <= W -> (training = false \/ B <> 1) ->
  sequential_from training 0 (firstn 20 (sosnet_layers 0)) [B; 1; H; W] =
  Ok [B; 128; (H + 3) / 4; (W + 3) / 4].
Proof.
  intros HH HW Ht. simpl firstn.
  assert (Hb : forall h w, 1 <= h -> 1 <= w ->
    training = false \/ (B <> 1 /\ 1 <= h /\ 1 <= w)) by (intros; destruct Ht; [left|right]; auto).
  repeat (eapply seq_step;
    [ first [ apply conv_step | apply bn_step | apply in_step | apply relu_step
            | apply dropout_step ];
      conv_len_facts; first [ reflexivity | lia | apply Hb; lia ] | ]).
  cbn [sequential_from]. rewrite !features_len by lia. reflexivity.
Qed.

Lemma conv8_len n : 8 <= n -> conv_len n 8 1 0 = n - 7.
Proof. intros Hn. unfold conv_len. rewrite Nat.div_1_r. lia. Qed.

(** The final convolution and batch norm, on a map of side [h x w]. *)
Lemma head_shape training dim_desc B h w :
  8 <= h -> 8 <= w -> (training = false \/ B <> 1) ->
  sequential_from training 20 [conv2d 128 dim_desc 8 1 0 false; batch_norm2d 128 false]
    [B; 128; h; w] =
  sequential_from training 21 [batch_norm2d 128 false] [B; dim_desc; h - 7; w - 7].
Proof.
  intros Hh Hw Ht. eapply seq_step; [apply conv_step; lia|].
  rewrite !conv8_len by lia. reflexivity.
Qed.

Lemma layers_shape_head training dim_desc B H W :
  29 <= H -> 29 <= W -> (training = false \/ B <> 1) ->
  sequential training (sosnet_layers dim_desc) [B; 1; H; W] =
  sequential_from training 21 [batch_norm2d 128 false]
    [B; dim_desc; (H + 3) / 4 - 7; (W + 3) / 4 - 7].
Proof.
  intros HH HW Ht. unfold sequential.
  rewrite sosnet_layers_split, sequential_from_app, features_shape by (assumption || lia).
  apply head_shape; (assumption || lia).
Qed.

(** [self.layers] on a batch of patches of side at least 29. *)
Lemma layers_shape training B H W :
  29 <= H -> 29 <= W -> (training = false \/ B <> 1) ->
  sequential training (sosnet_layers 128) [B; 1; H; W] =
  Ok [B; 128; (H + 3) / 4 - 7; (W + 3) / 4 - 7].
Proof.
  intros HH HW Ht. rewrite layers_shape_head by assumption.
  eapply seq_step; [apply bn_step; [reflexivity|] | reflexivity].
  destruct Ht; [left; assumption | right; lia].
Qed.

Lemma desc_norm_view_shape training dim_desc B C h w :
  1 <= dim_desc -> 1 <= B -> 1 <= C -> 1 <= h -> 1 <= w ->
  (y <- sequential training (desc_norm_layers dim_desc) (add_scalar forward_eps [B; C; h; w]) ;;
   view_batch y) = Ok [B; C * (h * w)].
Proof.
  intros Hd HB HC Hh Hw. cbn [add_scalar shape_ops]. unfold sequential, desc_norm_layers.
  cbn [sequential_from]. rewrite lrn_step by (simpl; first [lia | nia]). simpl.
  destruct (Nat.eqb_spec B 0); [lia|]. repeat f_equal. lia.
Qed.

Lemma conv_err_kernel training i cin cout k stride padding bias n c h w :
  c = cin -> h + 2 * padding < k ->
  module_call training i (Conv2d cin cout k stride padding bias) [n; c; h; w] =
  Err (RuntimeError (KernelTooLarge (h + 2 * padding) k)).
Proof.
  intros -> Hh. unfold module_call, shape_sem, conv2d_shape.
  rewrite Nat.eqb_refl. simpl negb. cbv iota.
  destruct (Nat.ltb_spec (h + 2 * padding) k); [reflexivity | lia].
Qed.

Lemma forward_shape_layers_err training dim_desc s e :
  sequential training (sosnet_layers dim_desc) s = Err e ->
  forward_shape training dim_desc s = Err e.
Proof. intros H. unfold forward_shape, forward. rewrite H. reflexivity. Qed.

Lemma conv_err_kernel_w training i cin cout k stride padding bias n c h w :
  c = cin -> k <= h + 2 * padding -> w + 2 * padding < k ->
  module_call training i (Conv2d cin cout k stride padding bias) [n; c; h; w] =
  Err (RuntimeError (KernelTooLarge (w + 2 * padding) k)).
Proof.
  intros -> Hh Hw. unfold module_call, shape_sem, conv2d_shape.
  rewrite Nat.eqb_refl. simpl negb. cbv iota.
  destruct (Nat.ltb_spec (h + 2 * padding) k); [lia|].
  destruct (Nat.ltb_spec (w + 2 * padding) k); [reflexivity | lia].
Qed.

(** A patch side of 0 fails the first convolution. *)
Lemma zero_side_not_ok training dim_desc B H W :
  H = 0 \/ W = 0 -> is_ok (forward_shape training dim_desc [B; 1; H; W]) = false.
Proof.
  intros HW. unfold forward_shape, forward, sequential. cbn [sosnet_layers sequential_from].
  unfold instance_norm2d, conv2d. rewrite in_step by reflexivity. rewrite bind_Ok.
  destruct (Nat.ltb_spec H 1).
  - rewrite conv_err_kernel by lia. reflexivity.
  - rewrite conv_err_kernel_w by lia. reflexivity.
Qed.

(** ** The descriptor's shape *)

Lemma shape_of_forward training B H W :
  1 <= B -> 29 <= H -> 29 <= W -> (training = false \/ B <> 1) ->
  forward_shape training 128 [B; 1; H; W] =
  Ok [B; 128 * ((H + 3) / 4 - 7) * ((W + 3) / 4 - 7)].
Proof.
  intros HB HH HW Ht. unfold forward_shape, forward.
  rewrite layers_shape by assumption. rewrite bind_Ok.
  rewrite desc_norm_view_shape by lia. rewrite Nat.mul_assoc. reflexivity.
Qed.

(** C2: In evaluation mode, or in training mode with at least two patches,
    [SOSNet.forward] maps a batch of [B >= 1] one-channel patches of side
    [H x W >= 29] to a [B x (128 * (ceil(H/4) - 7) * (ceil(W/4) - 7))]
    matrix: one row per patch. *)
Theorem forward_shape_spec training B H W :
  1 <= B -> 29 <= H -> 29 <= W -> (training = false \/ B <> 1) ->
  forward_shape training 128 [B; 1; H; W] =
  Ok [B; 128 * ((H + 3) / 4 - 7) * ((W + 3) / 4 - 7)].
Proof. apply shape_of_forward. Qed.

Lemma forward_shape_spec_witness :
  forward_shape false 128 [8; 1; 64; 48] = Ok [8; 128 * 9 * 5].
Proof. apply (forward_shape_spec false 8 64 48); lia. Defined.

(** A side below 29 leaves a map smaller than the last 8 x 8 kernel. *)
Lemma small_side_not_ok training B H W :
  1 <= H -> 1 <= W -> (H < 29 \/ W < 29) -> (training = false \/ B <> 1) ->
  is_ok (forward_shape training 128 [B; 1; H; W]) = false.
Proof.
  intros HH HW Hs Ht. unfold forward_shape, forward, sequential.
  rewrite sosnet_layers_split, sequential_from_app, features_shape by (assumption || lia).
  rewrite bind_Ok. cbn [sequential_from]. unfold conv2d.
  destruct (Nat.ltb_spec ((H + 3) / 4) 8).
  - rewrite conv_err_kernel by lia. reflexivity.
  - rewrite conv_err_kernel_w by lia. reflexivity.
Qed.

Lemma forward_shape_128_only_if training B H W :
  1 <= B -> (training = false \/ B <> 1) ->
  forward_shape training 128 [B; 1; H; W] = Ok [B; 128] -> 29 <= H <= 32 /\ 29 <= W <= 32.
Proof.
  intros HB Ht Hok.
  assert (Hbad : H = 0 \/ W = 0 \/ H < 29 \/ W < 29 -> False).
  { intros Hc. destruct (Nat.eq_dec H 0) as [HH|HH]; [|destruct (Nat.eq_dec W 0) as [HW|HW]].
    - pose proof (zero_side_not_ok training 128 B H W (or_introl HH)). rewrite Hok in *. discriminate.
    - pose proof (zero_side_not_ok training 128 B H W (or_intror HW)). rewrite Hok in *. discriminate.
    - pose proof (small_side_not_ok training B H W ltac:(lia) ltac:(lia) ltac:(lia) Ht).
      rewrite Hok in *. discriminate. }
  destruct (le_lt_dec 29 H); [|exfalso; auto].
  destruct (le_lt_dec 29 W); [|exfalso; auto].
  rewrite shape_of_forward in Hok by assumption.
  remember ((H + 3) / 4 - 7) as a eqn:Ea. remember ((W + 3) / 4 - 7) as b eqn:Eb.
  remember (128 * a * b) as P eqn:EP. injection Hok as E. subst P.
  assert (1 <= a) by lia. assert (1 <= b) by lia.
  assert (a = 1 /\ b = 1) as [-> ->] by (clear Ea Eb; nia).
  lia.
Qed.

Lemma forward_shape_128_cases training B H W :
  1 <= B -> (training = false \/ B <> 1) ->
  forward_shape training 128 [B; 1; H; W] = Ok [B; 128] <-> (29 <= H <= 32 /\ 29 <= W <= 32).
Proof.
  intros HB Ht. split; [apply forward_shape_128_only_if; assumption|].
  intros [HH HW]. rewrite shape_of_forward by (assumption || lia).
  replace ((H + 3) / 4) with 8 by lia. replace ((W + 3) / 4) with 8 by lia. reflexivity.
Qed.

(** C3: The descriptor has exactly 128 entries per patch if and only if
    both patch sides are between 29 and 32 (the docstring's 32 x 32 is one
    such input). *)
Theorem forward_shape_128_iff training B H W :
  1 <= B -> (training = false \/ B <> 1) ->
  forward_shape training 128 [B; 1; H; W] = Ok [B; 128] <-> (29 <= H <= 32 /\ 29 <= W <= 32).
Proof. apply forward_shape_128_cases. Qed.

Lemma forward_shape_128_iff_witness :
  forward_shape false 128 [8; 1; 32; 32] = Ok [8; 128].
Proof. apply (proj2 (forward_shape_128_iff false 8 32 32 ltac:(lia) (or_introl eq_refl))). lia. Defined.

(** ** Every way [forward] raises on a 4-d batch *)




Lemma conv_err_channels training i cin cout k stride padding bias n c h w :
  c <> cin ->
  module_call training i (Conv2d cin cout k stride padding bias) [n; c; h; w] =
  Err (RuntimeError (ChannelMismatch cin c)).
Proof.
  intros Hc. unfold module_call, shape_sem, conv2d_shape.
  destruct (Nat.eqb_spec c cin); [contradiction | reflexivity].
Qed.

(** C21: A patch side below 29 (and at least 1) makes the final 8 x 8
    convolution raise [RuntimeError], its kernel being larger than the
    [ceil(H/4)]-wide map it receives. *)
Theorem forward_shape_small_patch training B H W :
  1 <= H < 29 -> 1 <= W -> (training = false \/ B <> 1) ->
  forward_shape training 128 [B; 1; H; W] =
  Err (RuntimeError (KernelTooLarge ((H + 3) / 4) 8)).
Proof.
  intros HH HW Ht. unfold forward_shape, forward, sequential.
  rewrite sosnet_layers_split, sequential_from_app, features_shape by (assumption || lia).
  rewrite bind_Ok. cbn [sequential_from]. unfold conv2d.
  rewrite conv_err_kernel by lia. rewrite Nat.add_0_r. reflexivity.
Qed.

Lemma forward_shape_small_patch_witness :
  forward_shape false 128 [4; 1; 16; 16] = Err (RuntimeError (KernelTooLarge 4 8)).
Proof. apply (forward_shape_small_patch false 4 16 16); [lia | lia | left; reflexivity]. Defined.

(** C19: A freshly built module is in training mode; there, a batch of a
    single 32 x 32 (or 29..32) patch reaches the last [BatchNorm2d] with one
    value per channel and [forward] raises [ValueError]. *)
Theorem forward_shape_train_single_patch H W :
  29 <= H <= 32 -> 29 <= W <= 32 ->
  forward_shape true 128 [1; 1; H; W] =
  Err (ValueError (MoreThanOneValuePerChannel [1; 128; 1; 1])).
Proof.
  intros HH HW.
  assert (H = 29 \/ H = 30 \/ H = 31 \/ H = 32) as HH' by lia.
  assert (W = 29 \/ W = 30 \/ W = 31 \/ W = 32) as HW' by lia.
  destruct HH' as [-> | [-> | [-> | ->]]]; destruct HW' as [-> | [-> | [-> | ->]]];
    vm_compute; reflexivity.
Qed.

Lemma forward_shape_train_single_patch_witness :
  forward_shape true 128 [1; 1; 32; 32] =
  Err (ValueError (MoreThanOneValuePerChannel [1; 128; 1; 1])).
Proof. apply forward_shape_train_single_patch; lia. Defined.

(** C22: An empty batch goes through [self.layers] (each batch norm
    returns its empty input as it is) and [self.desc_norm] raises
    [RuntimeError]: [local_response_norm]'s internal
    [view(sizes[0], 1, sizes[1], sizes[2], -1)] finds [-1] ambiguous on a
    tensor with no element, before [forward]'s own [view] is reached. *)
Theorem forward_shape_empty_batch training H W :
  29 <= H -> 29 <= W ->
  sequential training (sosnet_layers 128) [0; 1; H; W] =
    Ok [0; 128; (H + 3) / 4 - 7; (W + 3) / 4 - 7] /\
  sequential training (desc_norm_layers 128) [0; 128; (H + 3) / 4 - 7; (W + 3) / 4 - 7] =
    Err (RuntimeError (ViewAmbiguous [0; 128; (H + 3) / 4 - 7; (W + 3) / 4 - 7])) /\
  forward_shape training 128 [0; 1; H; W] =
    Err (RuntimeError (ViewAmbiguous [0; 128; (H + 3) / 4 - 7; (W + 3) / 4 - 7])).
Proof.
  intros HH HW.
  assert (Hl : sequential training (sosnet_layers 128) [0; 1; H; W] =
               Ok [0; 128; (H + 3) / 4 - 7; (W + 3) / 4 - 7])
    by (apply layers_shape; (lia || (right; lia))).
  assert (Hd : sequential training (desc_norm_layers 128) [0; 128; (H + 3) / 4 - 7; (W + 3) / 4 - 7] =
               Err (RuntimeError (ViewAmbiguous [0; 128; (H + 3) / 4 - 7; (W + 3) / 4 - 7])))
    by reflexivity.
  split; [exact Hl | split; [exact Hd|]].
  unfold forward_shape, forward. rewrite layers_shape by (lia || (right; lia)).
  rewrite bind_Ok. exact Hd.
Qed.

Lemma forward_shape_empty_batch_witness :
  sequential true (sosnet_layers 128) [0; 1; 32; 32] = Ok [0; 128; 1; 1] /\
  sequential true (desc_norm_layers 128) [0; 128; 1; 1] =
    Err (RuntimeError (ViewAmbiguous [0; 128; 1; 1])) /\
  forward_shape true 128 [0; 1; 32; 32] = Err (RuntimeError (ViewAmbiguous [0; 128; 1; 1])).
Proof. apply (forward_shape_empty_batch true 32 32); lia. Defined.



(** C23: [InstanceNorm2d(1, affine=False)] has no per-channel parameter
    and lets any channel count through; the first convolution then raises
    [RuntimeError] on an input that does not have exactly one channel. *)
Theorem forward_shape_channels training dim_desc B C H W :
  C <> 1 ->
  forward_shape training dim_desc [B; C; H; W] = Err (RuntimeError (ChannelMismatch 1 C)).
Proof.
  intros HC. apply forward_shape_layers_err. unfold sequential.
  cbn [sosnet_layers sequential_from]. unfold instance_norm2d, conv2d.
  rewrite in_step by reflexivity. rewrite bind_Ok, conv_err_channels by assumption.
  reflexivity.
Qed.

Lemma forward_shape_channels_witness :
  forward_shape false 128 [8; 3; 32; 32] = Err (RuntimeError (ChannelMismatch 1 3)).
Proof. apply forward_shape_channels. lia. Defined.

(** C24: An input that is not 4-d (e.g. an unbatched [1 x 32 x 32] patch)
    is refused by the first layer with [ValueError]. *)
Theorem forward_shape_rank training dim_desc s :
  length s <> 4 ->
  forward_shape training dim_desc s = Err (ValueError (ExpectedDim 4 (length s))).
Proof.
  intros Hs. apply forward_shape_layers_err. unfold sequential.
  cbn [sosnet_layers sequential_from]. unfold instance_norm2d, module_call at 1, shape_sem,
    instance_norm_shape, check_input_dim.
  destruct (Nat.eqb_spec (length s) 4); [contradiction | reflexivity].
Qed.

Lemma forward_shape_rank_witness :
  forward_shape false 128 [1; 32; 32] = Err (ValueError (ExpectedDim 4 3)).
Proof. apply (forward_shape_rank false 128 [1; 32; 32]). simpl. lia. Defined.
