(* ===== verification/StateDict.v ===== *)
(** * StateDict: parameters, buffers and [nn.Module.load_state_dict]

    The tensors a module owns are named by dotted keys ([layers.1.weight],
    [layers.2.running_mean], ...).  This file models the registry of
    every submodule's parameters and buffers ([module_entry], in the
    pre-order [load] walks the tree), the store of the module's tensors (a
    [gmap] from keys to values), [state_dict] and the PyTorch 1.6
    [load_state_dict] with its helpers [_load_from_state_dict] of
    [nn.Module], of [_NormBase] and of [_InstanceNorm].  Tensor values
    are abstract: a section variable [V] with its [shape_of]. *)

From Stdlib Require Import Ascii.
From stdpp Require Import base gmap strings list pretty.
From S2P Require Import Prelude Layers.

(** ** The registry of submodules *)

Inductive norm_kind : Type := PlainModule | NormBase (instance : bool) (trs : bool).

(** One submodule, at the [prefix] its keys start with ([""] for the
    root, ["layers.1."] for a child): its own parameters then buffers with
    their sizes, the names of its children, and its class. *)
Record module_entry : Type := {
  me_prefix : string;
  me_locals : list (string * list nat);
  me_children : list string;
  me_kind : norm_kind
}.

Definition norm_locals (nf : nat) (affine trs : bool) : list (string * list nat) :=
  (if affine then [("weight", [nf]); ("bias", [nf])] else []) ++
  (if trs then [("running_mean", [nf]); ("running_var", [nf]); ("num_batches_tracked", [])]
   else []).

(** Parameters (registered first) then buffers of a layer. A [bias=False]
    convolution registers [bias] as [None], which [state_dict] skips. *)
Definition layer_locals (l : Layer) : list (string * list nat) :=
  match l with
  | Conv2d cin cout k _ _ bias =>
      ("weight", [cout; cin; k; k]) :: (if bias then [("bias", [cout])] else [])
  | BatchNorm2d nf _ _ affine trs => norm_locals nf affine trs
  | InstanceNorm2d nf _ affine trs => norm_locals nf affine trs
  | _ => []
  end.

Definition layer_kind (l : Layer) : norm_kind :=
  match l with
  | BatchNorm2d _ _ _ _ trs => NormBase false trs
  | InstanceNorm2d _ _ _ trs => NormBase true trs
  | _ => PlainModule
  end.

(** An [nn.Sequential] registered as [name]: the container, then its
    children ["0"], ["1"], ... in order. *)
Definition sequential_entries (name : string) (ls : list Layer) : list module_entry :=
  {| me_prefix := name +:+ "."; me_locals := [];
     me_children := map pretty (seq 0 (length ls)); me_kind := PlainModule |} ::
  imap (fun i l => {| me_prefix := name +:+ "." +:+ pretty i +:+ ".";
                      me_locals := layer_locals l; me_children := [];
                      me_kind := layer_kind l |}) ls.

(** The submodules of a [SOSNet], in the order [load] visits them: the
    root (children [layers] and [desc_norm], registered in that order by
    [__init__]), then each container and its children. *)
Definition sosnet_entries (layers desc_norm : list Layer) : list module_entry :=
  {| me_prefix := ""; me_locals := []; me_children := ["layers"; "desc_norm"];
     me_kind := PlainModule |} ::
  sequential_entries "layers" layers ++ sequential_entries "desc_norm" desc_norm.

(** Every key of the module with its size, in [state_dict] order. *)
Definition entry_keys (e : module_entry) : list (string * list nat) :=
  map (fun '(n, s) => (me_prefix e +:+ n, s)) (me_locals e).

Definition module_keys (es : list module_entry) : list (string * list nat) :=
  concat (map entry_keys es).

(** ** String helpers of the loader *)

(** [key.split('.', 1)[0]] *)
Fixpoint first_component (s : string) : string :=
  match s with
  | EmptyString => EmptyString
  | String c r => if Ascii.eqb c "."%char then EmptyString else String c (first_component r)
  end.

(** [key[len(prefix):]] *)
Definition drop_prefix (p k : string) : string :=
  String.substring (String.length p) (String.length k) k.

(** [prefix[:-1]]: the module's name in the metadata. *)
Definition strip_last (p : string) : string :=
  String.substring 0 (String.length p - 1) p.

Section Load.
Context {V : Type}.
(** [tensor.shape] *)
Variable shape_of : V -> list nat.
(** [input_param[0]] *)
Variable select0 : V -> V.
(** [torch.tensor(0, dtype=torch.long)] *)
Variable long_zero : V.

Definition sd_has (k : string) (sd : list (string * V)) : bool :=
  match sd_lookup k sd with Some _ => true | None => false end.

(** [state_dict[k] = v] for a new key appends it. *)
Definition sd_append (k : string) (v : V) (sd : list (string * V)) : list (string * V) :=
  sd ++ [(k, v)].

(** [state_dict.pop(k)] *)
Definition sd_pop (k : string) (sd : list (string * V)) : list (string * V) :=
  List.filter (fun kv => negb (String.eqb (fst kv) k)) sd.

(** The lists [load_state_dict] threads through the walk, and the
    module's tensors, which [param.copy_] updates as it goes. *)
Record load_state : Type := {
  ls_params : gmap string V;
  ls_sd : list (string * V);
  ls_missing : list string;
  ls_unexpected : list string;
  ls_msgs : list load_msg
}.

Definition set_params p st := {| ls_params := p; ls_sd := ls_sd st; ls_missing := ls_missing st;
  ls_unexpected := ls_unexpected st; ls_msgs := ls_msgs st |}.
Definition set_sd sd st := {| ls_params := ls_params st; ls_sd := sd; ls_missing := ls_missing st;
  ls_unexpected := ls_unexpected st; ls_msgs := ls_msgs st |}.
Definition add_missing k st := {| ls_params := ls_params st; ls_sd := ls_sd st;
  ls_missing := ls_missing st ++ [k]; ls_unexpected := ls_unexpected st; ls_msgs := ls_msgs st |}.
Definition add_unexpected k st := {| ls_params := ls_params st; ls_sd := ls_sd st;
  ls_missing := ls_missing st; ls_unexpected := ls_unexpected st ++ [k]; ls_msgs := ls_msgs st |}.
Definition add_msg m st := {| ls_params := ls_params st; ls_sd := ls_sd st;
  ls_missing := ls_missing st; ls_unexpected := ls_unexpected st; ls_msgs := ls_msgs st ++ [m] |}.

(** [_InstanceNorm._load_from_state_dict]: a checkpoint without a
    version that has running statistics for an instance norm without
    them gets an error message, and the keys are popped. *)
Definition instance_norm_pre (prefix : string) (st : load_state) : load_state :=
  let ks := List.filter (fun k => sd_has k (ls_sd st))
              [prefix +:+ "running_mean"; prefix +:+ "running_var"] in
  match ks with
  | [] => st
  | _ => set_sd (fold_left (fun sd k => sd_pop k sd) ks (ls_sd st))
           (add_msg (UnexpectedRunningStats ks) st)
  end.

(** [_NormBase._load_from_state_dict]: before version 2 a missing
    [num_batches_tracked] is filled with a long zero. *)
Definition norm_base_pre (prefix : string) (trs : bool) (version : option nat)
    (st : load_state) : load_state :=
  let old := match version with None => true | Some v => v <? 2 end in
  let key := prefix +:+ "num_batches_tracked" in
  if old && trs && negb (sd_has key (ls_sd st))
  then set_sd (sd_append key long_zero (ls_sd st)) st
  else st.

Definition kind_pre (e : module_entry) (version : option nat) (st : load_state) : load_state :=
  match me_kind e with
  | PlainModule => st
  | NormBase inst trs =>
      let st := if inst && negb trs && match version with None => true | _ => false end
                then instance_norm_pre (me_prefix e) st else st in
      norm_base_pre (me_prefix e) trs version st
  end.
(** The loop of [nn.Module._load_from_state_dict] over one tensor the
    module holds ([local_state] skips the ones registered as [None]). *)
Definition load_local (prefix : string) (st : load_state) (name : string) : load_state :=
  let key := prefix +:+ name in
  match ls_params st !! key with
  | None => st
  | Some param =>
      match sd_lookup key (ls_sd st) with
      | Some input0 =>
          let input := if (length (shape_of param) =? 0) && (length (shape_of input0) =? 1)
                       then select0 input0 else input0 in
          if decide (shape_of input = shape_of param)
          then set_params (<[key := input]> (ls_params st)) st
          else add_msg (SizeMismatch key (shape_of input) (shape_of param)) st
      | None => add_missing key st
      end
  end.

Definition has_local (params : gmap string V) (prefix name : string) : bool :=
  match params !! (prefix +:+ name) with Some _ => true | None => false end.

(** The [strict] scan: a key under the module's prefix whose first
    component is neither a child nor a tensor of the module. *)
Definition scan_unexpected (e : module_entry) (st : load_state) : load_state :=
  fold_left (fun st kv =>
    let k := fst kv in
    if String.prefix (me_prefix e) k then
      let n := first_component (drop_prefix (me_prefix e) k) in
      if bool_decide (n ∈ me_children e) ||
         (bool_decide (n ∈ map fst (me_locals e)) && has_local (ls_params st) (me_prefix e) n)
      then st else add_unexpected k st
    else st) (ls_sd st) st.

Definition version_of (metadata : option (list (string * nat))) (prefix : string) : option nat :=
  match metadata with
  | None => None
  | Some m => sd_lookup (strip_last prefix) m
  end.

(** One call of [load(module, prefix)] before it recurses. *)
Definition load_entry (metadata : option (list (string * nat))) (st : load_state)
    (e : module_entry) : load_state :=
  let st := kind_pre e (version_of metadata (me_prefix e)) st in
  let st := fold_left (load_local (me_prefix e)) (map fst (me_locals e)) st in
  scan_unexpected e st.

(** [nn.Module.load_state_dict(state_dict, strict)]: the module's
    tensors after the call (the copies are made before the error is
    raised) and the call's result, [_IncompatibleKeys] or the
    [RuntimeError]. *)
Definition load_state_dict (strict : bool) (metadata : option (list (string * nat)))
    (entries : list module_entry) (sd : list (string * V)) (params : gmap string V)
    : gmap string V * res (list string * list string) :=
  let st := fold_left (load_entry metadata) entries
              {| ls_params := params; ls_sd := sd; ls_missing := [];
                 ls_unexpected := []; ls_msgs := [] |} in
  let missing := if strict then ls_missing st else [] in
  let unexpected := if strict then ls_unexpected st else [] in
  (ls_params st,
   match missing, unexpected, ls_msgs st with
   | [], [], [] => Ok (ls_missing st, ls_unexpected st)
   | _, _, _ => Err (RuntimeError (LoadStateDictErrors missing unexpected (ls_msgs st)))
   end).

(** [nn.Module.state_dict()]: every tensor the module holds, in
    registration order. *)
Definition state_dict (entries : list module_entry) (params : gmap string V)
    : list (string * V) :=
  omap (fun ks => (fun v => (fst ks, v)) <$> params !! fst ks) (module_keys entries).
End Load.

(** ** Invariant: the module's tensors keep their registered sizes *)

Section Invariant.
Context {V : Type}.
Variable shape_of : V -> list nat.
Variable select0 : V -> V.
Variable long_zero : V.

(** The tensors of a module with submodules [es]: one per registered key,
    of the registered size, and nothing else. *)
Definition params_wf (es : list module_entry) (p : gmap string V) : Prop :=
  (forall k s, In (k, s) (module_keys es) -> exists v, p !! k = Some v /\ shape_of v = s) /\
  (forall k v, p !! k = Some v -> exists s, In (k, s) (module_keys es)).

(** Two stores with the same keys and the same sizes under each key. *)
Definition same_shapes (p p' : gmap string V) : Prop :=
  forall k, shape_of <$> p !! k = shape_of <$> p' !! k.

#[export] Instance same_shapes_equiv : Equivalence same_shapes.
Proof.
  split.
  - intros p k. reflexivity.
  - intros p q H k. symmetry. apply H.
  - intros p q r H1 H2 k. rewrite H1. apply H2.
Qed.

#[export] Instance params_wf_proper es : Proper (same_shapes ==> iff) (params_wf es).
Proof.
  assert (Himp : forall p q, same_shapes p q -> params_wf es p -> params_wf es q).
  { intros p q Hpq [H1 H2]. split.
    - intros k s Hin. destruct (H1 k s Hin) as (v & Hv & Hs). specialize (Hpq k).
      rewrite Hv in Hpq. destruct (q !! k) as [w|]; simpl in Hpq; [|discriminate].
      exists w. split; [reflexivity|]. injection Hpq. congruence.
    - intros k w Hw. specialize (Hpq k). rewrite Hw in Hpq.
      destruct (p !! k) as [v|] eqn:Hv; simpl in Hpq; [|discriminate]. eauto. }
  intros p q Hpq. split; apply Himp; [assumption | symmetry; assumption].
Qed.

Lemma same_shapes_insert p k v w :
  p !! k = Some w -> shape_of v = shape_of w -> same_shapes p (<[k := v]> p).
Proof.
  intros Hk Hs k'. destruct (decide (k = k')) as [<-|Hne].
  - rewrite lookup_insert_eq, Hk. simpl. congruence.
  - rewrite lookup_insert_ne by assumption. reflexivity.
Qed.

Lemma load_local_same prefix st name :
  same_shapes (ls_params st) (ls_params (load_local shape_of select0 prefix st name)).
Proof.
  unfold load_local. destruct (ls_params st !! _) as [param|] eqn:Hp; [|reflexivity].
  destruct (sd_lookup _ _) as [input0|]; [|reflexivity].
  case_decide as Hs; [|reflexivity]. simpl. eapply same_shapes_insert; eassumption.
Qed.

Lemma load_locals_same prefix names st :
  same_shapes (ls_params st)
    (ls_params (fold_left (load_local shape_of select0 prefix) names st)).
Proof.
  revert st. induction names as [|n names IH]; intros st; simpl; [reflexivity|].
  rewrite <- IH. apply load_local_same.
Qed.

Lemma kind_pre_params e version st :
  ls_params (kind_pre long_zero e version st) = ls_params st.
Proof.
  unfold kind_pre, norm_base_pre, instance_norm_pre.
  destruct (me_kind e) as [|inst trs]; [reflexivity|].
  repeat (case_match; simpl); reflexivity.
Qed.

Lemma scan_unexpected_params e (st : @load_state V) :
  ls_params (scan_unexpected e st) = ls_params st.
Proof.
  unfold scan_unexpected. generalize (ls_sd st) as l.
  intros l. revert st. induction l as [|kv l IH]; intros st; simpl; [reflexivity|].
  rewrite IH. repeat case_match; reflexivity.
Qed.

Lemma load_entry_same metadata st e :
  same_shapes (ls_params st) (ls_params (load_entry shape_of select0 long_zero metadata st e)).
Proof.
  unfold load_entry. rewrite scan_unexpected_params.
  etransitivity; [|apply load_locals_same]. rewrite kind_pre_params. reflexivity.
Qed.

Lemma load_entries_same metadata es st :
  same_shapes (ls_params st)
    (ls_params (fold_left (load_entry shape_of select0 long_zero metadata) es st)).
Proof.
  revert st. induction es as [|e es IH]; intros st; simpl; [reflexivity|].
  rewrite <- IH. apply load_entry_same.
Qed.

(** Boolean check of [params_wf], to decide it on a concrete store. *)
Definition params_wf_b (es : list module_entry) (p : gmap string V) : bool :=
  forallb (fun ks => match p !! fst ks with
                     | Some v => bool_decide (shape_of v = snd ks)
                     | None => false
                     end) (module_keys es) &&
  forallb (fun kv => bool_decide (fst kv ∈ map fst (module_keys es))) (map_to_list p).

Lemma params_wf_b_sound es p : params_wf_b es p = true -> params_wf es p.
Proof.
  unfold params_wf_b. rewrite andb_true_iff, !forallb_forall. intros [H1 H2]. split.
  - intros k s Hin. specialize (H1 (k, s) Hin). simpl in H1.
    destruct (p !! k) as [v|]; [|discriminate]. exists v. split; [reflexivity|].
    apply bool_decide_eq_true in H1. assumption.
  - intros k v Hk. assert (Hl : In (k, v) (map_to_list p)).
    { apply list_elem_of_In, elem_of_map_to_list. assumption. }
    specialize (H2 _ Hl). simpl in H2. apply bool_decide_eq_true in H2.
    apply list_elem_of_In, in_map_iff in H2. destruct H2 as ([k' s] & Hk' & Hin).
    simpl in Hk'. subst k'. eauto.
Qed.
End Invariant.

(** C18: Whatever the state dict, the metadata and [strict], after
    [load_state_dict] (returning or raising) the module still holds one
    tensor of the registered size under every registered key: a tensor is
    only copied over one of the same size. *)
Theorem load_state_dict_preserves_wf {V : Type} (shape_of : V -> list nat) select0 long_zero
    strict metadata es sd (p : gmap string V) :
  params_wf shape_of es p ->
  params_wf shape_of es (fst (load_state_dict shape_of select0 long_zero strict metadata es sd p)).
Proof.
  intros Hwf. unfold load_state_dict. simpl fst.
  rewrite <- (load_entries_same shape_of select0 long_zero metadata es). exact Hwf.
Qed.

(** A concrete store for the witnesses: the tensor under each key is its
    size with a tag [t] standing for its values. *)
Definition tagged_store (es : list module_entry) (t : nat) : gmap string (list nat * nat) :=
  list_to_map (map (fun ks => (fst ks, (snd ks, t))) (module_keys es)).

Lemma load_state_dict_preserves_wf_witness :
  let es := sosnet_entries (sosnet_layers 128) (desc_norm_layers 128) in
  params_wf fst es (tagged_store es 0) /\
  params_wf fst es (fst (load_state_dict fst (fun v => (tail (fst v), snd v)) ([], 0) true None es
                          [("layers.1.weight", ([1], 5))] (tagged_store es 0))).
Proof.
  intros es. assert (H : params_wf fst es (tagged_store es 0)).
  { apply params_wf_b_sound. vm_compute. reflexivity. }
  split; [exact H | apply load_state_dict_preserves_wf; exact H].
Defined.

(** ** Round trip: loading a module's own [state_dict] *)

Lemma sd_lookup_Some_In {A} k (sd : list (string * A)) v :
  sd_lookup k sd = Some v -> In (k, v) sd.
Proof.
  induction sd as [|[k' v'] sd IH]; simpl; [discriminate|].
  destruct (String.eqb_spec k' k) as [->|_]; [intros [= ->]; left; reflexivity|].
  intros H. right. auto.
Qed.

Lemma sd_lookup_None {A} k (sd : list (string * A)) :
  sd_lookup k sd = None <-> ~ In k (map fst sd).
Proof.
  induction sd as [|[k' v'] sd IH]; simpl; [tauto|].
  destruct (String.eqb_spec k' k) as [->|Hne]; [split; [discriminate | tauto]|].
  rewrite IH. intuition congruence.
Qed.

Lemma sd_has_spec {A} k (sd : list (string * A)) :
  sd_has k sd = bool_decide (k ∈ map fst sd).
Proof.
  unfold sd_has. destruct (sd_lookup k sd) eqn:E; symmetry.
  - apply bool_decide_eq_true, list_elem_of_In. apply sd_lookup_Some_In in E.
    apply in_map_iff. exists (k, a). auto.
  - apply bool_decide_eq_false. rewrite list_elem_of_In. apply sd_lookup_None. assumption.
Qed.

Section RoundTrip.
Context {V : Type}.
Variable shape_of : V -> list nat.
Variable select0 : V -> V.
Variable long_zero : V.

Definition all_keys (es : list module_entry) : list string := map fst (module_keys es).

(** The pre-hooks of a norm layer change nothing on a state dict with
    keys [keys]: [num_batches_tracked] is there when the layer tracks
    running statistics, and no stray running statistics are there when an
    instance norm does not. *)
Definition pre_noop_b (keys : list string) (e : module_entry) : bool :=
  match me_kind e with
  | PlainModule => true
  | NormBase inst trs =>
      (negb trs || bool_decide ((me_prefix e +:+ "num_batches_tracked") ∈ keys)) &&
      (negb (inst && negb trs) ||
       (bool_decide ((me_prefix e +:+ "running_mean") ∉ keys) &&
        bool_decide ((me_prefix e +:+ "running_var") ∉ keys)))
  end.

(** The [strict] scan of [e] flags none of [keys]. *)
Definition scan_clean_b (keys : list string) (e : module_entry) : bool :=
  forallb (fun k => negb (String.prefix (me_prefix e) k) ||
    bool_decide (first_component (drop_prefix (me_prefix e) k) ∈
                 me_children e ++ map fst (me_locals e))) keys.

Definition loadable_b (es : list module_entry) : bool :=
  forallb (fun e => pre_noop_b (all_keys es) e && scan_clean_b (all_keys es) e) es.

(** Copy [q]'s tensors under [ks] into [p], in order. *)
Definition copy_keys (ks : list string) (q p : gmap string V) : gmap string V :=
  fold_left (fun acc k => match q !! k with Some v => <[k := v]> acc | None => acc end) ks p.

Lemma state_dict_lookup es (q : gmap string V) k :
  (forall ks, In ks (module_keys es) -> is_Some (q !! fst ks)) ->
  In k (all_keys es) -> sd_lookup k (state_dict es q) = q !! k.
Proof.
  unfold state_dict, all_keys. induction (module_keys es) as [|[k0 s0] K IH]; simpl; [tauto|].
  intros Hall Hk. destruct (Hall (k0, s0) (or_introl eq_refl)) as [v0 Hv0]. simpl in Hv0.
  rewrite Hv0. simpl. destruct (String.eqb_spec k0 k) as [->|Hne]; [symmetry; assumption|].
  apply IH; [intros; apply Hall; right; assumption | destruct Hk; [congruence | assumption]].
Qed.

Lemma state_dict_keys es (q : gmap string V) :
  (forall ks, In ks (module_keys es) -> is_Some (q !! fst ks)) ->
  map fst (state_dict es q) = all_keys es.
Proof.
  unfold state_dict, all_keys. induction (module_keys es) as [|[k0 s0] K IH]; simpl; [reflexivity|].
  intros Hall. destruct (Hall (k0, s0) (or_introl eq_refl)) as [v0 Hv0]. simpl in Hv0.
  rewrite Hv0. simpl. f_equal. apply IH. intros; apply Hall; right; assumption.
Qed.
Lemma fold_left_fixed {A B} (f : A -> B -> A) (l : list B) (a : A) :
  (forall x, In x l -> f a x = a) -> fold_left f l a = a.
Proof.
  revert a. induction l as [|x l IH]; intros a Hl; simpl; [reflexivity|].
  rewrite Hl by (left; reflexivity). apply IH. intros; apply Hl; right; assumption.
Qed.

Lemma set_params_twice a b (st : @load_state V) : set_params a (set_params b st) = set_params a st.
Proof. destruct st; reflexivity. Qed.

Lemma kind_pre_noop e version (st : @load_state V) :
  pre_noop_b (map fst (ls_sd st)) e = true -> kind_pre long_zero e version st = st.
Proof.
  unfold pre_noop_b, kind_pre. destruct (me_kind e) as [|inst trs]; [reflexivity|].
  rewrite andb_true_iff, !orb_true_iff, !negb_true_iff, andb_true_iff, !bool_decide_eq_true.
  intros [Hnbt Hrs].
  assert (Hi : (if inst && negb trs && match version with None => true | _ => false end
                then instance_norm_pre (me_prefix e) st else st) = st).
  { destruct (inst && negb trs) eqn:Ei; [|reflexivity]. destruct Hrs as [Hrs | [Hm Hv]];
      [discriminate|]. destruct version; [reflexivity|].
    unfold instance_norm_pre. simpl List.filter.
    rewrite !sd_has_spec, !bool_decide_eq_false_2 by assumption. reflexivity. }
  rewrite Hi. unfold norm_base_pre. rewrite sd_has_spec.
  destruct trs; simpl; [|rewrite andb_false_r; reflexivity].
  destruct Hnbt as [Hf|Hin]; [discriminate|].
  rewrite bool_decide_eq_true_2 by assumption. rewrite andb_false_r. reflexivity.
Qed.

Lemma load_local_copy prefix (st : @load_state V) n v w :
  sd_lookup (prefix +:+ n) (ls_sd st) = Some v ->
  ls_params st !! (prefix +:+ n) = Some w -> shape_of v = shape_of w ->
  load_local shape_of select0 prefix st n = set_params (<[prefix +:+ n := v]> (ls_params st)) st.
Proof.
  intros Hsd Hp Hs. unfold load_local. rewrite Hp, Hsd, Hs.
  destruct (length (shape_of w) =? 0) eqn:E0; simpl;
    [apply Nat.eqb_eq in E0; rewrite E0; simpl|];
    (case_decide; [reflexivity | contradiction]).
Qed.

Lemma copy_keys_cons k ks (q p : gmap string V) v :
  q !! k = Some v -> copy_keys (k :: ks) q p = copy_keys ks q (<[k := v]> p).
Proof. intros Hq. unfold copy_keys. simpl. rewrite Hq. reflexivity. Qed.

Lemma load_locals_copy prefix ns (st : @load_state V) (p0 q : gmap string V) :
  same_shapes shape_of (ls_params st) p0 ->
  (forall n, In n ns -> exists v, q !! (prefix +:+ n) = Some v /\
     sd_lookup (prefix +:+ n) (ls_sd st) = Some v /\
     shape_of <$> p0 !! (prefix +:+ n) = Some (shape_of v)) ->
  fold_left (load_local shape_of select0 prefix) ns st =
  set_params (copy_keys (map (fun n => prefix +:+ n) ns) q (ls_params st)) st.
Proof.
  revert st. induction ns as [|n ns IH]; intros st Hsame Hns; simpl.
  - destruct st; reflexivity.
  - destruct (Hns n (or_introl eq_refl)) as (v & Hq & Hsd & Hs).
    pose proof (Hsame (prefix +:+ n)) as Hk. rewrite Hs in Hk.
    destruct (ls_params st !! (prefix +:+ n)) as [w|] eqn:Hw; simpl in Hk; [|discriminate].
    injection Hk as Hk. rewrite (load_local_copy prefix st n v w Hsd Hw (eq_sym Hk)).
    rewrite IH.
    + rewrite set_params_twice, Hq. reflexivity.
    + simpl. etransitivity; [|exact Hsame]. symmetry. eapply same_shapes_insert; [exact Hw|].
      symmetry; assumption.
    + intros n' Hn'. apply Hns. right. assumption.
Qed.
Lemma scan_noop e (st : @load_state V) :
  scan_clean_b (map fst (ls_sd st)) e = true ->
  (forall n, In n (map fst (me_locals e)) -> has_local (ls_params st) (me_prefix e) n = true) ->
  scan_unexpected e st = st.
Proof.
  intros Hc Hl. unfold scan_unexpected. apply fold_left_fixed. intros [k v] Hin. simpl.
  unfold scan_clean_b in Hc. rewrite forallb_forall in Hc.
  specialize (Hc k (in_map fst _ (k, v) Hin)).
  destruct (String.prefix (me_prefix e) k); [|reflexivity]. simpl in Hc.
  apply bool_decide_eq_true in Hc. apply elem_of_app in Hc.
  destruct (bool_decide (_ ∈ me_children e)) eqn:Ec; [reflexivity|]. simpl.
  destruct Hc as [Hc|Hc]; [apply bool_decide_eq_false in Ec; contradiction|].
  rewrite bool_decide_eq_true_2 by assumption. simpl.
  rewrite Hl by (apply list_elem_of_In; assumption). reflexivity.
Qed.

Lemma copy_keys_lookup ks (q p : gmap string V) k :
  copy_keys ks q p !! k =
  if bool_decide (k ∈ ks) then match q !! k with Some v => Some v | None => p !! k end
  else p !! k.
Proof.
  revert p. induction ks as [|k0 ks IH]; intros p.
  - rewrite bool_decide_eq_false_2 by (apply not_elem_of_nil). reflexivity.
  - unfold copy_keys in *. simpl. rewrite IH. destruct (decide (k = k0)) as [->|Hne].
    + rewrite (bool_decide_eq_true_2 (k0 ∈ k0 :: ks)) by (apply elem_of_cons; left; reflexivity).
      destruct (bool_decide (k0 ∈ ks)), (q !! k0) eqn:Hq;
        rewrite ?lookup_insert_eq; reflexivity.
    + assert (Hb : bool_decide (k ∈ k0 :: ks) = bool_decide (k ∈ ks)).
      { apply bool_decide_ext. rewrite elem_of_cons. intuition congruence. }
      rewrite Hb. destruct (q !! k0) eqn:Hq; [|reflexivity].
      rewrite lookup_insert_ne by congruence. reflexivity.
Qed.

Lemma wf_lookup_In es (p : gmap string V) k :
  params_wf shape_of es p -> In k (all_keys es) -> exists v s, p !! k = Some v /\
    shape_of v = s /\ In (k, s) (module_keys es).
Proof.
  intros [H1 _] Hk. unfold all_keys in Hk. apply in_map_iff in Hk.
  destruct Hk as ([k' s] & <- & Hin). destruct (H1 k' s Hin) as (v & Hv & Hs). eauto.
Qed.

Lemma wf_lookup_notin es (p : gmap string V) k :
  params_wf shape_of es p -> ~ In k (all_keys es) -> p !! k = None.
Proof.
  intros [_ H2] Hk. destruct (p !! k) as [v|] eqn:E; [|reflexivity].
  destruct (H2 k v E) as [s Hs]. exfalso. apply Hk. apply in_map_iff. exists (k, s). auto.
Qed.

(** Two well-formed stores agree on the size under every key. *)
Lemma wf_same_shapes es (p q : gmap string V) :
  params_wf shape_of es p -> params_wf shape_of es q -> same_shapes shape_of p q.
Proof.
  intros Hp Hq k. destruct (in_dec String.string_dec k (all_keys es)) as [Hk|Hk].
  - destruct (wf_lookup_In es p k Hp Hk) as (v & s & Hv & Hs & Hin).
    destruct (proj1 Hq k s Hin) as (w & Hw & Hws). rewrite Hv, Hw. simpl. congruence.
  - rewrite (wf_lookup_notin es p k Hp Hk), (wf_lookup_notin es q k Hq Hk). reflexivity.
Qed.

Lemma same_shapes_copy es ks (q p params : gmap string V) :
  params_wf shape_of es p -> params_wf shape_of es q ->
  same_shapes shape_of params p -> same_shapes shape_of (copy_keys ks q params) p.
Proof.
  intros Hp Hq Hs k. rewrite copy_keys_lookup. case_decide; [|apply Hs].
  destruct (q !! k) as [v|] eqn:Ev; [|apply Hs].
  rewrite (wf_same_shapes es p q Hp Hq k), Ev. reflexivity.
Qed.

Lemma copy_all_keys es (p q : gmap string V) :
  params_wf shape_of es p -> params_wf shape_of es q -> copy_keys (all_keys es) q p = q.
Proof.
  intros Hp Hq. apply map_eq. intros k. rewrite copy_keys_lookup.
  destruct (decide (k ∈ all_keys es)) as [Hk|Hk];
    [rewrite bool_decide_eq_true_2 by assumption | rewrite bool_decide_eq_false_2 by assumption].
  - rewrite list_elem_of_In in Hk. destruct (wf_lookup_In es q k Hq Hk) as (v & _ & -> & _).
    reflexivity.
  - rewrite list_elem_of_In in Hk.
    rewrite (wf_lookup_notin es p k Hp Hk), (wf_lookup_notin es q k Hq Hk). reflexivity.
Qed.
Lemma entry_keys_fst e :
  map fst (entry_keys e) = map (fun n => me_prefix e +:+ n) (map fst (me_locals e)).
Proof. unfold entry_keys. rewrite !map_map. apply map_ext. intros [n s]. reflexivity. Qed.

Lemma entry_keys_in es e k s :
  In e es -> In (k, s) (entry_keys e) -> In (k, s) (module_keys es).
Proof. intros He Hk. unfold module_keys. apply in_concat. exists (entry_keys e). split; [apply in_map|]; assumption. Qed.

(** What the walk sees in the middle of a round trip: the state dict of
    [q] unchanged, no key or message collected, a store with the sizes of
    [p]. *)
Definition roundtrip_inv (es : list module_entry) (p q : gmap string V) (st : @load_state V) : Prop :=
  map fst (ls_sd st) = all_keys es /\
  (forall k, In k (all_keys es) -> sd_lookup k (ls_sd st) = q !! k) /\
  same_shapes shape_of (ls_params st) p.

Lemma load_entry_copy metadata es (p q : gmap string V) (st : @load_state V) e :
  loadable_b es = true -> In e es ->
  params_wf shape_of es p -> params_wf shape_of es q -> roundtrip_inv es p q st ->
  load_entry shape_of select0 long_zero metadata st e =
  set_params (copy_keys (map fst (entry_keys e)) q (ls_params st)) st.
Proof.
  intros Hl He Hp Hq (Hkeys & Hsd & Hsame).
  unfold loadable_b in Hl. rewrite forallb_forall in Hl. specialize (Hl e He).
  apply andb_true_iff in Hl as [Hpre Hscan].
  unfold load_entry. rewrite kind_pre_noop by (rewrite Hkeys; assumption).
  rewrite (load_locals_copy (me_prefix e) _ st p q Hsame), <- entry_keys_fst.
  - apply scan_noop; simpl; [rewrite Hkeys; assumption|].
    intros n Hn. unfold has_local. rewrite copy_keys_lookup.
    apply in_map_iff in Hn. destruct Hn as ([n' s] & <- & Hn). simpl.
    assert (Hin : In (me_prefix e +:+ n', s) (module_keys es)).
    { eapply entry_keys_in; [eassumption|]. unfold entry_keys.
      apply in_map_iff. exists (n', s). auto. }
    destruct (proj1 Hq _ _ Hin) as (v & Hv & _). rewrite Hv.
    case_decide; [reflexivity|].
    pose proof (Hsame (me_prefix e +:+ n')) as Hk.
    destruct (proj1 Hp _ _ Hin) as (w & Hw & _). rewrite Hw in Hk.
    destruct (ls_params st !! _); [reflexivity | discriminate].
  - intros n Hn. apply in_map_iff in Hn. destruct Hn as ([n' s] & <- & Hn). simpl.
    assert (Hin : In (me_prefix e +:+ n', s) (module_keys es)).
    { eapply entry_keys_in; [eassumption|]. unfold entry_keys.
      apply in_map_iff. exists (n', s). auto. }
    destruct (proj1 Hq _ _ Hin) as (v & Hv & Hvs). exists v. split; [assumption|].
    rewrite Hsd by (apply in_map_iff; exists (me_prefix e +:+ n', s); auto).
    split; [assumption|]. destruct (proj1 Hp _ _ Hin) as (w & Hw & Hws). rewrite Hw. simpl.
    congruence.
Qed.

Lemma load_entries_copy metadata es es' (p q : gmap string V) (st : @load_state V) :
  loadable_b es = true -> (forall e, In e es' -> In e es) ->
  params_wf shape_of es p -> params_wf shape_of es q -> roundtrip_inv es p q st ->
  fold_left (load_entry shape_of select0 long_zero metadata) es' st =
  set_params (copy_keys (map fst (module_keys es')) q (ls_params st)) st.
Proof.
  revert st. induction es' as [|e es' IH]; intros st Hl Hsub Hp Hq Hinv; simpl.
  - destruct st; reflexivity.
  - rewrite (load_entry_copy metadata es p q st e Hl (Hsub e (or_introl eq_refl)) Hp Hq Hinv).
    rewrite IH; [| exact Hl | intros e' He'; apply Hsub; right; exact He' | exact Hp | exact Hq |].
    + rewrite set_params_twice. simpl. unfold module_keys. simpl.
      rewrite map_app. unfold copy_keys. rewrite fold_left_app. reflexivity.
    + destruct Hinv as (Hk & Hsd & Hs). split; [assumption|]. split; [assumption|].
      simpl. apply (same_shapes_copy es); assumption.
Qed.
Lemma load_state_dict_roundtrip_gen strict metadata es (p q : gmap string V) :
  loadable_b es = true -> params_wf shape_of es p -> params_wf shape_of es q ->
  load_state_dict shape_of select0 long_zero strict metadata es (state_dict es q) p =
  (q, Ok ([], [])).
Proof.
  intros Hl Hp Hq.
  assert (Hall : forall ks, In ks (module_keys es) -> is_Some (q !! fst ks)).
  { intros [k s] Hin. destruct (proj1 Hq k s Hin) as (v & Hv & _). simpl. rewrite Hv. eauto. }
  assert (Hinv : roundtrip_inv es p q {| ls_params := p; ls_sd := state_dict es q;
    ls_missing := []; ls_unexpected := []; ls_msgs := [] |}).
  { split; [apply state_dict_keys; assumption|]. split; [|reflexivity].
    intros k Hk. apply state_dict_lookup; assumption. }
  unfold load_state_dict.
  rewrite (load_entries_copy metadata es es p q _ Hl (fun e He => He) Hp Hq Hinv).
  cbn [ls_params set_params ls_missing ls_unexpected ls_msgs].
  fold (all_keys es). rewrite (copy_all_keys es p q Hp Hq). destruct strict; reflexivity.
Qed.
End RoundTrip.

Lemma sosnet_roundtrip {V : Type} (shape_of : V -> list nat) select0 long_zero
    strict metadata (p q : gmap string V) :
  params_wf shape_of (sosnet_entries (sosnet_layers 128) (desc_norm_layers 128)) p ->
  params_wf shape_of (sosnet_entries (sosnet_layers 128) (desc_norm_layers 128)) q ->
  load_state_dict shape_of select0 long_zero strict metadata
    (sosnet_entries (sosnet_layers 128) (desc_norm_layers 128))
    (state_dict (sosnet_entries (sosnet_layers 128) (desc_norm_layers 128)) q) p =
  (q, Ok ([], [])).
Proof.
  apply load_state_dict_roundtrip_gen. vm_compute. reflexivity.
Qed.

(** C4: Loading into a SOSNet-shaped module the [state_dict()] of any
    module of the same architecture succeeds with no missing and no
    unexpected key, whatever [strict] and the metadata, and leaves the
    module holding exactly the other module's tensors. *)
Theorem load_state_dict_roundtrip {V : Type} (shape_of : V -> list nat) select0 long_zero
    strict metadata (p q : gmap string V) :
  params_wf shape_of (sosnet_entries (sosnet_layers 128) (desc_norm_layers 128)) p ->
  params_wf shape_of (sosnet_entries (sosnet_layers 128) (desc_norm_layers 128)) q ->
  load_state_dict shape_of select0 long_zero strict metadata
    (sosnet_entries (sosnet_layers 128) (desc_norm_layers 128))
    (state_dict (sosnet_entries (sosnet_layers 128) (desc_norm_layers 128)) q) p =
  (q, Ok ([], [])).
Proof. apply sosnet_roundtrip. Qed.

Lemma load_state_dict_roundtrip_witness :
  let es := sosnet_entries (sosnet_layers 128) (desc_norm_layers 128) in
  params_wf fst es (tagged_store es 0) /\ params_wf fst es (tagged_store es 1) /\
  load_state_dict fst (fun v => (tail (fst v), snd v)) ([], 0) true None es
    (state_dict es (tagged_store es 1)) (tagged_store es 0) = (tagged_store es 1, Ok ([], [])).
Proof.
  intros es.
  assert (H0 : params_wf fst es (tagged_store es 0)) by (apply params_wf_b_sound; vm_compute; reflexivity).
  assert (H1 : params_wf fst es (tagged_store es 1)) by (apply params_wf_b_sound; vm_compute; reflexivity).
  split; [exact H0|]. split; [exact H1|]. apply load_state_dict_roundtrip; assumption.
Defined.

(** A store built from the registry, one value of the registered size per
    key, is well formed when the keys are distinct. *)
Lemma list_to_map_wf {V : Type} (shape_of : V -> list nat) es (f : string * list nat -> V) :
  NoDup (all_keys es) -> (forall ks, In ks (module_keys es) -> shape_of (f ks) = snd ks) ->
  params_wf shape_of es (list_to_map (map (fun ks => (fst ks, f ks)) (module_keys es))).
Proof.
  intros Hnd Hf.
  assert (Hfst : (map (fun ks => (fst ks, f ks)) (module_keys es)).*1 = all_keys es).
  { clear Hf Hnd. unfold all_keys. induction (module_keys es) as [|ks K IH]; simpl;
      [reflexivity | f_equal; exact IH]. }
  split.
  - intros k s Hin. exists (f (k, s)). split; [|exact (Hf (k, s) Hin)].
    apply elem_of_list_to_map_1; [rewrite Hfst; exact Hnd|].
    apply list_elem_of_In, in_map_iff. exists (k, s). auto.
  - intros k v Hk. apply elem_of_list_to_map_2, list_elem_of_In, in_map_iff in Hk.
    destruct Hk as ([k' s] & Heq & Hin). injection Heq as <- _. eauto.
Qed.
