(* ===== verification/Urls.v ===== *)
(** * Urls: the table of pretrained weights, lines 7-9

    [urls] is built by an empty [dict()] and two item assignments. Only
    the ["lib"] entry is ever read (line 61). *)

From Stdlib Require Import List String.
From S2P Require Import Prelude.
Import ListNotations.
Open Scope string_scope.

Definition urls : list (string * string) :=
  dict_setitem "hp_a"
    "https://github.com/yuruntian/SOSNet/tree/master/sosnet-weights//sosnet-32x32-hpatches_a.pth"
    (dict_setitem "lib"
       "https://github.com/yuruntian/SOSNet/tree/master/sosnet-weights/sosnet-32x32-liberty.pth"
       []).
