(* ===== verification/Module.v ===== *)
(** * Module: the [SOSNet] object and its constructor

    The module's state is a record: the [training] flag [nn.Module]
    starts with, the two containers, and the store of its tensors.
    [SOSNet_init] is [SOSNet.__init__] (lines 28-65) step by step: the two
    reads of [self.dim_desc] (lines 52 and 56) by Python's attribute
    lookup, the creation of the layers' tensors, and the [pretrained]
    branch (lines 59-63), which downloads the checkpoint, subscripts it
    with ['state_dict'] and calls [load_state_dict(strict=True)].  The
    download and the layers' initial values are section variables. *)

From stdpp Require Import base gmap strings list.
From S2P Require Import Prelude Layers StateDict Urls.

Record SOSNet (V : Type) : Type := mkSOSNet {
  training : bool;
  layers : list Layer;
  desc_norm : list Layer;
  params : gmap string V
}.
Arguments mkSOSNet {V}.
Arguments training {V}.
Arguments layers {V}.
Arguments desc_norm {V}.
Arguments params {V}.

(** The attributes an instance of [SOSNet] resolves by name: the class
    body declares none besides its methods and the docstring, and
    [__init__] assigns none before line 52. *)
Definition SOSNet_class_attrs : list (string * nat) := [].

(** [self.<name>]: instance and class attributes first; then
    [nn.Module.__getattr__], which finds no parameter, buffer or submodule
    of that name and raises [AttributeError]. *)
Definition getattr (attrs : list (string * nat)) (name : string) : res nat :=
  match sd_lookup name attrs with Some v => Ok v | None => Err (AttributeError name) end.

(** The values of the checkpoint [torch.load] returns: the saved state
    dict (with its [_metadata] versions) or any other saved object. *)
Inductive ckpt_value (V : Type) : Type :=
| CkptStateDict (sd : list (string * V)) (metadata : option (list (string * nat)))
| CkptOther.
Arguments CkptStateDict {V}.
Arguments CkptOther {V}.

Section Init.
Context {V : Type}.
Variable shape_of : V -> list nat.
Variable select0 : V -> V.
Variable long_zero : V.
(** The value a layer gives the tensor it registers under a key. *)
Variable fresh : string -> list nat -> V.
(** [torch.hub.load_state_dict_from_url(url, map_location=...)]. *)
Variable load_state_dict_from_url : string -> res (list (string * ckpt_value V)).

Definition init_params (es : list module_entry) : gmap string V :=
  list_to_map (map (fun ks => (fst ks, fresh (fst ks) (snd ks))) (module_keys es)).

(** [self.load_state_dict(x, strict=True)] as a statement: the module's
    tensors after the call, or the exception. *)
Definition load_into (m : SOSNet V) (x : ckpt_value V) : res (SOSNet V) :=
  match x with
  | CkptStateDict sd metadata =>
      let '(p, r) := load_state_dict shape_of select0 long_zero true metadata
                       (sosnet_entries (layers m) (desc_norm m)) sd (params m) in
      _ <- r ;;
      Ok (mkSOSNet (training m) (layers m) (desc_norm m) p)
  | CkptOther => Err (AttributeError "copy")
  end.

Definition SOSNet_init (attrs : list (string * nat)) (pretrained : bool) : res (SOSNet V) :=
  dim_desc <- getattr attrs "dim_desc" ;;
  let layers := sosnet_layers dim_desc in
  dim_desc' <- getattr attrs "dim_desc" ;;
  let desc_norm := desc_norm_layers dim_desc' in
  let m := mkSOSNet true layers desc_norm (init_params (sosnet_entries layers desc_norm)) in
  if pretrained then
    url <- getitem urls "lib" ;;
    pretrained_dict <- load_state_dict_from_url url ;;
    x <- getitem pretrained_dict "state_dict" ;;
    load_into m x
  else Ok m.
End Init.

(** ** The constructor as written *)

(** C1: [SOSNet(pretrained)] always raises [AttributeError] on
    [self.dim_desc], read at line 52 and defined nowhere: the class as
    written cannot be instantiated, with or without pretrained weights. *)
Theorem SOSNet_init_attribute_error {V : Type} (shape_of : V -> list nat) select0 long_zero
    fresh load_state_dict_from_url (pretrained : bool) :
  SOSNet_init shape_of select0 long_zero fresh load_state_dict_from_url
    SOSNet_class_attrs pretrained = Err (AttributeError "dim_desc").
Proof. reflexivity. Qed.

(** ** The constructor once [dim_desc = 128] is declared *)

Section Declared.
Context {V : Type}.
Variable shape_of : V -> list nat.
Variable select0 : V -> V.
Variable long_zero : V.
Variable fresh : string -> list nat -> V.
Hypothesis fresh_shape : forall k s, shape_of (fresh k s) = s.
Variable load_state_dict_from_url : string -> res (list (string * ckpt_value V)).

Definition sosnet_entries128 : list module_entry :=
  sosnet_entries (sosnet_layers 128) (desc_norm_layers 128).

Lemma init_params_wf : params_wf shape_of sosnet_entries128 (init_params fresh sosnet_entries128).
Proof.
  apply list_to_map_wf; [refine (bool_decide_unpack _ _); vm_compute; reflexivity|].
  intros [k s] _. apply fresh_shape.
Qed.

Definition fresh_module : SOSNet V :=
  mkSOSNet true (sosnet_layers 128) (desc_norm_layers 128) (init_params fresh sosnet_entries128).

Lemma SOSNet_init_pretrained_unfold :
  SOSNet_init shape_of select0 long_zero fresh load_state_dict_from_url [("dim_desc", 128)] true =
  pretrained_dict <- (url <- getitem urls "lib" ;; load_state_dict_from_url url) ;;
  x <- getitem pretrained_dict "state_dict" ;;
  load_into shape_of select0 long_zero fresh_module x.
Proof. reflexivity. Qed.

Lemma SOSNet_init_loads ckpt metadata (q : gmap string V) :
  params_wf shape_of sosnet_entries128 q ->
  (url <- getitem urls "lib" ;; load_state_dict_from_url url) = Ok ckpt ->
  getitem ckpt "state_dict" = Ok (CkptStateDict (state_dict sosnet_entries128 q) metadata) ->
  SOSNet_init shape_of select0 long_zero fresh load_state_dict_from_url [("dim_desc", 128)] true =
  Ok (mkSOSNet true (sosnet_layers 128) (desc_norm_layers 128) q).
Proof.
  intros Hq Hurl Hsd. rewrite SOSNet_init_pretrained_unfold, Hurl, bind_Ok, Hsd, bind_Ok.
  unfold load_into, fresh_module. cbn [layers desc_norm params training].
  unfold sosnet_entries128 in *.
  rewrite (sosnet_roundtrip shape_of select0 long_zero true metadata _ q);
    [reflexivity | apply init_params_wf | exact Hq].
Qed.

(** C17: With [dim_desc = 128] declared, if downloading
    [urls['lib']] yields a checkpoint whose ['state_dict'] is the state
    dict of a module of the same architecture, [SOSNet(pretrained=True)]
    returns a module in training mode holding exactly those tensors. *)
Theorem SOSNet_init_pretrained ckpt metadata (q : gmap string V) :
  params_wf shape_of sosnet_entries128 q ->
  (url <- getitem urls "lib" ;; load_state_dict_from_url url) = Ok ckpt ->
  getitem ckpt "state_dict" = Ok (CkptStateDict (state_dict sosnet_entries128 q) metadata) ->
  SOSNet_init shape_of select0 long_zero fresh load_state_dict_from_url [("dim_desc", 128)] true =
  Ok (mkSOSNet true (sosnet_layers 128) (desc_norm_layers 128) q).
Proof. apply SOSNet_init_loads. Qed.

(** C25: A downloaded checkpoint without a ['state_dict'] entry
    makes the constructor raise [KeyError('state_dict')]. *)
Theorem SOSNet_init_no_state_dict ckpt :
  (url <- getitem urls "lib" ;; load_state_dict_from_url url) = Ok ckpt ->
  sd_lookup "state_dict" ckpt = None ->
  SOSNet_init shape_of select0 long_zero fresh load_state_dict_from_url [("dim_desc", 128)] true =
  Err (KeyError "state_dict").
Proof.
  intros Hurl Hnone. rewrite SOSNet_init_pretrained_unfold, Hurl, bind_Ok.
  unfold getitem. rewrite Hnone. reflexivity.
Qed.
End Declared.

(** Concrete instances for the witnesses: tensors are their size with a
    tag, fresh tensors are tagged 0, the download returns the state dict of
    the store tagged 1. *)
Definition tagged_hub (url : string) : res (list (string * ckpt_value (list nat * nat))) :=
  Ok [("epoch", CkptOther); ("state_dict", CkptStateDict (state_dict sosnet_entries128
        (tagged_store sosnet_entries128 1)) None)].

Lemma SOSNet_init_pretrained_witness :
  SOSNet_init fst (fun v => (tail (fst v), snd v)) ([], 0) (fun _ s => (s, 0)) tagged_hub
    [("dim_desc", 128)] true =
  Ok (mkSOSNet true (sosnet_layers 128) (desc_norm_layers 128) (tagged_store sosnet_entries128 1)).
Proof.
  apply (SOSNet_init_pretrained fst _ _ (fun _ s => (s, 0)) (fun k s => eq_refl) tagged_hub
    [("epoch", CkptOther); ("state_dict", CkptStateDict (state_dict sosnet_entries128
        (tagged_store sosnet_entries128 1)) None)] None (tagged_store sosnet_entries128 1)).
  - apply params_wf_b_sound. vm_compute. reflexivity.
  - reflexivity.
  - reflexivity.
Defined.

Lemma SOSNet_init_no_state_dict_witness :
  SOSNet_init fst (fun v => (tail (fst v), snd v)) ([], 0) (fun _ s => (s, 0))
    (fun _ => Ok [("epoch", CkptOther)]) [("dim_desc", 128)] true = Err (KeyError "state_dict").
Proof.
  apply (SOSNet_init_no_state_dict fst _ _ (fun _ s => (s, 0)) _ [("epoch", CkptOther)]);
    reflexivity.
Defined.
