(* ===== verification/Tensor.v ===== *)
(** * Tensor: real-valued tensors and finite sums

    A tensor is its size and a function from index lists to reals; only
    the values at indices within the size matter, so tensors are compared
    by [teq] (same size, same values in bounds), an equivalence coarser
    than equality with [Proper] instances for the operations.  [rsum] is
    the finite sum the layers' formulas use; [get] reads with zero outside
    the bounds, as zero padding does. *)

From Stdlib Require Import List Arith Lia Reals Lra Setoid Morphisms.
From S2P Require Import Prelude.
Import ListNotations.
Open Scope R_scope.

(** [sum(f(i) for i in range(n))] *)
Fixpoint rsum (n : nat) (f : nat -> R) : R :=
  match n with
  | O => 0
  | S m => rsum m f + f m
  end.

Record tensor : Type := mkTensor { tshape : list nat; tval : list nat -> R }.

Fixpoint in_boundsb (s idx : list nat) : bool :=
  match s, idx with
  | [], [] => true
  | d :: s', i :: idx' => Nat.ltb i d && in_boundsb s' idx'
  | _, _ => false
  end.

(** [x[idx]] where [idx] is within the size, [0] elsewhere. *)
Definition get (x : tensor) (idx : list nat) : R :=
  if in_boundsb (tshape x) idx then tval x idx else 0.

(** Same size and same values at every index within it. *)
Definition teq (x y : tensor) : Prop :=
  tshape x = tshape y /\ forall idx, in_boundsb (tshape x) idx = true -> tval x idx = tval y idx.

(** ** Sums *)

Lemma rsum_ext n f g : (forall i, (i < n)%nat -> f i = g i) -> rsum n f = rsum n g.
Proof.
  induction n as [|n IH]; intros H; simpl; [reflexivity|].
  rewrite IH by (intros; apply H; lia). rewrite H by lia. reflexivity.
Qed.

Lemma rsum_scal n c f : rsum n (fun i => c * f i) = c * rsum n f.
Proof. induction n as [|n IH]; simpl; [ring|]. rewrite IH. ring. Qed.

Lemma rsum_plus n f g : rsum n (fun i => f i + g i) = rsum n f + rsum n g.
Proof. induction n as [|n IH]; simpl; [ring|]. rewrite IH. ring. Qed.

Lemma rsum_const n c : rsum n (fun _ => c) = INR n * c.
Proof. induction n as [|n IH]; simpl rsum; [simpl; ring|]. rewrite IH, S_INR. ring. Qed.

Lemma rsum_nonneg n f : (forall i, (i < n)%nat -> 0 <= f i) -> 0 <= rsum n f.
Proof.
  induction n as [|n IH]; intros H; simpl; [lra|].
  assert (0 <= rsum n f) by (apply IH; intros; apply H; lia).
  assert (0 <= f n) by (apply H; lia). lra.
Qed.

Lemma rsum_sqr_nonneg n f : 0 <= rsum n (fun i => f i * f i).
Proof. apply rsum_nonneg. intros. apply Rle_0_sqr. Qed.

(** A sum of squares vanishes only when every term does. *)
Lemma rsum_sqr_zero n f : rsum n (fun i => f i * f i) = 0 -> forall i, (i < n)%nat -> f i = 0.
Proof.
  induction n as [|n IH]; intros H i Hi; [lia|]. simpl in H.
  pose proof (rsum_sqr_nonneg n f). pose proof (Rle_0_sqr (f n)). unfold Rsqr in *.
  assert (Hn : f n * f n = 0) by lra.
  destruct (Nat.eq_dec i n) as [->|Hne].
  - destruct (Rmult_integral _ _ Hn); assumption.
  - apply IH; [lra | lia].
Qed.

(** The sum over [lo <= i < hi] of a function that vanishes outside
    [0 <= i < n] is the whole sum when the range covers [0, n). *)
Lemma rsum_shift_cover lo hi n f :
  (lo <= 0)%nat -> (n <= hi)%nat -> (forall i, (n <= i)%nat -> f i = 0) ->
  rsum (hi - lo) (fun i => f (lo + i)%nat) = rsum n f.
Proof.
  intros Hlo Hhi Hf. replace lo with 0%nat by lia. simpl.
  replace (hi - 0)%nat with (n + (hi - n))%nat by lia.
  induction (hi - n)%nat as [|m IH]; [rewrite Nat.add_0_r; reflexivity|].
  rewrite Nat.add_succ_r. simpl. rewrite IH, Hf by lia. ring.
Qed.

(** ** The equivalence of tensors *)

#[export] Instance teq_equiv : Equivalence teq.
Proof.
  split.
  - intros x. split; reflexivity.
  - intros x y [Hs Hv]. split; [symmetry; assumption|].
    intros idx Hi. symmetry. apply Hv. rewrite Hs. assumption.
  - intros x y z [Hs1 Hv1] [Hs2 Hv2]. split; [congruence|].
    intros idx Hi. rewrite Hv1 by assumption. apply Hv2. rewrite <- Hs1. assumption.
Qed.

#[export] Instance get_proper : Proper (teq ==> eq ==> eq) get.
Proof.
  intros x y [Hs Hv] idx idx' <-. unfold get. rewrite <- Hs.
  destruct (in_boundsb (tshape x) idx) eqn:E; [apply Hv; assumption | reflexivity].
Qed.

#[export] Instance tshape_proper : Proper (teq ==> eq) tshape.
Proof. intros x y [Hs _]. exact Hs. Qed.

(** Building a tensor from values that depend on a tensor only through
    [get]. *)
Lemma mkTensor_teq s (f g : list nat -> R) :
  (forall idx, in_boundsb s idx = true -> f idx = g idx) -> teq (mkTensor s f) (mkTensor s g).
Proof. intros H. split; [reflexivity | exact H]. Qed.
