(* ===== verification/Numeric.v ===== *)
(** * Numeric: the real-valued semantics of the layers and of [forward]

    Each layer first makes the checks of its shape semantics (Shapes.v)
    and then computes its output with PyTorch's formula, on real numbers:
    instance and batch normalisation with input or running statistics,
    convolution with zero padding, ReLU, dropout with its mask, and the
    local-response normalisation [x / (k + alpha/size * sum of squares over
    the channel window)^beta].  The environment holds the [training]
    flag, the tensors each layer registered and dropout's mask.  The
    side effect of a call on the buffers (batch norm's running
    statistics in training mode) is Training.v's. *)

From Stdlib Require Import List Arith ZArith Lia ZifyNat String Reals Lra QArith Qreals.
From Stdlib Require Import Setoid Morphisms FunctionalExtensionality.
From S2P Require Import Prelude Layers Sequential Shapes Tensor.
Import ListNotations.
Open Scope R_scope.

Record num_env : Type := mkEnv {
  ne_training : bool;
  (** the tensor layer [i] registered under a name ([weight],
      [running_mean], ...) *)
  ne_param : nat -> string -> tensor;
  (** the elements dropout at layer [i] keeps in training mode *)
  ne_mask : nat -> list nat -> bool
}.

(** [torch.pow(x, e)] on the non-negative reals the layers feed it. *)
Definition tpow (x e : R) : R := if Rlt_dec 0 x then Rpower x e else 0.

(** ** Normalisation layers

    The formulas read the input through its size [s] and its zero-padded
    values [g] ([get x]): they depend on nothing else of the tensor. *)

Definition dims4 (s : list nat) : nat * nat * nat * nat :=
  match s with [n; c; h; w] => (n, c, h, w) | _ => (0, 0, 0, 0) end%nat.

(** Mean and (biased) variance over the spatial positions of one
    channel of one sample: the statistics of instance norm. *)
Definition spatial_mean (s : list nat) (g : list nat -> R) (n c : nat) : R :=
  let '(_, _, h, w) := dims4 s in
  rsum h (fun a => rsum w (fun b => g [n; c; a; b])) / INR (h * w).

Definition spatial_var (s : list nat) (g : list nat -> R) (n c : nat) : R :=
  let '(_, _, h, w) := dims4 s in
  rsum h (fun a => rsum w (fun b => (g [n; c; a; b] - spatial_mean s g n c) ^ 2)) / INR (h * w).

(** Mean and (biased) variance over the batch and the spatial positions
    of one channel: the batch statistics of batch norm. *)
Definition batch_mean (s : list nat) (g : list nat -> R) (c : nat) : R :=
  let '(nb, _, h, w) := dims4 s in
  rsum nb (fun n => rsum h (fun a => rsum w (fun b => g [n; c; a; b]))) / INR (nb * h * w).

Definition batch_var (s : list nat) (g : list nat -> R) (c : nat) : R :=
  let '(nb, _, h, w) := dims4 s in
  rsum nb (fun n => rsum h (fun a => rsum w (fun b => (g [n; c; a; b] - batch_mean s g c) ^ 2)))
  / INR (nb * h * w).

(** [(x - mean) / sqrt(var + eps)], then [* weight + bias] when affine. *)
Definition norm_value (env : num_env) (i : nat) (mean var : nat -> nat -> R) (eps : Q)
    (affine : bool) (g : list nat -> R) (idx : list nat) : R :=
  match idx with
  | [n; c; _; _] =>
      let v := (g idx - mean n c) / sqrt (var n c + Q2R eps) in
      if affine then v * get (ne_param env i "weight") [c] + get (ne_param env i "bias") [c]
      else v
  | _ => 0
  end.

Definition running (env : num_env) (i : nat) (name : string) : nat -> nat -> R :=
  fun _ c => get (ne_param env i name) [c].

(** ** Convolution *)

(** The input padded with [padding] zeros on each side. *)
Definition padded (g : list nat -> R) (padding n c a b : nat) : R :=
  if (a <? padding)%nat || (b <? padding)%nat then 0
  else g [n; c; a - padding; b - padding]%nat.

Definition conv_value (env : num_env) (i cin k stride padding : nat) (bias : bool)
    (g : list nat -> R) (idx : list nat) : R :=
  match idx with
  | [n; o; a; b] =>
      rsum cin (fun c => rsum k (fun kh => rsum k (fun kw =>
        get (ne_param env i "weight") [o; c; kh; kw] *
        padded g padding n c (a * stride + kh)%nat (b * stride + kw)%nat)))
      + (if bias then get (ne_param env i "bias") [o] else 0)
  | _ => 0
  end.

(** ** Local-response normalisation *)

(** [F.local_response_norm]: the squares, zero-padded by [size / 2]
    channels before and [(size - 1) / 2] after, averaged over a window of
    [size] channels; the input divided by [(k + alpha * avg) ** beta]. *)
Definition lrn_window_sum (size : nat) (g : list nat -> R) (idx : list nat) : R :=
  match idx with
  | n :: c :: rest =>
      let lo := (c - size / 2)%nat in
      let hi := (c + (size - 1) / 2 + 1)%nat in
      rsum (hi - lo) (fun j => g (n :: (lo + j)%nat :: rest) ^ 2)
  | _ => 0
  end.

Definition lrn_value (size : nat) (alpha beta k : Q) (g : list nat -> R) (idx : list nat) : R :=
  g idx / tpow (Q2R k + Q2R alpha * (lrn_window_sum size g idx / INR size)) (Q2R beta).

(** ** The layers *)

Definition layer_value (env : num_env) (i : nat) (l : Layer) (s : list nat)
    (g : list nat -> R) : list nat -> R :=
  match l with
  | InstanceNorm2d _ eps affine trs =>
      if ne_training env || negb trs
      then norm_value env i (spatial_mean s g) (spatial_var s g) eps affine g
      else norm_value env i (running env i "running_mean") (running env i "running_var") eps affine g
  | BatchNorm2d _ eps _ affine trs =>
      if ne_training env || negb trs
      then norm_value env i (fun _ => batch_mean s g) (fun _ => batch_var s g) eps affine g
      else norm_value env i (running env i "running_mean") (running env i "running_var") eps affine g
  | Conv2d cin _ k stride padding bias => conv_value env i cin k stride padding bias g
  | ReLU => fun idx => Rmax 0 (g idx)
  | Dropout p =>
      if ne_training env
      then fun idx => if ne_mask env i idx then g idx / (1 - Q2R p) else 0
      else g
  | LocalResponseNorm size alpha beta k => lrn_value size alpha beta k g
  end.

(** A layer makes the checks of its shape semantics, then computes. *)
#[export] Instance num_sem : ModuleSem num_env tensor :=
  fun env i l x =>
    s' <- @module_call _ _ shape_sem (ne_training env) i l (tshape x) ;;
    Ok (mkTensor s' (layer_value env i l (tshape x) (get x))).

(** Row-major position of the [j]-th element of a tensor of size [dims]. *)
Fixpoint unravel (dims : list nat) (j : nat) : list nat :=
  match dims with
  | [] => []
  | d :: ds => (j / numel ds)%nat :: unravel ds (j mod numel ds)
  end.

#[export] Instance num_ops : TensorOps tensor := {
  add_scalar c x := mkTensor (tshape x) (fun idx => get x idx + Q2R c);
  view_batch x :=
    s' <- view_batch_shape (tshape x) ;;
    Ok (mkTensor s' (fun idx => match idx with
                                | [b; j] => get x (b :: unravel (tl (tshape x)) j)
                                | _ => 0
                                end))
}.

Definition forward_num (env : num_env) (dim_desc : nat) (x : tensor) : res tensor :=
  forward env (sosnet_layers dim_desc) (desc_norm_layers dim_desc) x.

(** ** Refinement of the shape semantics *)

Lemma num_call_sim env i l x :
  res_map tshape (@module_call _ _ num_sem env i l x) =
  @module_call _ _ shape_sem (ne_training env) i l (tshape x).
Proof.
  unfold module_call at 1, num_sem.
  destruct (@module_call _ _ shape_sem (ne_training env) i l (tshape x)); reflexivity.
Qed.

Lemma num_view_sim x :
  res_map tshape (@view_batch _ num_ops x) = @view_batch _ shape_ops (tshape x).
Proof. cbn [view_batch num_ops shape_ops]. destruct (view_batch_shape (tshape x)); reflexivity. Qed.

Lemma sequential_num_sim env i ls x :
  res_map tshape (@sequential_from _ _ num_sem env i ls x) =
  @sequential_from _ _ shape_sem (ne_training env) i ls (tshape x).
Proof. apply (sequential_from_sim num_sem shape_sem tshape ne_training num_call_sim). Qed.

Lemma forward_num_shape_sim env dim_desc x :
  res_map tshape (forward_num env dim_desc x) = forward_shape (ne_training env) dim_desc (tshape x).
Proof.
  apply (forward_sim num_sem shape_sem num_ops shape_ops tshape ne_training num_call_sim).
  - intros c y. reflexivity.
  - apply num_view_sim.
Qed.

(** ** [desc_norm] is the L2 normalisation across channels *)

(** The abstract specification of [self.desc_norm]: every vector of
    channel values (one per sample and position) divided by its Euclidean
    norm. *)
Definition l2_normalize (x : tensor) : tensor :=
  mkTensor (tshape x) (fun idx =>
    match idx with
    | n :: c :: rest =>
        get x idx / sqrt (rsum (nth 1 (tshape x) 0%nat) (fun c' => get x (n :: c' :: rest) ^ 2))
    | _ => 0
    end).

Lemma Q2R_half : Q2R (1 # 2) = / 2.
Proof. unfold Q2R. simpl. lra. Qed.

Lemma tpow_half z : 0 <= z -> tpow z (Q2R (1 # 2)) = sqrt z.
Proof.
  intros Hz. unfold tpow. rewrite Q2R_half. destruct (Rlt_dec 0 z) as [Hlt|Hge].
  - apply Rpower_sqrt. exact Hlt.
  - assert (z = 0) as -> by lra. rewrite sqrt_0. reflexivity.
Qed.

(** With [size = 2 * C], the window of every channel [c < C] covers all
    [C] channels. *)
Lemma lrn_full_window C g n c rest :
  (c < C)%nat -> (forall j, (C <= j)%nat -> g (n :: j :: rest) = 0) ->
  lrn_window_sum (2 * C) g (n :: c :: rest) = rsum C (fun c' => g (n :: c' :: rest) ^ 2).
Proof.
  intros Hc Hg. unfold lrn_window_sum.
  replace (c - 2 * C / 2)%nat with 0%nat by lia.
  apply (rsum_shift_cover 0 _ C (fun j => g (n :: j :: rest) ^ 2)); [lia | lia |].
  intros j Hj. simpl. rewrite Hg by lia. ring.
Qed.

Lemma lrn_desc_norm_value C g n c rest :
  (c < C)%nat -> (forall j, (C <= j)%nat -> g (n :: j :: rest) = 0) ->
  lrn_value (2 * C) (inject_Z (Z.of_nat (2 * C))) (1 # 2) 0 g (n :: c :: rest) =
  g (n :: c :: rest) / sqrt (rsum C (fun c' => g (n :: c' :: rest) ^ 2)).
Proof.
  intros Hc Hg. unfold lrn_value. rewrite lrn_full_window by assumption.
  assert (HS : 0 <= rsum C (fun c' => g (n :: c' :: rest) ^ 2)).
  { apply rsum_nonneg. intros. apply pow2_ge_0. }
  assert (Hn : INR (2 * C) <> 0) by (apply not_0_INR; lia).
  replace (Q2R 0 + Q2R (inject_Z (Z.of_nat (2 * C))) *
             (rsum C (fun c' => g (n :: c' :: rest) ^ 2) / INR (2 * C)))
    with (rsum C (fun c' => g (n :: c' :: rest) ^ 2)).
  - rewrite tpow_half by assumption. reflexivity.
  - unfold Q2R. simpl. rewrite INR_IZR_INZ in *. field. assumption.
Qed.

Lemma get_out_of_channels x N C ds n j rest :
  tshape x = N :: C :: ds -> (C <= j)%nat -> get x (n :: j :: rest) = 0.
Proof.
  intros Hs Hj. unfold get. rewrite Hs. simpl.
  destruct (Nat.ltb_spec j C); [lia|]. rewrite andb_false_r. reflexivity.
Qed.

Lemma desc_norm_is_l2 env C x y :
  (0 < C)%nat -> (3 <= List.length (tshape x))%nat -> nth 1 (tshape x) 0%nat = C ->
  sequential env (desc_norm_layers C) x = Ok y -> teq y (l2_normalize x).
Proof.
  intros HC Hlen HnC Hy. unfold sequential, desc_norm_layers in Hy. cbn [sequential_from] in Hy.
  unfold module_call at 1, num_sem in Hy. cbn [module_call shape_sem] in Hy.
  destruct (lrn_shape _ (tshape x)) as [s'|e] eqn:E; [|discriminate].
  apply lrn_shape_ok in E. subst s'. cbn [bind] in Hy. injection Hy as <-. split; [reflexivity|].
  intros idx Hidx. cbn [tshape tval l2_normalize layer_value].
  destruct (tshape x) as [|N [|C' ds]] eqn:Hs; simpl in Hlen; [lia | lia |].
  simpl in HnC. subst C'.
  destruct idx as [|n [|c rest]]; simpl in Hidx; [discriminate | rewrite andb_false_r in Hidx; discriminate |].
  apply andb_true_iff in Hidx as [_ Hidx]. apply andb_true_iff in Hidx as [Hc _].
  apply Nat.ltb_lt in Hc. cbn [nth].
  apply lrn_desc_norm_value; [assumption|]. intros j Hj. eapply get_out_of_channels; eassumption.
Qed.

(** C6: [self.desc_norm], a [LocalResponseNorm(2 * C, alpha = 2 * C,
    beta = 0.5, k = 0)] on [C] channels, is the L2 normalisation across
    channels: its window covers every channel and [alpha / size = 1]. *)
Theorem desc_norm_l2 env C x y :
  (0 < C)%nat -> (3 <= List.length (tshape x))%nat -> nth 1 (tshape x) 0%nat = C ->
  sequential env (desc_norm_layers C) x = Ok y -> teq y (l2_normalize x).
Proof. apply desc_norm_is_l2. Qed.

Definition env0 : num_env := mkEnv false (fun _ _ => mkTensor [] (fun _ => 0)) (fun _ _ => false).

Lemma desc_norm_l2_witness :
  exists y, sequential env0 (desc_norm_layers 2) (mkTensor [1; 2; 1]%nat (fun _ => 1)) = Ok y /\
    teq y (l2_normalize (mkTensor [1; 2; 1]%nat (fun _ => 1))).
Proof.
  eexists. split; [reflexivity|].
  apply (desc_norm_l2 env0 2 (mkTensor [1; 2; 1]%nat (fun _ => 1))); [lia | simpl; lia | reflexivity |].
  reflexivity.
Defined.

(** A vector divided by its norm has norm one, unless it is zero. *)
Lemma div_norm_unit C (v : nat -> R) :
  rsum C (fun c => (v c / sqrt (rsum C (fun c' => v c' ^ 2))) ^ 2) = 1 \/
  (forall c, (c < C)%nat -> v c / sqrt (rsum C (fun c' => v c' ^ 2)) = 0).
Proof.
  set (S := rsum C (fun c' => v c' ^ 2)).
  assert (HS : 0 <= S) by (apply rsum_nonneg; intros; apply pow2_ge_0).
  destruct (Req_dec S 0) as [H0|H0].
  - right. intros c Hc.
    assert (Hsq : rsum C (fun i => v i * v i) = 0).
    { rewrite <- H0. unfold S. apply rsum_ext. intros. ring. }
    rewrite (rsum_sqr_zero C v Hsq c Hc). unfold Rdiv. ring.
  - left. transitivity (rsum C (fun c => / S * v c ^ 2)).
    + apply rsum_ext. intros c _. unfold Rdiv.
      rewrite Rpow_mult_distr, pow_inv, pow2_sqrt by assumption. ring.
    + rewrite rsum_scal. fold S. field. assumption.
Qed.

(** ** Every descriptor has unit norm *)

(** [view(size(0), -1)] of a [B x C x 1 x 1] tensor. *)
Lemma view_c11 z d B C :
  tshape z = [B; C; 1; 1]%nat -> @view_batch _ num_ops z = Ok d ->
  tshape d = [B; C]%nat /\ forall b j, tval d [b; j] = get z [b; j; 0; 0]%nat.
Proof.
  intros Hz Hd. cbn [view_batch num_ops] in Hd. rewrite Hz in Hd.
  destruct (view_batch_shape [B; C; 1; 1]%nat) as [s|e] eqn:Hv; [|discriminate].
  cbn [bind] in Hd. injection Hd as <-. simpl in Hv.
  destruct (B =? 0)%nat; [discriminate|]. injection Hv as <-.
  split; [simpl; f_equal; f_equal; lia|]. intros b j. cbn [tval tl].
  change (fst (Nat.divmod j 0 0 0)) with (j / 1)%nat. rewrite Nat.div_1_r. reflexivity.
Qed.

(** The feature stack on a batch of one-channel patches of side 29..32 in
    the modes where it does not raise returns a [B x 128 x 1 x 1] map. *)
Lemma layers_num_c11 env x B H W :
  tshape x = [B; 1; H; W]%nat -> (29 <= H <= 32)%nat -> (29 <= W <= 32)%nat ->
  (ne_training env = false \/ B <> 1%nat) ->
  exists y, sequential env (sosnet_layers 128) x = Ok y /\ tshape y = [B; 128; 1; 1]%nat.
Proof.
  intros Hx HH HW Ht. pose proof (sequential_num_sim env 0 (sosnet_layers 128) x) as E.
  fold (@sequential _ _ shape_sem (ne_training env) (sosnet_layers 128) (tshape x)) in E.
  rewrite Hx, layers_shape in E by (assumption || lia).
  replace ((H + 3) / 4 - 7)%nat with 1%nat in E by lia.
  replace ((W + 3) / 4 - 7)%nat with 1%nat in E by lia.
  unfold sequential. destruct (sequential_from env 0 (sosnet_layers 128) x) as [y|e]; [|discriminate].
  injection E as E. eauto.
Qed.

Lemma get_l2_normalize x n c rest :
  in_boundsb (tshape x) (n :: c :: rest) = true ->
  get (l2_normalize x) (n :: c :: rest) =
  get x (n :: c :: rest) / sqrt (rsum (nth 1 (tshape x) 0%nat) (fun c' => get x (n :: c' :: rest) ^ 2)).
Proof. intros Hb. unfold get at 1. cbn [l2_normalize tshape tval]. rewrite Hb. reflexivity. Qed.

Lemma in_boundsb_c11 B C b j :
  (b < B)%nat -> (j < C)%nat -> in_boundsb [B; C; 1; 1]%nat [b; j; 0; 0]%nat = true.
Proof.
  intros Hb Hj. simpl. apply andb_true_iff; split; [apply Nat.ltb_lt; lia|].
  apply andb_true_iff; split; [apply Nat.ltb_lt; lia|]. reflexivity.
Qed.

Lemma forward_num_rows env x d B H W :
  tshape x = [B; 1; H; W]%nat -> (1 <= B)%nat -> (ne_training env = false \/ B <> 1%nat) ->
  forward_num env 128 x = Ok d -> tshape d = [B; 128]%nat ->
  forall b, (b < B)%nat ->
  rsum 128 (fun j => tval d [b; j] ^ 2) = 1 \/ (forall j, (j < 128)%nat -> tval d [b; j] = 0).
Proof.
  intros Hx HB Ht Hd Hds b Hb.
  pose proof (forward_num_shape_sim env 128 x) as E. rewrite Hd, Hx in E.
  cbn [res_map bind] in E. rewrite Hds in E.
  apply eq_sym, forward_shape_128_cases in E; [|lia | assumption]. destruct E as [HH HW].
  destruct (layers_num_c11 env x B H W Hx HH HW Ht) as (y & Hy & Hys).
  unfold forward_num, forward in Hd. rewrite Hy in Hd. cbn [bind] in Hd.
  destruct (sequential env (desc_norm_layers 128) (add_scalar forward_eps y)) as [z|e] eqn:Hz;
    [|discriminate]. cbn [bind] in Hd.
  assert (Hzl : teq z (l2_normalize (add_scalar forward_eps y))).
  { apply (desc_norm_is_l2 env 128); [lia | simpl; rewrite Hys; simpl; lia | simpl; rewrite Hys; reflexivity | exact Hz]. }
  assert (Hzs : tshape z = [B; 128; 1; 1]%nat) by (rewrite (tshape_proper _ _ Hzl); exact Hys).
  destruct (view_c11 z d B 128 Hzs Hd) as [_ Hdv].
  set (v := fun c => get (add_scalar forward_eps y) [b; c; 0; 0]%nat).
  assert (Hval : forall j, (j < 128)%nat -> tval d [b; j] = v j / sqrt (rsum 128 (fun c' => v c' ^ 2))).
  { intros j Hj. rewrite Hdv, (get_proper _ _ Hzl _ _ eq_refl), get_l2_normalize.
    - change (tshape (add_scalar forward_eps y)) with (tshape y). rewrite Hys. reflexivity.
    - change (tshape (add_scalar forward_eps y)) with (tshape y). rewrite Hys.
      apply in_boundsb_c11; lia. }
  destruct (div_norm_unit 128 v) as [H1|H0]; [left | right].
  - rewrite <- H1. apply rsum_ext. intros j Hj. rewrite Hval by assumption. reflexivity.
  - intros j Hj. rewrite Hval by assumption. apply H0. assumption.
Qed.

(** C5: Whenever [forward] returns a [B x 128] matrix for a batch of
    one-channel patches, each row is a unit vector, or, when the row fed
    to [desc_norm] (features plus [1e-10]) is zero, the zero row (where
    PyTorch's [0 / 0] gives NaN). *)
Theorem forward_num_unit_norm env x d B H W :
  tshape x = [B; 1; H; W]%nat -> (1 <= B)%nat -> (ne_training env = false \/ B <> 1%nat) ->
  forward_num env 128 x = Ok d -> tshape d = [B; 128]%nat ->
  forall b, (b < B)%nat ->
  rsum 128 (fun j => tval d [b; j] ^ 2) = 1 \/ (forall j, (j < 128)%nat -> tval d [b; j] = 0).
Proof. apply forward_num_rows. Qed.


Definition patch32 : tensor := mkTensor [1; 1; 32; 32]%nat (fun _ => 1).

Lemma forward_num_unit_norm_witness :
  exists d, forward_num env0 128 patch32 = Ok d /\
    (rsum 128 (fun j => tval d [0; j]%nat ^ 2) = 1 \/
     (forall j, (j < 128)%nat -> tval d [0; j]%nat = 0)).
Proof.
  pose proof (forward_num_shape_sim env0 128 patch32) as E.
  destruct (forward_num env0 128 patch32) as [d|e] eqn:Hd; [|vm_compute in E; discriminate].
  exists d. split; [reflexivity|].
  vm_compute in E. injection E as Hds.
  apply (forward_num_unit_norm env0 patch32 d 1 32 32)%nat;
    [reflexivity | lia | left; reflexivity | exact Hd | exact Hds | lia].
Defined.

(** ** The semantics reads a tensor only up to [teq] *)

Lemma teq_get x y : teq x y -> get x = get y.
Proof. intros H. apply functional_extensionality. intros idx. apply get_proper; [exact H | reflexivity]. Qed.

Lemma num_call_respects env i l x y :
  teq x y -> res_rel teq (@module_call _ _ num_sem env i l x) (@module_call _ _ num_sem env i l y).
Proof.
  intros H. unfold module_call at 1 2, num_sem. rewrite (tshape_proper _ _ H), (teq_get _ _ H).
  destruct (@module_call _ _ shape_sem (ne_training env) i l (tshape y)); simpl; reflexivity.
Qed.

Lemma num_add_respects c x y : teq x y -> teq (add_scalar c x) (add_scalar c y).
Proof.
  intros H. cbn [add_scalar num_ops]. rewrite (tshape_proper _ _ H), (teq_get _ _ H). reflexivity.
Qed.

Lemma num_view_respects x y : teq x y -> res_rel teq (view_batch x) (view_batch y).
Proof.
  intros H. cbn [view_batch num_ops]. rewrite (tshape_proper _ _ H), (teq_get _ _ H).
  destruct (view_batch_shape (tshape y)); simpl; reflexivity.
Qed.

#[export] Instance forward_num_proper env dim_desc :
  Proper (teq ==> res_rel teq) (forward_num env dim_desc).
Proof.
  intros x y H. apply (forward_respects num_sem num_ops teq);
    auto using num_call_respects, num_add_respects, num_view_respects.
Qed.

(** ** Instance norm removes a constant offset *)

Section Shift.
Variables (N C H W n c : nat) (k : R) (g g' : list nat -> R).
Hypothesis Hpos : (0 < H)%nat /\ (0 < W)%nat.
Hypothesis Hg : forall a b, (a < H)%nat -> (b < W)%nat -> g' [n; c; a; b] = g [n; c; a; b] + k.

Lemma spatial_mean_shift :
  spatial_mean [N; C; H; W] g' n c = spatial_mean [N; C; H; W] g n c + k.
Proof.
  unfold spatial_mean; cbn [dims4].
  rewrite (rsum_ext H _ (fun a => rsum W (fun b => g [n; c; a; b]) + INR W * k)).
  - rewrite rsum_plus, rsum_const, mult_INR.
    assert (INR H <> 0) by (apply not_0_INR; lia). assert (INR W <> 0) by (apply not_0_INR; lia).
    field. split; assumption.
  - intros a Ha. rewrite <- rsum_const, <- rsum_plus. apply rsum_ext. intros b Hb. apply Hg; assumption.
Qed.

Lemma spatial_var_shift :
  spatial_var [N; C; H; W] g' n c = spatial_var [N; C; H; W] g n c.
Proof.
  unfold spatial_var. rewrite spatial_mean_shift. cbn [dims4]. f_equal.
  apply rsum_ext. intros a Ha. apply rsum_ext. intros b Hb. rewrite Hg by assumption. f_equal. ring.
Qed.
End Shift.

Lemma get_add_scalar q x idx :
  in_boundsb (tshape x) idx = true -> get (add_scalar q x) idx = get x idx + Q2R q.
Proof. intros Hb. unfold get at 1. cbn [add_scalar num_ops tshape tval]. rewrite Hb. reflexivity. Qed.

Lemma in_boundsb4 N C H W n c a b :
  in_boundsb [N; C; H; W] [n; c; a; b] = true ->
  (n < N)%nat /\ (c < C)%nat /\ (a < H)%nat /\ (b < W)%nat.
Proof.
  simpl. rewrite !andb_true_iff, !Nat.ltb_lt. tauto.
Qed.

Lemma in_boundsb4_intro N C H W n c a b :
  (n < N)%nat -> (c < C)%nat -> (a < H)%nat -> (b < W)%nat ->
  in_boundsb [N; C; H; W] [n; c; a; b] = true.
Proof. intros. simpl. rewrite !andb_true_iff, !Nat.ltb_lt. tauto. Qed.

(** The first layer, [InstanceNorm2d(1, affine=False)], gives the same
    result on [x + q] as on [x], raising included. *)
Lemma instance_norm_shift env q x :
  res_rel teq (@module_call _ _ num_sem env 0 (instance_norm2d 1 false) (add_scalar q x))
              (@module_call _ _ num_sem env 0 (instance_norm2d 1 false) x).
Proof.
  unfold module_call at 1 2, num_sem. change (tshape (add_scalar q x)) with (tshape x).
  remember (get (add_scalar q x)) as g' eqn:Eg.
  destruct (@module_call _ _ shape_sem (ne_training env) 0 (instance_norm2d 1 false) (tshape x))
    as [s'|e] eqn:E; simpl; [|reflexivity].
  assert (Es : s' = tshape x) by (apply (instance_norm_shape_ok 1), E).
  destruct (tshape x) as [|N [|C [|H [|W [|]]]]] eqn:Hs; cbn in E; try discriminate.
  subst s'. apply mkTensor_teq. intros idx Hidx.
  destruct idx as [|n [|c [|a [|b [|]]]]]; simpl in Hidx; rewrite ?andb_false_r in Hidx;
    try discriminate.
  destruct (in_boundsb4 _ _ _ _ _ _ _ _ Hidx) as (Hn & Hc & Ha & Hb).
  assert (Hg : forall a' b', (a' < H)%nat -> (b' < W)%nat ->
            g' [n; c; a'; b'] = get x [n; c; a'; b'] + Q2R q).
  { intros a' b' Ha' Hb'. subst g'. apply get_add_scalar. rewrite Hs. apply in_boundsb4_intro; assumption. }
  cbn [layer_value instance_norm2d negb]. rewrite orb_true_r. unfold norm_value.
  assert (Hp : (0 < H)%nat /\ (0 < W)%nat) by lia.
  rewrite (spatial_mean_shift N C H W n c (Q2R q) (get x) _ Hp Hg),
    (spatial_var_shift N C H W n c (Q2R q) (get x) _ Hp Hg).
  rewrite Hg by assumption. f_equal. ring.
Qed.

(** C7: [forward] is invariant under adding a constant to every
    input value: on [x + q] it returns the same descriptors as on [x], and
    raises the same exception when it raises, whatever the mode and the
    parameters, because the first layer is an instance norm without
    affine parameters. *)
Theorem forward_num_shift_invariant env dim_desc q x :
  res_rel teq (forward_num env dim_desc (add_scalar q x)) (forward_num env dim_desc x).
Proof.
  unfold forward_num, sosnet_layers. apply (forward_head_respects num_sem num_ops teq);
    auto using num_call_respects, num_add_respects, num_view_respects, instance_norm_shift.
Qed.
