(* ===== verification/Training.v ===== *)
(** * Training: the buffers a call updates in training mode

    A call of [SOSNet] mutates the module: in training mode every
    [BatchNorm2d] with running statistics first adds one to its
    [num_batches_tracked] buffer ([_BatchNorm.forward]), then, once
    [F.batch_norm] has made its checks, replaces [running_mean] and
    [running_var] by their exponential moving averages with the batch
    mean and the unbiased batch variance (PyTorch 1.6).  Python keeps
    these mutations when a later layer raises, so the model is a small
    state-and-error monad [st] whose computations return the state on
    both outcomes.  The output of every layer is the one of [num_sem]
    (Numeric.v); the theorems relate the two and give the invariant of
    the buffers over any sequence of calls and mode switches. *)

From Stdlib Require Import List Arith ZArith Lia ZifyNat String Reals Lra QArith Qreals.
From Stdlib Require Import FunctionalExtensionality.
From S2P Require Import Prelude Layers Sequential Shapes Tensor Numeric.
Import ListNotations.
Open Scope R_scope.

(** ** The state-and-error monad *)

Definition st (A : Type) : Type := num_env -> num_env * res A.

Definition st_ret {A : Type} (a : A) : st A := fun e => (e, Ok a).

Definition st_bind {A B : Type} (m : st A) (k : A -> st B) : st B :=
  fun e => match m e with
           | (e', Ok a) => k a e'
           | (e', Err x) => (e', Err x)
           end.

Definition st_lift {A : Type} (r : res A) : st A := fun e => (e, r).

Definition st_get : st num_env := fun e => (e, Ok e).

Definition st_modify (f : num_env -> num_env) : st unit := fun e => (f e, Ok tt).

Declare Scope st_scope.
Delimit Scope st_scope with st.
Notation "x <-- c ;;; k" := (st_bind c (fun x => k))
  (at level 64, c at next level, right associativity) : st_scope.
Open Scope st_scope.

(** ** Buffers *)

(** [setattr] of one registered tensor of layer [i]. *)
Definition set_param (i : nat) (name : string) (t : tensor) (env : num_env) : num_env :=
  mkEnv (ne_training env)
    (fun j n => if (j =? i)%nat && String.eqb n name then t else ne_param env j n)
    (ne_mask env).

(** [module.train(b)] / [module.eval()]: one flag for every submodule. *)
Definition set_training (b : bool) (env : num_env) : num_env :=
  mkEnv b (ne_param env) (ne_mask env).

(** The 0-d [num_batches_tracked] buffer of layer [i]. *)
Definition nbt (env : num_env) (i : nat) : R := get (ne_param env i "num_batches_tracked") [].

(** [self.num_batches_tracked = self.num_batches_tracked + 1] *)
Definition bump_nbt (i : nat) (env : num_env) : num_env :=
  set_param i "num_batches_tracked" (mkTensor [] (fun _ => nbt env i + 1)) env.

(** The unbiased batch variance [var_sum / (n - 1)], [n = N * H * W]. *)
Definition batch_var_unbiased (s : list nat) (g : list nat -> R) (c : nat) : R :=
  let '(nb, _, h, w) := dims4 s in
  rsum nb (fun n => rsum h (fun a => rsum w (fun b => (g [n; c; a; b] - batch_mean s g c) ^ 2)))
  / (INR (nb * h * w) - 1).

(** [running.mul_(1 - f).add_(f * stat)], in place: the size is kept. *)
Definition ema (f : R) (old : tensor) (stat : nat -> R) : tensor :=
  mkTensor (tshape old) (fun idx => match idx with
                                   | [c] => (1 - f) * get old [c] + f * stat c
                                   | _ => 0
                                   end).

Definition update_stats (i : nat) (momentum : Q) (s : list nat) (g : list nat -> R)
    (env : num_env) : num_env :=
  let f := Q2R momentum in
  set_param i "running_var" (ema f (ne_param env i "running_var") (batch_var_unbiased s g))
    (set_param i "running_mean" (ema f (ne_param env i "running_mean") (batch_mean s g)) env).

(** ** Layers with their side effects *)

(** [_BatchNorm.forward]: [_check_input_dim], the counter, then
    [F.batch_norm]: the batch-size check, then [torch.batch_norm], which
    returns [input.clone()] for an input with no element (an empty tensor,
    with neither the channel check nor the running-statistics update) and
    otherwise checks the channels, computes the output and, when
    [training] and [track_running_stats], updates the running statistics. *)
Definition bn_call (i nf : nat) (eps momentum : Q) (affine trs : bool) (x : tensor) : st tensor :=
  let s := tshape x in
  _ <-- st_lift (check_input_dim s) ;;;
  env <-- st_get ;;;
  _ <-- (if ne_training env && trs then st_modify (bump_nbt i) else st_ret tt) ;;;
  s' <-- st_lift (_ <- (if ne_training env || negb trs then verify_batch_size s else Ok tt) ;;
                  if numel s =? 0 then Ok s else check_features nf (affine || trs) s) ;;;
  env1 <-- st_get ;;;
  _ <-- (if ne_training env && trs && negb (numel s =? 0)
         then st_modify (update_stats i momentum s (get x)) else st_ret tt) ;;;
  st_ret (mkTensor s' (layer_value env1 i (BatchNorm2d nf eps momentum affine trs) s (get x))).

(** Every other layer changes no state. *)
Definition layer_step (i : nat) (l : Layer) (x : tensor) : st tensor :=
  match l with
  | BatchNorm2d nf eps momentum affine trs => bn_call i nf eps momentum affine trs x
  | _ => env <-- st_get ;;; st_lift (@module_call _ _ num_sem env i l x)
  end.

Fixpoint seq_st (i : nat) (ls : list Layer) (x : tensor) : st tensor :=
  match ls with
  | [] => st_ret x
  | l :: ls' => y <-- layer_step i l x ;;; seq_st (S i) ls' y
  end.

(** [SOSNet.forward] on the module's state, for its two containers. *)
Definition forward_seq_st (layers desc_norm : list Layer) (x : tensor) : st tensor :=
  y <-- seq_st 0 layers x ;;;
  descr <-- seq_st 0 desc_norm (add_scalar forward_eps y) ;;;
  st_lift (view_batch descr).

(** ... with the containers [__init__] builds. *)
Definition forward_st (dim_desc : nat) (x : tensor) : st tensor :=
  forward_seq_st (sosnet_layers dim_desc) (desc_norm_layers dim_desc) x.

(** Tracked batch norms: the layers whose counter a training call bumps. *)
Definition tracked (l : Layer) : bool :=
  match l with BatchNorm2d _ _ _ _ trs => trs | _ => false end.

Fixpoint tracked_bns (i : nat) (ls : list Layer) : list nat :=
  match ls with
  | [] => []
  | l :: ls' => (if tracked l then [i] else []) ++ tracked_bns (S i) ls'
  end.

(** ** Reachable states

    The module's life: built with fresh buffers ([reset_running_stats]
    zeroes [running_mean], fills [running_var] with ones and zeroes
    [num_batches_tracked]), then any sequence of calls, returning
    or raising, and of switches between training and evaluation mode. *)

Definition fresh_stats (e : num_env) : Prop :=
  forall i, tval (ne_param e i "running_mean") = (fun _ => 0) /\
            tval (ne_param e i "running_var") = (fun _ => 1) /\
            tval (ne_param e i "num_batches_tracked") = (fun _ => 0).

Inductive reachable (d : nat) : num_env -> Prop :=
| reach_init e : fresh_stats e -> reachable d e
| reach_call e x : reachable d e -> reachable d (fst (forward_st d x e))
| reach_mode e b : reachable d e -> reachable d (set_training b e).

(** The module's flag and dropout's mask: what no call changes. *)
Definition same_frame (e e' : num_env) : Prop :=
  ne_training e' = ne_training e /\ ne_mask e' = ne_mask e.

(** What a step of layer [i] may change: the frame is kept and the
    tensors of the other layers too. *)
Definition touches_only (i : nat) (e e' : num_env) : Prop :=
  same_frame e e' /\ forall j n, j <> i -> ne_param e' j n = ne_param e j n.

(** The state [e] agrees with [e0] on every tensor but the counters from
    layer [i] on. *)
Definition agree_from (i : nat) (e0 e : num_env) : Prop :=
  same_frame e0 e /\
  forall j n, (i <= j)%nat -> n <> "num_batches_tracked"%string -> ne_param e j n = ne_param e0 j n.

(** ** Which buffers a step touches *)

Lemma set_param_other i name t env j n :
  (j <> i \/ n <> name) -> ne_param (set_param i name t env) j n = ne_param env j n.
Proof.
  intros H. unfold set_param; cbn [ne_param].
  destruct (Nat.eqb_spec j i), (String.eqb_spec n name); simpl; try reflexivity.
  destruct H; contradiction.
Qed.

Lemma set_param_same i name t env : ne_param (set_param i name t env) i name = t.
Proof. unfold set_param; cbn [ne_param]. rewrite Nat.eqb_refl, String.eqb_refl. reflexivity. Qed.

Lemma touches_only_refl i e : touches_only i e e.
Proof. split; [split|]; reflexivity. Qed.

Lemma touches_only_trans i e1 e2 e3 :
  touches_only i e1 e2 -> touches_only i e2 e3 -> touches_only i e1 e3.
Proof.
  intros [[Ht1 Hm1] Hp1] [[Ht2 Hm2] Hp2]. split; [split; congruence|].
  intros j n Hj. rewrite Hp2, Hp1 by assumption. reflexivity.
Qed.

Lemma touches_only_set i name t e : touches_only i e (set_param i name t e).
Proof. split; [split; reflexivity|]. intros j n Hj. apply set_param_other. left; exact Hj. Qed.

#[export] Hint Resolve touches_only_refl touches_only_set : sosnet.

Lemma touches_only_bump i e : touches_only i e (bump_nbt i e).
Proof. apply touches_only_set. Qed.

Lemma touches_only_update i m s g e : touches_only i e (update_stats i m s g e).
Proof.
  unfold update_stats. eapply touches_only_trans; apply touches_only_set.
Qed.

#[export] Hint Resolve touches_only_bump touches_only_update : sosnet.

(** A layer's value reads its own tensors other than the counter. *)
Lemma layer_value_agree e1 e2 i l :
  same_frame e1 e2 ->
  (forall n, n <> "num_batches_tracked"%string -> ne_param e2 i n = ne_param e1 i n) ->
  layer_value e2 i l = layer_value e1 i l.
Proof.
  intros [Ht Hm] Hp. destruct l; unfold layer_value, norm_value, running, conv_value;
    rewrite ?Ht, ?Hm, ?(Hp "weight"%string), ?(Hp "bias"%string), ?(Hp "running_mean"%string),
      ?(Hp "running_var"%string)
      by discriminate; reflexivity.
Qed.

Lemma num_call_agree e1 e2 i l x :
  same_frame e1 e2 ->
  (forall n, n <> "num_batches_tracked"%string -> ne_param e2 i n = ne_param e1 i n) ->
  @module_call _ _ num_sem e2 i l x = @module_call _ _ num_sem e1 i l x.
Proof.
  intros Hf Hp. unfold module_call at 1 2, num_sem.
  rewrite (layer_value_agree e1 e2 i l Hf Hp). destruct Hf as [-> _]. reflexivity.
Qed.
Lemma layer_step_spec i l x e :
  snd (layer_step i l x e) = @module_call _ _ num_sem e i l x /\ touches_only i e (fst (layer_step i l x e)).
Proof.
  destruct l as [| | nf eps mom affine trs | | |]; try (split; [reflexivity | apply touches_only_refl]).
  cbn [layer_step]. unfold bn_call, st_bind, st_lift, st_get, st_modify, st_ret.
  unfold module_call at 1, num_sem. cbn [module_call shape_sem]. unfold batch_norm_shape.
  destruct (check_input_dim (tshape x)) as [[]|err]; cbn [bind]; [|split; [reflexivity | apply touches_only_refl]].
  assert (Hagree : layer_value (bump_nbt i e) i (BatchNorm2d nf eps mom affine trs) =
                   layer_value e i (BatchNorm2d nf eps mom affine trs)).
  { apply layer_value_agree; [split; reflexivity|]. intros n Hn. apply set_param_other. right; exact Hn. }
  destruct (if ne_training e || negb trs then verify_batch_size (tshape x) else Ok tt) as [[]|err];
    cbn [bind]; [|destruct (ne_training e && trs); cbn [fst snd]; split; auto with sosnet].
  destruct (ne_training e && trs); destruct (numel (tshape x) =? 0); cbn [andb negb];
    destruct (check_features nf (affine || trs) (tshape x)) as [s'|err];
    cbn [bind fst snd]; split; rewrite ?Hagree; auto with sosnet.
  eapply touches_only_trans; [apply touches_only_bump | apply touches_only_update].
Qed.

Lemma agree_from_refl i e : agree_from i e e.
Proof. split; [split|]; reflexivity. Qed.

Lemma agree_from_step i e0 e e' :
  agree_from i e0 e -> touches_only i e e' -> agree_from (S i) e0 e'.
Proof.
  intros [[Ht Hm] Hp] [[Ht' Hm'] Hp']. split; [split; congruence|].
  intros j n Hj Hn. rewrite Hp' by lia. apply Hp; [lia | exact Hn].
Qed.

Lemma same_frame_trans e1 e2 e3 : same_frame e1 e2 -> same_frame e2 e3 -> same_frame e1 e3.
Proof. intros [H1 H2] [H3 H4]. split; congruence. Qed.

Lemma seq_st_spec ls : forall i x e0 e, agree_from i e0 e ->
  snd (seq_st i ls x e) = sequential_from e0 i ls x /\ same_frame e (fst (seq_st i ls x e)).
Proof.
  induction ls as [|l ls IH]; intros i x e0 e Ha; [split; [reflexivity | split; reflexivity]|].
  cbn [seq_st sequential_from]. unfold st_bind.
  destruct (layer_step_spec i l x e) as [Hout Ht].
  destruct (layer_step i l x e) as [e' [y|err]] eqn:E; cbn [fst snd] in *.
  - rewrite (num_call_agree e0 e i l x) in Hout by (apply Ha || (intros; apply Ha; [lia | assumption])).
    rewrite <- Hout; cbn [bind].
    destruct (IH (S i) y e0 e' (agree_from_step i e0 e e' Ha Ht)) as [H1 H2].
    split; [exact H1 | eapply same_frame_trans; [apply Ht | exact H2]].
  - rewrite (num_call_agree e0 e i l x) in Hout by (apply Ha || (intros; apply Ha; [lia | assumption])).
    rewrite <- Hout. split; [reflexivity | apply Ht].
Qed.

(** Local-response normalisation reads no tensor of the module. *)
Lemma lrn_call_frame e e' i size alpha beta k x :
  same_frame e e' ->
  @module_call _ _ num_sem e' i (LocalResponseNorm size alpha beta k) x =
  @module_call _ _ num_sem e i (LocalResponseNorm size alpha beta k) x.
Proof. intros [Ht _]. unfold module_call at 1 2, num_sem. rewrite Ht. reflexivity. Qed.

Lemma desc_norm_st d y e :
  seq_st 0 (desc_norm_layers d) y e = (e, sequential e (desc_norm_layers d) y).
Proof.
  unfold desc_norm_layers, sequential. cbn [seq_st layer_step sequential_from].
  unfold st_bind, st_get, st_lift, st_ret.
  destruct (@module_call _ _ num_sem e 0 _ y); reflexivity.
Qed.

Lemma forward_st_spec d x e :
  snd (forward_st d x e) = forward_num e d x /\ same_frame e (fst (forward_st d x e)).
Proof.
  destruct (seq_st_spec (sosnet_layers d) 0 x e e (agree_from_refl 0 e)) as [H1 F1].
  unfold forward_st, forward_seq_st, forward_num, forward, sequential. unfold st_bind.
  destruct (seq_st 0 (sosnet_layers d) x e) as [e1 [y|err]]; cbn [fst snd] in H1, F1 |- *;
    rewrite <- H1; cbn [bind]; [|split; [reflexivity | exact F1]].
  rewrite desc_norm_st. unfold sequential, desc_norm_layers. cbn [sequential_from].
  rewrite (lrn_call_frame e e1) by exact F1.
  destruct (@module_call _ _ num_sem e 0 _ _) as [z|err]; cbn [bind fst snd];
    unfold st_lift; [|split; [reflexivity | exact F1]].
  cbn [fst snd]. split; [reflexivity | exact F1].
Qed.

Lemma layer_step_eval i l x e : ne_training e = false -> fst (layer_step i l x e) = e.
Proof.
  intros H. destruct l; try reflexivity. cbn [layer_step].
  unfold bn_call, st_bind, st_get, st_lift, st_ret. rewrite H. cbn [andb].
  destruct (check_input_dim _); [|reflexivity].
  destruct (_ <- _ ;; _); reflexivity.
Qed.

Lemma seq_st_eval ls : forall i x e, ne_training e = false -> fst (seq_st i ls x e) = e.
Proof.
  induction ls as [|l ls IH]; intros i x e H; [reflexivity|]. cbn [seq_st]. unfold st_bind.
  pose proof (layer_step_eval i l x e H) as E.
  destruct (layer_step i l x e) as [e' [y|err]]; cbn [fst] in E; subst e'; [apply IH, H | reflexivity].
Qed.

Lemma nbt_set_other i name t e j :
  name <> "num_batches_tracked"%string -> nbt (set_param i name t e) j = nbt e j.
Proof. intros H. unfold nbt. rewrite set_param_other by (right; congruence). reflexivity. Qed.

Lemma nbt_bump i e j : nbt (bump_nbt i e) j = nbt e j + (if (j =? i)%nat then 1 else 0).
Proof.
  unfold bump_nbt. destruct (Nat.eqb_spec j i) as [->|Hne].
  - unfold nbt at 1. rewrite set_param_same. unfold get. simpl. ring.
  - unfold nbt at 1. rewrite set_param_other by (left; exact Hne). fold (nbt e j). ring.
Qed.

Lemma nbt_update i m s g e j : nbt (update_stats i m s g e) j = nbt e j.
Proof. unfold update_stats. rewrite !nbt_set_other by discriminate. reflexivity. Qed.

Lemma layer_step_ok_nbt i l x e e' y j :
  ne_training e = true -> layer_step i l x e = (e', Ok y) ->
  nbt e' j = nbt e j + (if (j =? i)%nat && tracked l then 1 else 0).
Proof.
  intros Ht E. destruct l as [| | nf eps mom affine trs | | |];
    try (cbn [layer_step] in E; unfold st_bind, st_get, st_lift in E;
         destruct (module_call _ _ _ _) in E; injection E as <- _; rewrite andb_false_r; ring).
  cbn [layer_step tracked] in *. unfold bn_call, st_bind, st_get, st_lift, st_ret, st_modify in E.
  rewrite Ht in E. cbn [andb orb] in E.
  destruct (check_input_dim _); [|discriminate].
  destruct trs, (numel (tshape x) =? 0); cbn [andb orb negb] in E;
    (destruct (_ <- _ ;; _); [|discriminate]); injection E as <- _;
    [rewrite nbt_bump, andb_true_r; reflexivity | rewrite nbt_update, nbt_bump, andb_true_r; reflexivity
    | rewrite andb_false_r; ring | rewrite andb_false_r; ring].
Qed.

Lemma layer_step_training i l x e : ne_training (fst (layer_step i l x e)) = ne_training e.
Proof. apply (proj2 (layer_step_spec i l x e)). Qed.

Lemma count_occ_tracked_head i l j :
  INR (count_occ Nat.eq_dec (if tracked l then [i] else []) j) =
  (if (j =? i)%nat && tracked l then 1 else 0).
Proof.
  destruct (tracked l), (Nat.eqb_spec j i) as [->|Hne]; cbn [andb count_occ];
    try reflexivity.
  - destruct (Nat.eq_dec i i); [reflexivity | contradiction].
  - destruct (Nat.eq_dec i j); [congruence | reflexivity].
Qed.

Lemma seq_st_ok_nbt ls : forall i x e e' y j,
  ne_training e = true -> seq_st i ls x e = (e', Ok y) ->
  nbt e' j = nbt e j + INR (count_occ Nat.eq_dec (tracked_bns i ls) j).
Proof.
  induction ls as [|l ls IH]; intros i x e e' y j Ht E.
  - injection E as <- _. simpl. ring.
  - cbn [seq_st tracked_bns] in *. unfold st_bind in E.
    pose proof (layer_step_training i l x e) as Ht1.
    destruct (layer_step i l x e) as [e1 [y1|err]] eqn:E1; [|discriminate]. cbn [fst] in Ht1.
    rewrite (IH (S i) y1 e1 e' y j) by congruence.
    rewrite (layer_step_ok_nbt i l x e e1 y1 j Ht E1), count_occ_app, plus_INR,
      count_occ_tracked_head. ring.
Qed.

Lemma seq_st_app l1 : forall l2 i x e,
  seq_st i (l1 ++ l2)%list x e =
  match seq_st i l1 x e with
  | (e1, Ok y) => seq_st (i + List.length l1) l2 y e1
  | (e1, Err err) => (e1, Err err)
  end.
Proof.
  induction l1 as [|l l1 IH]; intros l2 i x e.
  - cbn. rewrite Nat.add_0_r. reflexivity.
  - cbn [app seq_st List.length]. unfold st_bind.
    destruct (layer_step i l x e) as [e1 [y|err]]; [|reflexivity].
    rewrite IH. replace (S i + List.length l1)%nat with (i + S (List.length l1))%nat by lia. reflexivity.
Qed.

(** A sequence run from index [i] leaves the tensors of the other layers. *)
Lemma seq_st_touches ls : forall i x e j,
  (j < i \/ i + List.length ls <= j)%nat -> ne_param (fst (seq_st i ls x e)) j = ne_param e j.
Proof.
  induction ls as [|l ls IH]; intros i x e j Hj; [reflexivity|].
  cbn [seq_st List.length] in *. unfold st_bind.
  destruct (layer_step_spec i l x e) as [_ [_ Hp]].
  destruct (layer_step i l x e) as [e1 [y|err]]; cbn [fst] in *.
  - rewrite IH by lia. apply functional_extensionality. intros n. apply Hp. lia.
  - apply functional_extensionality. intros n. apply Hp. lia.
Qed.

Lemma forward_st_seq_err d x e e1 err :
  seq_st 0 (sosnet_layers d) x e = (e1, Err err) -> forward_st d x e = (e1, Err err).
Proof. intros E. unfold forward_st, forward_seq_st, st_bind at 1. rewrite E. reflexivity. Qed.

Lemma forward_st_ok_inv d x e e' y :
  forward_st d x e = (e', Ok y) -> exists y1, seq_st 0 (sosnet_layers d) x e = (e', Ok y1).
Proof.
  unfold forward_st, forward_seq_st, st_bind. destruct (seq_st 0 (sosnet_layers d) x e) as [e1 [y1|err]];
    [|discriminate].
  rewrite desc_norm_st. destruct (sequential e1 _ _); [|discriminate].
  unfold st_lift. intros E. injection E as <- _. exists y1. reflexivity.
Qed.

Lemma count_occ_nodup_in (l : list nat) j :
  NoDup l -> INR (count_occ Nat.eq_dec l j) = if in_dec Nat.eq_dec j l then 1 else 0.
Proof.
  intros Hl. destruct (in_dec Nat.eq_dec j l) as [Hin|Hin].
  - rewrite (proj1 (NoDup_count_occ' Nat.eq_dec l) Hl j Hin). reflexivity.
  - rewrite (proj1 (count_occ_not_In Nat.eq_dec l j) Hin). reflexivity.
Qed.

(** The indices of the seven batch norms of [self.layers]. *)
Lemma tracked_bns_sosnet d : tracked_bns 0 (sosnet_layers d) = [2; 5; 8; 11; 14; 17; 21]%nat.
Proof. reflexivity. Qed.

Lemma forward_st_fst d x e : fst (forward_st d x e) = fst (seq_st 0 (sosnet_layers d) x e).
Proof.
  unfold forward_st, forward_seq_st, st_bind. destruct (seq_st 0 (sosnet_layers d) x e) as [e1 [y|err]];
    [|reflexivity].
  rewrite desc_norm_st. destruct (sequential e1 _ _); reflexivity.
Qed.



Lemma in_dec_snoc (l : list nat) a j :
  ~ In a l ->
  (if in_dec Nat.eq_dec j l then 1 else 0) + (if (j =? a)%nat then 1 else 0) =
  (if in_dec Nat.eq_dec j (l ++ [a])%list then 1 else 0).
Proof.
  intros Ha. destruct (in_dec Nat.eq_dec j l) as [Hi|Hi], (Nat.eqb_spec j a) as [Hj|Hj],
    (in_dec Nat.eq_dec j (l ++ [a])%list) as [Hi'|Hi']; try ring; exfalso;
    rewrite in_app_iff in *; simpl in *; subst; intuition congruence.
Qed.

Lemma bump_other_param i e n : n <> "num_batches_tracked"%string ->
  ne_param (bump_nbt i e) i n = ne_param e i n.
Proof. intros Hn. apply set_param_other. right; exact Hn. Qed.

(** ** Claims on the state *)

(** C13: In evaluation mode a call of [SOSNet] changes no buffer
    of the module, whether it returns or raises. *)
Theorem forward_st_eval_pure d x e : ne_training e = false -> fst (forward_st d x e) = e.
Proof. intros H. rewrite forward_st_fst. apply seq_st_eval, H. Qed.

Lemma forward_st_ok_counts d x e e' y :
  ne_training e = true -> forward_st d x e = (e', Ok y) ->
  forall j, nbt e' j = nbt e j + (if in_dec Nat.eq_dec j [2; 5; 8; 11; 14; 17; 21]%nat then 1 else 0).
Proof.
  intros Ht E j. destruct (forward_st_ok_inv _ _ _ _ _ E) as [y1 E1].
  rewrite (seq_st_ok_nbt _ _ _ _ _ _ j Ht E1), tracked_bns_sosnet, count_occ_nodup_in
    by (repeat constructor; simpl; lia).
  reflexivity.
Qed.

(** C12: A training-mode call that returns has added exactly one
    to [num_batches_tracked] of each of the seven batch norms
    ([layers.2, 5, 8, 11, 14, 17, 21]) and to no other counter. *)
Theorem forward_st_counts d x e e' y :
  ne_training e = true -> forward_st d x e = (e', Ok y) ->
  forall j, nbt e' j = nbt e j + (if in_dec Nat.eq_dec j [2; 5; 8; 11; 14; 17; 21]%nat then 1 else 0).
Proof. apply forward_st_ok_counts. Qed.

(** A tracked batch norm in training mode on a batch of one value per
    channel has already counted the batch when it raises. *)
Lemma bn_batch_err_st i nf eps m affine x e B c h w :
  ne_training e = true -> tshape x = [B; c; h; w]%nat -> (B * (h * w) = 1)%nat ->
  layer_step i (BatchNorm2d nf eps m affine true) x e =
  (bump_nbt i e, Err (ValueError (MoreThanOneValuePerChannel [B; c; h; w]%nat))).
Proof.
  intros Ht Hs Hn. cbn [layer_step]. unfold bn_call, st_bind, st_get, st_lift, st_ret, st_modify.
  rewrite Ht, Hs. cbn [check_input_dim List.length Nat.eqb andb orb negb].
  unfold verify_batch_size, numel. cbn [fold_right]. rewrite Nat.mul_1_r, Hn. reflexivity.
Qed.

(** The first twenty-one children, run on the module's state, end where
    the shape semantics says. *)
Lemma head_run e x d s :
  sequential_from (ne_training e) 0 (removelast (sosnet_layers d)) (tshape x) = Ok s ->
  exists e1 y1, seq_st 0 (removelast (sosnet_layers d)) x e = (e1, Ok y1) /\ tshape y1 = s /\
                ne_training e1 = ne_training e.
Proof.
  intros Hs. destruct (seq_st_spec (removelast (sosnet_layers d)) 0 x e e (agree_from_refl 0 e))
    as [Hout [Hfr _]].
  assert (Hsim : res_map tshape (sequential_from e 0 (removelast (sosnet_layers d)) x) = Ok s)
    by (rewrite sequential_num_sim; exact Hs).
  rewrite <- Hout in Hsim.
  destruct (seq_st 0 _ x e) as [e1 [y1|err]]; cbn [fst snd res_map] in Hsim, Hfr; [|discriminate].
  injection Hsim as Hy. exists e1, y1. split; [reflexivity | split; [exact Hy | exact Hfr]].
Qed.

(** When the last batch norm raises after counting, the call raises that
    exception with every counter bumped and [layers.21]'s running
    statistics untouched. *)
Lemma head_err_partial e x d e1 y1 err :
  ne_training e = true ->
  seq_st 0 (removelast (sosnet_layers d)) x e = (e1, Ok y1) ->
  layer_step 21 (batch_norm2d 128 false) y1 e1 = (bump_nbt 21 e1, Err err) ->
  snd (forward_st d x e) = Err err /\
  (forall j, nbt (fst (forward_st d x e)) j =
             nbt e j + (if in_dec Nat.eq_dec j [2; 5; 8; 11; 14; 17; 21]%nat then 1 else 0)) /\
  ne_param (fst (forward_st d x e)) 21 "running_mean" = ne_param e 21 "running_mean" /\
  ne_param (fst (forward_st d x e)) 21 "running_var" = ne_param e 21 "running_var".
Proof.
  intros Ht E1 Ebn.
  pose proof (seq_st_touches (removelast (sosnet_layers d)) 0 x e 21 ltac:(right; reflexivity))
    as Hkeep.
  rewrite E1 in Hkeep. cbn [fst] in Hkeep.
  assert (Hbn : seq_st 0 (sosnet_layers d) x e = (bump_nbt 21 e1, Err err)).
  { change (sosnet_layers d) with (removelast (sosnet_layers d) ++ [batch_norm2d 128 false])%list.
    rewrite seq_st_app, E1. change (0 + List.length (removelast (sosnet_layers d)))%nat with 21%nat.
    cbn [seq_st]. unfold st_bind. rewrite Ebn. reflexivity. }
  rewrite (forward_st_seq_err _ _ _ _ _ Hbn). cbn [fst snd].
  split; [reflexivity | split; [|split]].
  - intros j. rewrite nbt_bump, (seq_st_ok_nbt _ 0 x e e1 y1 j Ht E1).
    change (tracked_bns 0 (removelast (sosnet_layers d))) with [2; 5; 8; 11; 14; 17]%nat.
    rewrite count_occ_nodup_in by (repeat constructor; simpl; lia).
    rewrite Rplus_assoc, in_dec_snoc by (simpl; lia). reflexivity.
  - rewrite bump_other_param, Hkeep by discriminate. reflexivity.
  - rewrite bump_other_param, Hkeep by discriminate. reflexivity.
Qed.


(** On a single patch of side 29 to 32 the twenty-one first children
    reach a [1 x 128 x 1 x 1] map, in either mode. *)
Lemma head_shape_single training H W :
  (29 <= H <= 32)%nat -> (29 <= W <= 32)%nat ->
  sequential_from training 0 (removelast (sosnet_layers 128)) [1; 1; H; W]%nat =
  Ok [1; 128; 1; 1]%nat.
Proof.
  intros HH HW.
  assert (HHs : (H = 29 \/ H = 30 \/ H = 31 \/ H = 32)%nat) by lia.
  assert (HWs : (W = 29 \/ W = 30 \/ W = 31 \/ W = 32)%nat) by lia.
  destruct HHs as [-> | [-> | [-> | ->]]]; destruct HWs as [-> | [-> | [-> | ->]]]; destruct training;
    vm_compute; reflexivity.
Qed.

Lemma forward_st_single_patch_run e x H W :
  ne_training e = true -> tshape x = [1; 1; H; W]%nat ->
  (29 <= H <= 32)%nat -> (29 <= W <= 32)%nat ->
  snd (forward_st 128 x e) = Err (ValueError (MoreThanOneValuePerChannel [1; 128; 1; 1]%nat)) /\
  (forall j, nbt (fst (forward_st 128 x e)) j =
             nbt e j + (if in_dec Nat.eq_dec j [2; 5; 8; 11; 14; 17; 21]%nat then 1 else 0)) /\
  ne_param (fst (forward_st 128 x e)) 21 "running_mean" = ne_param e 21 "running_mean" /\
  ne_param (fst (forward_st 128 x e)) 21 "running_var" = ne_param e 21 "running_var".
Proof.
  intros Ht Hx HH HW.
  destruct (head_run e x 128 [1; 128; 1; 1]%nat) as (e1 & y1 & E1 & Hy1 & Ht1).
  { rewrite Hx. apply head_shape_single; assumption. }
  apply (head_err_partial e x 128 e1 y1 _ Ht E1). unfold batch_norm2d.
  apply (bn_batch_err_st 21 128 _ _ _ y1 e1 1 128 1 1); [congruence | exact Hy1 | reflexivity].
Qed.

(** C11: A module in training mode (as [SOSNet()] returns it) called
    on a single patch raises [ValueError] at [layers.21], after every
    batch norm, [layers.21] included, has counted the batch and the six
    first have moved their running statistics: a call that fails leaves
    the module changed. *)
Theorem forward_st_single_patch_partial e x H W :
  ne_training e = true -> tshape x = [1; 1; H; W]%nat ->
  (29 <= H <= 32)%nat -> (29 <= W <= 32)%nat ->
  snd (forward_st 128 x e) = Err (ValueError (MoreThanOneValuePerChannel [1; 128; 1; 1]%nat)) /\
  (forall j, nbt (fst (forward_st 128 x e)) j =
             nbt e j + (if in_dec Nat.eq_dec j [2; 5; 8; 11; 14; 17; 21]%nat then 1 else 0)) /\
  ne_param (fst (forward_st 128 x e)) 21 "running_mean" = ne_param e 21 "running_mean" /\
  ne_param (fst (forward_st 128 x e)) 21 "running_var" = ne_param e 21 "running_var".
Proof. apply forward_st_single_patch_run. Qed.

(** ** The states a step leaves *)

Lemma verify_dims s u :
  check_input_dim s = Ok u -> verify_batch_size s = Ok tt ->
  (let '(nb, _, h, w) := dims4 s in nb * (h * w) <> 1)%nat.
Proof.
  destruct s as [|nb [|c [|h [|w [|]]]]]; try discriminate. intros _.
  unfold verify_batch_size, numel. cbn [fold_right dims4]. rewrite Nat.mul_1_r.
  destruct (Nat.eqb_spec (nb * (h * w)) 1); [discriminate | auto].
Qed.

(** The three states a layer can leave: the one it found, the counter
    bumped (a tracked batch norm in training mode that raised after
    counting), or the counter bumped and the running statistics moved
    (one that went through its checks). *)
Lemma layer_step_states i l x e :
  fst (layer_step i l x e) = e \/
  exists nf eps m affine, l = BatchNorm2d nf eps m affine true /\ ne_training e = true /\
    (fst (layer_step i l x e) = bump_nbt i e \/
     ((let '(nb, _, h, w) := dims4 (tshape x) in nb * (h * w) <> 1)%nat /\
      fst (layer_step i l x e) = update_stats i m (tshape x) (get x) (bump_nbt i e))).
Proof.
  destruct l as [| | nf eps m affine trs | | |]; try (left; reflexivity).
  cbn [layer_step]. unfold bn_call, st_bind, st_get, st_lift, st_ret, st_modify.
  destruct (check_input_dim (tshape x)) as [u|err] eqn:Ec; [|left; reflexivity].
  destruct (ne_training e && trs) eqn:Et; [|left; destruct (_ <- _ ;; _); reflexivity].
  apply andb_prop in Et as [Ht ->]. right. exists nf, eps, m, affine.
  split; [reflexivity | split; [exact Ht|]]. rewrite Ht. cbn [orb].
  destruct (verify_batch_size (tshape x)) as [[]|err] eqn:Ev; cbn [bind]; [|left; reflexivity].
  destruct (numel (tshape x) =? 0); cbn [negb andb]; [left; reflexivity|].
  destruct (check_features _ _ _); [right | left; reflexivity].
  split; [eapply verify_dims; eassumption | reflexivity].
Qed.

(** A property of states every layer keeps is kept by a sequence. *)
Lemma seq_st_preserves (Q : num_env -> Prop) ls :
  (forall i l x e, In l ls -> Q e -> Q (fst (layer_step i l x e))) ->
  forall i x e, Q e -> Q (fst (seq_st i ls x e)).
Proof.
  induction ls as [|l ls IH]; intros HQ i x e H; [exact H|]. cbn [seq_st]. unfold st_bind.
  pose proof (HQ i l x e (or_introl eq_refl) H) as H1.
  destruct (layer_step i l x e) as [e1 [y|err]]; cbn [fst] in *; [|exact H1].
  apply IH; [intros; apply HQ; [right |]; assumption | exact H1].
Qed.

(** ** Counters: one call bumps an initial segment of the tracked layers *)

(** [1] for a tracked layer [j] of [l] below [k], [0] otherwise. *)
Definition prefix_bump (l : list nat) (k j : nat) : R :=
  if existsb (Nat.eqb j) l && (j <? k)%nat then 1 else 0.

Lemma tracked_bns_ge ls : forall i j, existsb (Nat.eqb j) (tracked_bns i ls) = true -> (i <= j)%nat.
Proof.
  induction ls as [|l ls IH]; intros i j H; [discriminate H|].
  cbn [tracked_bns] in H. rewrite existsb_app in H. apply orb_true_iff in H as [H|H].
  - destruct (tracked l); [|discriminate H]. cbn in H. rewrite orb_false_r in H.
    apply Nat.eqb_eq in H. lia.
  - apply IH in H. lia.
Qed.

Lemma prefix_bump_cons_ok i l ls k j :
  (if (j =? i)%nat && tracked l then 1 else 0) + prefix_bump (tracked_bns (S i) ls) k j =
  prefix_bump (tracked_bns i (l :: ls)) (Nat.max k (S i)) j.
Proof.
  unfold prefix_bump. cbn [tracked_bns]. rewrite existsb_app.
  destruct (existsb (Nat.eqb j) (tracked_bns (S i) ls)) eqn:Hin.
  - apply tracked_bns_ge in Hin.
    replace (j =? i)%nat with false by (symmetry; apply Nat.eqb_neq; lia).
    replace (existsb (Nat.eqb j) (if tracked l then [i] else [])) with false
      by (destruct (tracked l); cbn; [rewrite orb_false_r; symmetry; apply Nat.eqb_neq; lia | reflexivity]).
    replace (j <? Nat.max k (S i))%nat with (j <? k)%nat
      by (destruct (Nat.ltb_spec j k), (Nat.ltb_spec j (Nat.max k (S i))); lia).
    cbn [andb orb]. rewrite Rplus_0_l. reflexivity.
  - rewrite orb_false_r, andb_false_l, Rplus_0_r.
    destruct (Nat.eqb_spec j i) as [->|Hne], (tracked l); cbn [existsb andb];
      rewrite ?Nat.eqb_refl, ?orb_false_r; cbn [andb]; try reflexivity.
    + replace (i <? Nat.max k (S i))%nat with true by (symmetry; apply Nat.ltb_lt; lia). reflexivity.
    + apply Nat.eqb_neq in Hne. rewrite Hne. reflexivity.
Qed.

Lemma prefix_bump_cons_err i l ls (b : bool) j :
  (b = true -> tracked l = true) ->
  (if (j =? i)%nat && b then 1 else 0) =
  prefix_bump (tracked_bns i (l :: ls)) (if b then S i else i) j.
Proof.
  intros Hb. unfold prefix_bump. cbn [tracked_bns]. rewrite existsb_app.
  destruct (existsb (Nat.eqb j) (tracked_bns (S i) ls)) eqn:Hin.
  - apply tracked_bns_ge in Hin.
    replace (j =? i)%nat with false by (symmetry; apply Nat.eqb_neq; lia).
    replace (j <? (if b then S i else i))%nat with false
      by (symmetry; apply Nat.ltb_ge; destruct b; lia).
    rewrite orb_true_r. reflexivity.
  - rewrite orb_false_r. destruct (Nat.eqb_spec j i) as [->|Hne].
    + destruct b; cbn [andb].
      * rewrite (Hb eq_refl). cbn [existsb]. rewrite Nat.eqb_refl.
        replace (i <? S i)%nat with true by (symmetry; apply Nat.ltb_lt; lia). reflexivity.
      * rewrite Nat.ltb_irrefl, andb_false_r. reflexivity.
    + cbn [andb]. destruct (tracked l); cbn [existsb]; [|reflexivity].
      apply Nat.eqb_neq in Hne. rewrite Hne. reflexivity.
Qed.

Lemma prefix_bump_mono l k a b :
  existsb (Nat.eqb a) l = true -> (a <= b)%nat -> prefix_bump l k b <= prefix_bump l k a.
Proof.
  intros Ha Hab. unfold prefix_bump. rewrite Ha. cbn [andb].
  destruct (existsb (Nat.eqb b) l), (Nat.ltb_spec b k), (Nat.ltb_spec a k); cbn [andb];
    try lra; lia.
Qed.

(** One layer bumps at most its own counter, and only a tracked one. *)
Lemma layer_step_nbt i l x e :
  exists b : bool, (b = true -> tracked l = true) /\
    forall j, nbt (fst (layer_step i l x e)) j = nbt e j + (if (j =? i)%nat && b then 1 else 0).
Proof.
  destruct (layer_step_states i l x e) as [->|(nf & eps & m & a & -> & _ & [->|[_ ->]])].
  - exists false. split; [discriminate|]. intros j. rewrite andb_false_r. ring.
  - exists true. split; [reflexivity|]. intros j. rewrite andb_true_r. apply nbt_bump.
  - exists true. split; [reflexivity|]. intros j. rewrite andb_true_r, nbt_update. apply nbt_bump.
Qed.

(** In training mode a sequence stops at its first error, so the counters
    it bumps are those of its tracked layers below some index. *)
Lemma seq_st_nbt_prefix ls : forall i x e, ne_training e = true ->
  exists k, forall j, nbt (fst (seq_st i ls x e)) j = nbt e j + prefix_bump (tracked_bns i ls) k j.
Proof.
  induction ls as [|l ls IH]; intros i x e Ht.
  - exists 0%nat. intros j. unfold prefix_bump. cbn. ring.
  - cbn [seq_st]. unfold st_bind.
    destruct (layer_step i l x e) as [e1 [y1|err]] eqn:E1.
    + pose proof (layer_step_training i l x e) as Ht1. rewrite E1 in Ht1. cbn [fst] in Ht1.
      destruct (IH (S i) y1 e1 (eq_trans Ht1 Ht)) as [k Hk]. exists (Nat.max k (S i)). intros j.
      rewrite Hk, (layer_step_ok_nbt i l x e e1 y1 j Ht E1), <- prefix_bump_cons_ok. ring.
    + destruct (layer_step_nbt i l x e) as (b & Hb & Hn). rewrite E1 in Hn. cbn [fst] in Hn |- *.
      exists (if b then S i else i). intros j. rewrite Hn, <- prefix_bump_cons_err by exact Hb.
      reflexivity.
Qed.

Lemma forward_st_nbt_prefix d x e : ne_training e = true ->
  exists k, forall j,
    nbt (fst (forward_st d x e)) j = nbt e j + prefix_bump (tracked_bns 0 (sosnet_layers d)) k j.
Proof. intros Ht. rewrite forward_st_fst. apply seq_st_nbt_prefix, Ht. Qed.

Lemma fresh_nbt e j : fresh_stats e -> nbt e j = 0.
Proof.
  intros H. unfold nbt, get. rewrite (proj2 (proj2 (H j))). destruct (in_boundsb _ _); reflexivity.
Qed.

Lemma In_existsb_eqb a l : In a l -> existsb (Nat.eqb a) l = true.
Proof. intros H. apply existsb_exists. exists a. split; [exact H | apply Nat.eqb_refl]. Qed.

(** C26: From buffers as [reset_running_stats] leaves them, through any
    sequence of calls (returning or raising, in either mode) and of mode
    switches, every [num_batches_tracked] is a natural number, and no
    layer has counted more batches than a tracked batch norm before it:
    a training call bumps the counters in layer order, each before the
    checks that may raise, and stops at the first error. *)
Theorem reachable_counts_ordered d e : reachable d e ->
  (forall j, exists n : nat, nbt e j = INR n) /\
  (forall a b, In a (tracked_bns 0 (sosnet_layers d)) -> (a <= b)%nat -> nbt e b <= nbt e a).
Proof.
  induction 1 as [e Hf | e x _ [IH1 IH2] | e b _ IH].
  - split; [intros j; exists 0%nat; apply fresh_nbt, Hf|].
    intros a b _ _. rewrite !fresh_nbt by exact Hf. lra.
  - destruct (ne_training e) eqn:Ht.
    + destruct (forward_st_nbt_prefix d x e Ht) as [k Hk]. split.
      * intros j. destruct (IH1 j) as [n Hn]. rewrite Hk, Hn. unfold prefix_bump.
        destruct (_ && _); [exists (S n); rewrite S_INR | exists n]; ring.
      * intros a b Ha Hab. rewrite !Hk.
        pose proof (IH2 a b Ha Hab). pose proof (prefix_bump_mono _ k a b (In_existsb_eqb _ _ Ha) Hab).
        lra.
    + rewrite forward_st_fst, seq_st_eval by exact Ht. split; assumption.
  - exact IH.
Qed.

(** ** One batch norm in training mode *)

Lemma bn_step_unfold i nf eps m x e N H W :
  ne_training e = true -> tshape x = [N; nf; H; W]%nat ->
  layer_step i (BatchNorm2d nf eps m false true) x e =
  if (N * H * W =? 1)%nat
  then (bump_nbt i e, Err (ValueError (MoreThanOneValuePerChannel [N; nf; H; W]%nat)))
  else if (N * nf * H * W =? 0)%nat
  then (bump_nbt i e,
        Ok (mkTensor [N; nf; H; W]%nat
              (layer_value (bump_nbt i e) i (BatchNorm2d nf eps m false true) [N; nf; H; W]%nat (get x))))
  else (update_stats i m [N; nf; H; W]%nat (get x) (bump_nbt i e),
        Ok (mkTensor [N; nf; H; W]%nat
              (layer_value (bump_nbt i e) i (BatchNorm2d nf eps m false true) [N; nf; H; W]%nat (get x)))).
Proof.
  intros Ht Hx. cbn [layer_step]. unfold bn_call, st_bind, st_get, st_lift, st_ret, st_modify.
  rewrite Hx, Ht. cbn [check_input_dim List.length Nat.eqb andb orb negb verify_batch_size].
  replace (numel [N; H; W]%nat) with (N * H * W)%nat by (cbn; ring).
  replace (numel [N; nf; H; W]%nat) with (N * nf * H * W)%nat by (cbn; ring).
  destruct (N * H * W =? 1)%nat; cbn [bind]; [reflexivity|].
  destruct (N * nf * H * W =? 0)%nat; cbn [bind negb]; [reflexivity|].
  cbn [check_features andb negb]. rewrite Nat.eqb_refl. reflexivity.
Qed.

(** Bessel's correction: the unbiased variance is [n / (n - 1)] times
    the biased one. *)
Lemma batch_var_bessel g c N nf H W : (2 <= N * H * W)%nat ->
  batch_var_unbiased [N; nf; H; W]%nat g c =
  INR (N * H * W) / (INR (N * H * W) - 1) * batch_var [N; nf; H; W]%nat g c.
Proof.
  intros Hn. unfold batch_var_unbiased, batch_var. cbn [dims4].
  assert (H2 : 2 <= INR (N * H * W)) by (replace 2 with (INR 2) by (simpl; lra); apply le_INR, Hn).
  field. lra.
Qed.

(** C27: One [BatchNorm2d(nf, affine=False)] of [SOSNet] in training mode
    on a 4-d input with [nf] channels, on each of its branches: with a
    single value per channel ([N * H * W = 1]) it raises [ValueError]
    after bumping its counter; on an input with no element it bumps the
    counter and returns the input's (empty) size, leaving the running
    statistics alone; with at least two values per channel and [nf >= 1]
    it bumps the counter, returns [(x - mean) / sqrt(var + eps)] with the
    batch mean and biased batch variance, and moves [running_mean]
    towards the batch mean and [running_var] towards the unbiased
    variance [n / (n - 1) * var], each by [momentum]. *)
Theorem bn_step_training i nf eps m x e N H W :
  ne_training e = true -> tshape x = [N; nf; H; W]%nat ->
  ((N * H * W = 1)%nat ->
   layer_step i (BatchNorm2d nf eps m false true) x e =
   (bump_nbt i e, Err (ValueError (MoreThanOneValuePerChannel [N; nf; H; W]%nat)))) /\
  ((N * nf * H * W = 0)%nat -> (N * H * W <> 1)%nat -> exists y,
   layer_step i (BatchNorm2d nf eps m false true) x e = (bump_nbt i e, Ok y) /\
   tshape y = [N; nf; H; W]%nat) /\
  ((2 <= N * H * W)%nat -> (1 <= nf)%nat -> exists e' y,
   layer_step i (BatchNorm2d nf eps m false true) x e = (e', Ok y) /\
   tshape y = [N; nf; H; W]%nat /\
   (forall n c a b, tval y [n; c; a; b] =
      (get x [n; c; a; b] - batch_mean [N; nf; H; W]%nat (get x) c) /
      sqrt (batch_var [N; nf; H; W]%nat (get x) c + Q2R eps)) /\
   nbt e' i = nbt e i + 1 /\
   (forall c, tval (ne_param e' i "running_mean") [c] =
      (1 - Q2R m) * get (ne_param e i "running_mean") [c] + Q2R m * batch_mean [N; nf; H; W]%nat (get x) c) /\
   (forall c, tval (ne_param e' i "running_var") [c] =
      (1 - Q2R m) * get (ne_param e i "running_var") [c] +
      Q2R m * (INR (N * H * W) / (INR (N * H * W) - 1) * batch_var [N; nf; H; W]%nat (get x) c))).
Proof.
  intros Ht Hx. rewrite (bn_step_unfold i nf eps m x e N H W Ht Hx). split; [|split].
  - intros ->. reflexivity.
  - intros H0 H1. replace (N * H * W =? 1)%nat with false by (symmetry; apply Nat.eqb_neq, H1).
    rewrite H0. eexists. split; reflexivity.
  - intros Hn Hnf. replace (N * H * W =? 1)%nat with false by (symmetry; apply Nat.eqb_neq; lia).
    replace (N * nf * H * W =? 0)%nat with false by (symmetry; apply Nat.eqb_neq; nia).
    eexists _, _. split; [reflexivity|]. split; [reflexivity|].
    split; [intros; cbn [tval layer_value]; unfold bump_nbt, set_param; cbn [ne_training];
            rewrite Ht; reflexivity|].
    split; [rewrite nbt_update, nbt_bump, Nat.eqb_refl; reflexivity|].
    unfold update_stats. split; intros c.
    + rewrite set_param_other by (right; discriminate). rewrite set_param_same.
      cbn [tval ema]. rewrite bump_other_param by discriminate. reflexivity.
    + rewrite set_param_same. cbn [tval ema].
      rewrite bump_other_param by discriminate.
      rewrite batch_var_bessel by exact Hn. reflexivity.
Qed.

(** ** Witnesses *)

(** A module in training mode with fresh buffers and dropout keeping
    every element. *)
Definition env_train : num_env := mkEnv true (fun _ _ => mkTensor [] (fun _ => 1)) (fun _ _ => true).

Definition batch2 : tensor := mkTensor [2; 1; 32; 32]%nat (fun _ => 1).

Lemma forward_st_eval_pure_witness : fst (forward_st 128 patch32 env0) = env0.
Proof. apply (forward_st_eval_pure 128 patch32 env0). reflexivity. Defined.

(** Buffers as [reset_running_stats] leaves them. *)
Definition env_fresh : num_env :=
  mkEnv true (fun _ n => if String.eqb n "running_var" then mkTensor [] (fun _ => 1)
                         else mkTensor [] (fun _ => 0)) (fun _ _ => true).

Lemma fresh_stats_env_fresh : fresh_stats env_fresh.
Proof. intros i. repeat split. Qed.

Lemma forward_st_counts_witness :
  exists e' y, forward_st 128 batch2 env_train = (e', Ok y) /\
    forall j, nbt e' j = nbt env_train j +
                         (if in_dec Nat.eq_dec j [2; 5; 8; 11; 14; 17; 21]%nat then 1 else 0).
Proof.
  pose proof (forward_num_shape_sim env_train 128 batch2) as R.
  pose proof (proj1 (forward_st_spec 128 batch2 env_train)) as S.
  destruct (forward_st 128 batch2 env_train) as [e' r] eqn:E. cbn [snd] in S. subst r.
  destruct (forward_num env_train 128 batch2) as [y|err]; [|vm_compute in R; discriminate R].
  exists e', y. split; [reflexivity|].
  apply (forward_st_counts 128 batch2 env_train e' y); [reflexivity | exact E].
Defined.


Lemma forward_st_single_patch_partial_witness :
  snd (forward_st 128 patch32 env_train) =
    Err (ValueError (MoreThanOneValuePerChannel [1; 128; 1; 1]%nat)) /\
  (forall j, nbt (fst (forward_st 128 patch32 env_train)) j =
             nbt env_train j + (if in_dec Nat.eq_dec j [2; 5; 8; 11; 14; 17; 21]%nat then 1 else 0)) /\
  ne_param (fst (forward_st 128 patch32 env_train)) 21 "running_mean" =
    ne_param env_train 21 "running_mean" /\
  ne_param (fst (forward_st 128 patch32 env_train)) 21 "running_var" =
    ne_param env_train 21 "running_var".
Proof. apply (forward_st_single_patch_partial env_train patch32 32 32); (reflexivity || lia). Defined.

Lemma reachable_counts_ordered_witness :
  reachable 128 (fst (forward_st 128 patch32 env_fresh)) /\
  (forall j, exists n : nat, nbt (fst (forward_st 128 patch32 env_fresh)) j = INR n) /\
  (forall a b, In a (tracked_bns 0 (sosnet_layers 128)) -> (a <= b)%nat ->
     nbt (fst (forward_st 128 patch32 env_fresh)) b <= nbt (fst (forward_st 128 patch32 env_fresh)) a).
Proof.
  assert (R : reachable 128 (fst (forward_st 128 patch32 env_fresh)))
    by (apply reach_call, reach_init, fresh_stats_env_fresh).
  split; [exact R | apply (reachable_counts_ordered 128); exact R].
Defined.

(** Two values per channel: one channel, two samples of one pixel. *)
Definition pair11 : tensor := mkTensor [2; 1; 1; 1]%nat (fun idx => match idx with 0%nat :: _ => 1 | _ => 3 end).

Lemma bn_step_training_witness :
  ne_training env_train = true /\ tshape pair11 = [2; 1; 1; 1]%nat /\
  exists e' y, layer_step 2 (BatchNorm2d 1 (1 # 100000) (1 # 10) false true) pair11 env_train = (e', Ok y) /\
    nbt e' 2 = nbt env_train 2 + 1.
Proof.
  split; [reflexivity | split; [reflexivity|]].
  destruct (proj2 (proj2 (bn_step_training 2 1 (1 # 100000) (1 # 10) pair11 env_train 2 1 1
                     eq_refl eq_refl)) ltac:(lia) ltac:(lia)) as (e' & y & E & _ & _ & Hn & _).
  exists e', y. split; [exact E | exact Hn].
Defined.
