(* ===== verification/LoadErrors.v ===== *)
(** * LoadErrors: when [load_state_dict(strict=True)] raises

    The error paths of [nn.Module.load_state_dict] as modelled in
    StateDict.v, for the call [SOSNet.__init__] makes on the downloaded
    checkpoint (line 63).  A key the module registers that the
    checkpoint lacks ends in the [missing_keys] of the [RuntimeError]; a
    key of the checkpoint outside [layers] and [desc_norm] (a checkpoint
    saved from [nn.DataParallel], whose keys start with [module.], for
    one) ends in its [unexpected_keys].  The lists only grow along the
    walk, so each theorem follows the one visit that adds the key. *)

From Stdlib Require Import Ascii.
From stdpp Require Import base gmap strings list pretty.
From S2P Require Import Prelude Layers StateDict.

Section Errors.
Context {V : Type}.
Variable shape_of : V -> list nat.
Variable select0 : V -> V.
Variable long_zero : V.

(** The walk's state when [load_state_dict] returns or raises. *)
Definition load_walk md es sd params : @load_state V :=
  fold_left (load_entry shape_of select0 long_zero md) es
    {| ls_params := params; ls_sd := sd; ls_missing := []; ls_unexpected := []; ls_msgs := [] |}.

(** The keys [_InstanceNorm]'s hook may pop from the checkpoint before
    the module's tensors are read. *)
Definition popped_keys (e : module_entry) : list string :=
  match me_kind e with
  | NormBase true _ => [me_prefix e +:+ "running_mean"; me_prefix e +:+ "running_var"]
  | _ => []
  end.

(** The checkpoint still has [v] under [k], and the module a tensor of
    the size of [p] there. *)
Definition key_sized (k : string) (v p : V) (st : @load_state V) : Prop :=
  sd_lookup k (ls_sd st) = Some v /\
  exists p', ls_params st !! k = Some p' /\ shape_of p' = shape_of p.

(** ** What the walk only adds to *)

Lemma kind_pre_lists e version (st : @load_state V) :
  ls_missing (kind_pre long_zero e version st) = ls_missing st /\
  ls_unexpected (kind_pre long_zero e version st) = ls_unexpected st.
Proof.
  unfold kind_pre, norm_base_pre, instance_norm_pre.
  destruct (me_kind e) as [|inst trs]; [split; reflexivity|].
  repeat (case_match; simpl); split; reflexivity.
Qed.

Lemma load_local_lists prefix (st : @load_state V) name :
  ls_unexpected (load_local shape_of select0 prefix st name) = ls_unexpected st /\
  ls_sd (load_local shape_of select0 prefix st name) = ls_sd st /\
  incl (ls_missing st) (ls_missing (load_local shape_of select0 prefix st name)).
Proof.
  unfold load_local. destruct (ls_params st !! _); [|split; [|split]; easy].
  destruct (sd_lookup _ _); [case_decide|]; cbn; (split; [|split]); try easy.
  apply incl_appl, incl_refl.
Qed.

Lemma scan_lists e (st : @load_state V) :
  ls_missing (scan_unexpected e st) = ls_missing st /\
  ls_sd (scan_unexpected e st) = ls_sd st /\
  incl (ls_unexpected st) (ls_unexpected (scan_unexpected e st)).
Proof.
  unfold scan_unexpected.
  apply (fold_left_inv _ (fun st' : @load_state V => ls_missing st' = ls_missing st /\
           ls_sd st' = ls_sd st /\ incl (ls_unexpected st) (ls_unexpected st'))).
  - split; [|split]; easy.
  - intros st' kv _ (H1 & H2 & H3). repeat case_match; cbn; (split; [|split]); try assumption.
    apply incl_appl. exact H3.
Qed.

Lemma load_entry_missing_mono md (st : @load_state V) e :
  incl (ls_missing st) (ls_missing (load_entry shape_of select0 long_zero md st e)).
Proof.
  unfold load_entry. rewrite (proj1 (scan_lists _ _)).
  apply (fold_left_inv _ (fun st' : @load_state V => incl (ls_missing st) (ls_missing st'))).
  - rewrite (proj1 (kind_pre_lists _ _ _)). apply incl_refl.
  - intros st' n _ H. eapply incl_tran; [exact H | apply load_local_lists].
Qed.

Lemma load_entry_unexpected_mono md (st : @load_state V) e :
  incl (ls_unexpected st) (ls_unexpected (load_entry shape_of select0 long_zero md st e)).
Proof.
  unfold load_entry. eapply incl_tran; [|apply scan_lists].
  apply (fold_left_inv _ (fun st' : @load_state V => incl (ls_unexpected st) (ls_unexpected st'))).
  - rewrite (proj2 (kind_pre_lists _ _ _)). apply incl_refl.
  - intros st' n _ H. rewrite (proj1 (load_local_lists _ _ _)). exact H.
Qed.

(** The strict scan of a module reports a key under its prefix whose
    first component is neither a child nor a tensor of the module. *)
Lemma scan_adds e (st : @load_state V) k v :
  In (k, v) (ls_sd st) -> String.prefix (me_prefix e) k = true ->
  first_component (drop_prefix (me_prefix e) k) ∉ me_children e ->
  first_component (drop_prefix (me_prefix e) k) ∉ map fst (me_locals e) ->
  In k (ls_unexpected (scan_unexpected e st)).
Proof.
  intros Hin Hp Hc Hl. unfold scan_unexpected.
  apply (fold_left_reach _ (fun _ => True) (fun st' : @load_state V => In k (ls_unexpected st'))
           _ _ (k, v)); [exact Hin | exact I | auto | |].
  - intros a _. cbn [fst]. rewrite Hp, bool_decide_eq_false_2 by exact Hc.
    rewrite bool_decide_eq_false_2 by exact Hl. cbn. apply in_or_app. right; left; reflexivity.
  - intros a b' _ H. repeat case_match; cbn; try exact H. apply in_or_app. left; exact H.
Qed.

Lemma drop_prefix_empty k : drop_prefix "" k = k.
Proof.
  unfold drop_prefix. cbn [String.length]. induction k as [|c k IH]; [reflexivity|].
  cbn. rewrite IH. reflexivity.
Qed.

(** In strict mode a key the walk reports makes [load_state_dict] raise
    the [RuntimeError] listing both lists. *)
Lemma load_state_dict_strict_err md es sd params k :
  In k (ls_missing (load_walk md es sd params)) \/ In k (ls_unexpected (load_walk md es sd params)) ->
  exists missing unexpected msgs,
    snd (load_state_dict shape_of select0 long_zero true md es sd params) =
      Err (RuntimeError (LoadStateDictErrors missing unexpected msgs)) /\
    missing = ls_missing (load_walk md es sd params) /\
    unexpected = ls_unexpected (load_walk md es sd params).
Proof.
  unfold load_walk, load_state_dict. cbn [snd].
  set (st := fold_left _ _ _). intros H.
  exists (ls_missing st), (ls_unexpected st), (ls_msgs st).
  destruct (ls_missing st), (ls_unexpected st); [destruct H as [[]|[]] | | |]; auto.
Qed.
(** ** A key the checkpoint lacks *)

Lemma sd_pop_none {A} k k' (sd : list (string * A)) :
  sd_lookup k sd = None -> sd_lookup k (sd_pop k' sd) = None.
Proof.
  rewrite !sd_lookup_None. intros H Hin. apply H.
  apply in_map_iff in Hin as ([k0 v0] & <- & Hin). apply filter_In in Hin as [Hin _].
  apply in_map_iff. exists (k0, v0). auto.
Qed.

Lemma sd_append_none {A} k k' (v : A) sd :
  sd_lookup k sd = None -> k' <> k -> sd_lookup k (sd_append k' v sd) = None.
Proof.
  rewrite !sd_lookup_None. unfold sd_append. rewrite map_app. cbn. intros H Hk Hin.
  apply in_app_or in Hin as [Hin|[Hin|[]]]; [apply H, Hin | apply Hk, Hin].
Qed.

Lemma kind_pre_sd_none e version (st : @load_state V) k :
  k <> me_prefix e +:+ "num_batches_tracked" -> sd_lookup k (ls_sd st) = None ->
  sd_lookup k (ls_sd (kind_pre long_zero e version st)) = None.
Proof.
  intros Hk H. unfold kind_pre. destruct (me_kind e) as [|inst trs]; [exact H|].
  assert (Hi : sd_lookup k (ls_sd (if inst && negb trs && match version with None => true | _ => false end
                                    then instance_norm_pre (me_prefix e) st else st)) = None).
  { destruct (inst && negb trs && _); [|exact H]. unfold instance_norm_pre.
    destruct (List.filter _ _); [exact H|]. cbn [ls_sd set_sd].
    apply (fold_left_inv _ (fun sd => sd_lookup k sd = None)); [exact H|].
    intros sd k' _ Hsd. apply sd_pop_none, Hsd. }
  revert Hi.
  generalize (if inst && negb trs && match version with None => true | _ => false end
              then instance_norm_pre (me_prefix e) st else st).
  intros st1 Hi. unfold norm_base_pre.
  destruct (_ && _ && _); [|exact Hi]. cbn [ls_sd set_sd].
  apply sd_append_none; [exact Hi | congruence].
Qed.

Lemma same_shapes_is_Some (p q : gmap string V) k :
  same_shapes shape_of p q -> is_Some (p !! k) -> is_Some (q !! k).
Proof.
  intros Hpq [x Hx]. specialize (Hpq k). rewrite Hx in Hpq.
  destruct (q !! k); [eexists; reflexivity | discriminate].
Qed.

(** The loader can still find the key in the module and not in the
    checkpoint. *)
Definition key_absent (k : string) (st : @load_state V) : Prop :=
  sd_lookup k (ls_sd st) = None /\ is_Some (ls_params st !! k).

Lemma load_entry_absent md (st : @load_state V) e k :
  k <> me_prefix e +:+ "num_batches_tracked" -> key_absent k st ->
  key_absent k (load_entry shape_of select0 long_zero md st e).
Proof.
  intros Hk [Hsd Hp]. split.
  - unfold load_entry. rewrite (proj1 (proj2 (scan_lists _ _))).
    apply (fold_left_inv _ (fun st' : @load_state V => sd_lookup k (ls_sd st') = None)).
    + apply kind_pre_sd_none; assumption.
    + intros st' n _ H. rewrite (proj1 (proj2 (load_local_lists _ _ _))). exact H.
  - eapply same_shapes_is_Some; [apply load_entry_same | exact Hp].
Qed.

(** The visit of the module that registers the key reports it missing. *)
Lemma load_entry_reports md (st : @load_state V) e name :
  In name (map fst (me_locals e)) ->
  me_prefix e +:+ name <> me_prefix e +:+ "num_batches_tracked" ->
  key_absent (me_prefix e +:+ name) st ->
  In (me_prefix e +:+ name) (ls_missing (load_entry shape_of select0 long_zero md st e)).
Proof.
  intros Hn Hk Ha. unfold load_entry. rewrite (proj1 (scan_lists _ _)).
  apply (fold_left_reach _ (key_absent (me_prefix e +:+ name))
           (fun st' : @load_state V => In (me_prefix e +:+ name) (ls_missing st')) _ _ name Hn).
  - destruct Ha as [Hsd Hp]. split; [apply kind_pre_sd_none; assumption|].
    rewrite kind_pre_params. exact Hp.
  - intros st' n _ [Hsd Hp]. split.
    + rewrite (proj1 (proj2 (load_local_lists _ _ _))). exact Hsd.
    + eapply same_shapes_is_Some; [apply load_local_same | exact Hp].
  - intros st' [Hsd [p Hp]]. unfold load_local. rewrite Hp, Hsd. cbn.
    apply in_or_app. right; left; reflexivity.
  - intros st' n _ H. apply (proj2 (proj2 (load_local_lists _ _ _))), H.
Qed.
(** ** A tensor of the wrong size *)

Lemma sd_lookup_pop_other {A} k k' (sd : list (string * A)) :
  k' <> k -> sd_lookup k (sd_pop k' sd) = sd_lookup k sd.
Proof.
  intros Hk. unfold sd_pop. induction sd as [|[k0 v0] sd IH]; [reflexivity|].
  cbn [List.filter fst]. destruct (String.eqb_spec k0 k') as [->|Hne]; cbn [negb sd_lookup].
  - rewrite IH. destruct (String.eqb_spec k' k); [contradiction | reflexivity].
  - rewrite IH. reflexivity.
Qed.

Lemma sd_lookup_append_some {A} k k' (v w : A) sd :
  sd_lookup k sd = Some v -> sd_lookup k (sd_append k' w sd) = Some v.
Proof.
  unfold sd_append. induction sd as [|[k0 v0] sd IH]; [discriminate|]. cbn.
  destruct (String.eqb k0 k); [exact id | exact IH].
Qed.

Lemma kind_pre_sd_some e version (st : @load_state V) k v :
  ~ In k (popped_keys e) -> sd_lookup k (ls_sd st) = Some v ->
  sd_lookup k (ls_sd (kind_pre long_zero e version st)) = Some v.
Proof.
  intros Hk H. unfold kind_pre. destruct (me_kind e) as [|inst trs] eqn:Ek; [exact H|].
  assert (Hi : sd_lookup k (ls_sd (if inst && negb trs && match version with None => true | _ => false end
                                    then instance_norm_pre (me_prefix e) st else st)) = Some v).
  { destruct inst; cbn [andb]; [|exact H]. destruct (negb trs && _); [|exact H].
    unfold instance_norm_pre. destruct (List.filter _ _) as [|k0 ks] eqn:Ef; [exact H|].
    cbn [ls_sd set_sd].
    apply (fold_left_inv _ (fun sd => sd_lookup k sd = Some v)); [exact H|].
    intros sd k' Hin Hsd. cbv beta. rewrite sd_lookup_pop_other; [exact Hsd|]. intros ->. apply Hk.
    unfold popped_keys. rewrite Ek. rewrite <- Ef in Hin. apply filter_In in Hin as [Hin _].
    exact Hin. }
  revert Hi.
  generalize (if inst && negb trs && match version with None => true | _ => false end
              then instance_norm_pre (me_prefix e) st else st).
  intros st1 Hi. unfold norm_base_pre.
  destruct (_ && _ && _); [|exact Hi]. cbn [ls_sd set_sd]. apply sd_lookup_append_some, Hi.
Qed.

Lemma kind_pre_msgs e version (st : @load_state V) :
  incl (ls_msgs st) (ls_msgs (kind_pre long_zero e version st)).
Proof.
  unfold kind_pre, norm_base_pre, instance_norm_pre.
  destruct (me_kind e) as [|inst trs]; [apply incl_refl|].
  repeat (case_match; cbn); try apply incl_refl; apply incl_appl, incl_refl.
Qed.

Lemma load_local_msgs prefix (st : @load_state V) name :
  incl (ls_msgs st) (ls_msgs (load_local shape_of select0 prefix st name)).
Proof.
  unfold load_local. destruct (ls_params st !! _); [|apply incl_refl].
  destruct (sd_lookup _ _); [case_decide|]; cbn; try apply incl_refl. apply incl_appl, incl_refl.
Qed.

Lemma scan_msgs e (st : @load_state V) : ls_msgs (scan_unexpected e st) = ls_msgs st.
Proof.
  unfold scan_unexpected.
  apply (fold_left_inv _ (fun st' : @load_state V => ls_msgs st' = ls_msgs st)); [reflexivity|].
  intros st' kv _ H. repeat case_match; exact H.
Qed.

Lemma load_entry_msgs_mono md (st : @load_state V) e :
  incl (ls_msgs st) (ls_msgs (load_entry shape_of select0 long_zero md st e)).
Proof.
  unfold load_entry. rewrite scan_msgs.
  apply (fold_left_inv _ (fun st' : @load_state V => incl (ls_msgs st) (ls_msgs st'))).
  - apply kind_pre_msgs.
  - intros st' n _ H. eapply incl_tran; [exact H | apply load_local_msgs].
Qed.

Lemma same_shapes_sized (p q : gmap string V) k p0 :
  same_shapes shape_of p q -> (exists p', p !! k = Some p' /\ shape_of p' = shape_of p0) ->
  exists p', q !! k = Some p' /\ shape_of p' = shape_of p0.
Proof.
  intros Hpq (p' & Hp & Hs). specialize (Hpq k). rewrite Hp in Hpq.
  destruct (q !! k) as [q'|]; [|discriminate]. exists q'. split; [reflexivity|].
  injection Hpq as Hpq. congruence.
Qed.

Lemma load_entry_sized md (st : @load_state V) e k v p :
  ~ In k (popped_keys e) -> key_sized k v p st ->
  key_sized k v p (load_entry shape_of select0 long_zero md st e).
Proof.
  intros Hk [Hsd Hp]. split.
  - unfold load_entry. rewrite (proj1 (proj2 (scan_lists _ _))).
    apply (fold_left_inv _ (fun st' : @load_state V => sd_lookup k (ls_sd st') = Some v)).
    + apply kind_pre_sd_some; assumption.
    + intros st' n _ H. rewrite (proj1 (proj2 (load_local_lists _ _ _))). exact H.
  - eapply same_shapes_sized; [apply load_entry_same | exact Hp].
Qed.

(** The visit of the module that registers the key reports the sizes. *)
Lemma load_entry_mismatch md (st : @load_state V) e name v p :
  In name (map fst (me_locals e)) -> ~ In (me_prefix e +:+ name) (popped_keys e) ->
  shape_of v <> shape_of p ->
  ~ (length (shape_of p) = 0 /\ length (shape_of v) = 1) ->
  key_sized (me_prefix e +:+ name) v p st ->
  In (SizeMismatch (me_prefix e +:+ name) (shape_of v) (shape_of p))
     (ls_msgs (load_entry shape_of select0 long_zero md st e)).
Proof.
  intros Hn Hk Hne Hsel Ha. unfold load_entry. rewrite scan_msgs.
  apply (fold_left_reach _ (key_sized (me_prefix e +:+ name) v p)
           (fun st' : @load_state V =>
              In (SizeMismatch (me_prefix e +:+ name) (shape_of v) (shape_of p)) (ls_msgs st'))
           _ _ name Hn).
  - destruct Ha as [Hsd Hp]. split; [apply kind_pre_sd_some; assumption|].
    rewrite kind_pre_params. exact Hp.
  - intros st' n _ [Hsd Hp]. split.
    + rewrite (proj1 (proj2 (load_local_lists _ _ _))). exact Hsd.
    + eapply same_shapes_sized; [apply load_local_same | exact Hp].
  - intros st' [Hsd (p' & Hp & Hs)]. unfold load_local. rewrite Hp, Hsd. cbn zeta.
    rewrite Hs. destruct (length (shape_of p) =? 0) eqn:E0, (length (shape_of v) =? 1) eqn:E1;
      try (apply Nat.eqb_eq in E0; apply Nat.eqb_eq in E1; tauto).
    all: cbn [andb]; rewrite decide_False by exact Hne; cbn;
      apply in_or_app; right; left; reflexivity.
  - intros st' n _ H. apply load_local_msgs, H.
Qed.

(** With any [strict], a message makes [load_state_dict] raise. *)
Lemma load_state_dict_msg_err strict md es sd params m :
  In m (ls_msgs (load_walk md es sd params)) ->
  exists missing unexpected msgs,
    snd (load_state_dict shape_of select0 long_zero strict md es sd params) =
      Err (RuntimeError (LoadStateDictErrors missing unexpected msgs)) /\
    msgs = ls_msgs (load_walk md es sd params).
Proof.
  unfold load_walk, load_state_dict. cbn [snd].
  set (st := fold_left _ _ _). intros H.
  exists (if strict then ls_missing st else []), (if strict then ls_unexpected st else []), (ls_msgs st).
  destruct (if strict then ls_missing st else []), (if strict then ls_unexpected st else []),
    (ls_msgs st); [destruct H | ..]; auto.
Qed.
End Errors.

(** C15: Loading into a [SOSNet] in strict mode a checkpoint
    that holds a key whose first component is neither [layers] nor
    [desc_norm] (e.g. [module.layers.0.weight], saved from
    [nn.DataParallel]) raises [RuntimeError], with the key among the
    unexpected keys that the walk over the submodules ([load_walk])
    collects before the strict check. *)
Theorem load_state_dict_unexpected_key {V : Type} (shape_of : V -> list nat) select0 long_zero
    md layers desc_norm sd params k v :
  In (k, v) sd -> first_component k ∉ ["layers"; "desc_norm"] ->
  exists missing unexpected msgs,
    snd (load_state_dict shape_of select0 long_zero true md (sosnet_entries layers desc_norm) sd params)
      = Err (RuntimeError (LoadStateDictErrors missing unexpected msgs)) /\ In k unexpected /\
    In k (ls_unexpected (load_walk shape_of select0 long_zero md (sosnet_entries layers desc_norm) sd params)).
Proof.
  intros Hin Hk.
  assert (Hu : In k (ls_unexpected (load_walk shape_of select0 long_zero md
                                      (sosnet_entries layers desc_norm) sd params))).
  { unfold load_walk, sosnet_entries. cbn [fold_left].
    apply (fold_left_inv _ (fun st' : @load_state V => In k (ls_unexpected st'))).
    - apply (scan_adds _ _ k v); [exact Hin | destruct k; reflexivity | |];
        rewrite drop_prefix_empty; [exact Hk | apply not_elem_of_nil].
    - intros st' e _ H. apply load_entry_unexpected_mono, H. }
  destruct (load_state_dict_strict_err shape_of select0 long_zero md _ sd params k (or_intror Hu))
    as (m & u & ms & E & _ & ->).
  eexists m, _, ms. split; [exact E | split; exact Hu].
Qed.

(** C14: In strict mode, a checkpoint that lacks a key the module
    registers raises [RuntimeError] with the key among the missing keys
    that the walk over the submodules ([load_walk]) collects, unless the key is a [num_batches_tracked] counter, which the
    [_NormBase] hook fills with a zero for checkpoints older than
    version 2. *)
Theorem load_state_dict_missing_key {V : Type} (shape_of : V -> list nat) select0 long_zero
    md es sd params e name p :
  In e es -> In name (map fst (me_locals e)) ->
  params !! (me_prefix e +:+ name) = Some p -> sd_lookup (me_prefix e +:+ name) sd = None ->
  (forall e', In e' es -> me_prefix e +:+ name <> me_prefix e' +:+ "num_batches_tracked") ->
  exists missing unexpected msgs,
    snd (load_state_dict shape_of select0 long_zero true md es sd params)
      = Err (RuntimeError (LoadStateDictErrors missing unexpected msgs)) /\
    In (me_prefix e +:+ name) missing /\
    In (me_prefix e +:+ name) (ls_missing (load_walk shape_of select0 long_zero md es sd params)).
Proof.
  intros He Hn Hp Hsd Hnbt.
  assert (Hm : In (me_prefix e +:+ name)
                 (ls_missing (load_walk shape_of select0 long_zero md es sd params))).
  { unfold load_walk.
    apply (fold_left_reach _ (key_absent (me_prefix e +:+ name))
             (fun st' : @load_state V => In (me_prefix e +:+ name) (ls_missing st')) _ _ e He).
    - split; [exact Hsd | exists p; exact Hp].
    - intros st' e' He' Ha. apply load_entry_absent; [apply Hnbt, He' | exact Ha].
    - intros st' Ha. apply load_entry_reports; [exact Hn | apply Hnbt, He | exact Ha].
    - intros st' e' _ H. apply load_entry_missing_mono, H. }
  destruct (load_state_dict_strict_err shape_of select0 long_zero md es sd params _ (or_introl Hm))
    as (m & u & ms & E & -> & _).
  eexists _, u, ms. split; [exact E | split; exact Hm].
Qed.

(** C16: Loading a checkpoint whose tensor under a key of the module
    has another size than the module's tensor (a 1-element tensor for a
    0-d one apart, which is unpacked) raises [RuntimeError] with the
    [size mismatch] message, in strict mode and with [strict=False]
    alike: [strict] only silences the missing and unexpected keys. *)
Theorem load_state_dict_size_mismatch {V : Type} (shape_of : V -> list nat) select0 long_zero
    strict md es sd params e name p v :
  In e es -> In name (map fst (me_locals e)) ->
  params !! (me_prefix e +:+ name) = Some p -> sd_lookup (me_prefix e +:+ name) sd = Some v ->
  shape_of v <> shape_of p -> ~ (length (shape_of p) = 0 /\ length (shape_of v) = 1) ->
  (forall e', In e' es -> ~ In (me_prefix e +:+ name) (popped_keys e')) ->
  exists missing unexpected msgs,
    snd (load_state_dict shape_of select0 long_zero strict md es sd params)
      = Err (RuntimeError (LoadStateDictErrors missing unexpected msgs)) /\
    In (SizeMismatch (me_prefix e +:+ name) (shape_of v) (shape_of p)) msgs.
Proof.
  intros He Hn Hp Hsd Hne Hsel Hpop.
  assert (Hm : In (SizeMismatch (me_prefix e +:+ name) (shape_of v) (shape_of p))
                 (ls_msgs (load_walk shape_of select0 long_zero md es sd params))).
  { unfold load_walk.
    apply (fold_left_reach _ (key_sized shape_of (me_prefix e +:+ name) v p)
             (fun st' : @load_state V =>
                In (SizeMismatch (me_prefix e +:+ name) (shape_of v) (shape_of p)) (ls_msgs st'))
             _ _ e He).
    - split; [exact Hsd | exists p; split; [exact Hp | reflexivity]].
    - intros st' e' He' Ha. apply load_entry_sized; [apply Hpop, He' | exact Ha].
    - intros st' Ha. apply load_entry_mismatch; [exact Hn | apply Hpop, He | exact Hne | exact Hsel | exact Ha].
    - intros st' e' _ H. apply load_entry_msgs_mono, H. }
  destruct (load_state_dict_msg_err shape_of select0 long_zero strict md es sd params _ Hm)
    as (m & u & ms & E & ->).
  eexists m, u, _. split; [exact E | exact Hm].
Qed.

(** ** Witnesses, on the entries of a [SOSNet] with sizes for tensors *)

Definition sosnet128_entries : list module_entry :=
  sosnet_entries (sosnet_layers 128) (desc_norm_layers 128).

Definition sosnet128_store : gmap string (list nat) := list_to_map (module_keys sosnet128_entries).

Lemma load_state_dict_missing_key_witness :
  exists missing unexpected msgs,
    snd (load_state_dict (fun s : list nat => s) (fun s => s) [] true None sosnet128_entries []
           sosnet128_store)
      = Err (RuntimeError (LoadStateDictErrors missing unexpected msgs)) /\
    In "layers.1.weight" missing /\
    In "layers.1.weight" (ls_missing (load_walk (fun s : list nat => s) (fun s => s) [] None
                                        sosnet128_entries [] sosnet128_store)).
Proof.
  apply (load_state_dict_missing_key (fun s : list nat => s) (fun s => s) [] None sosnet128_entries
           [] sosnet128_store (nth 3 sosnet128_entries
             {| me_prefix := ""; me_locals := []; me_children := []; me_kind := PlainModule |}) "weight" [32; 1; 3; 3]).
  - apply nth_In. vm_compute. lia.
  - vm_compute. left; reflexivity.
  - vm_compute. reflexivity.
  - reflexivity.
  - intros e' He'. apply String.eqb_neq.
    assert (Hall : forallb (fun e => negb (String.eqb "layers.1.weight" (me_prefix e +:+ "num_batches_tracked")))
                     sosnet128_entries = true) by (vm_compute; reflexivity).
    rewrite forallb_forall in Hall. apply Hall, negb_true_iff in He'. exact He'.
Defined.

Lemma load_state_dict_unexpected_key_witness :
  exists missing unexpected msgs,
    snd (load_state_dict (fun s : list nat => s) (fun s => s) [] true None sosnet128_entries
           [("module.layers.1.weight", [32; 1; 3; 3])] sosnet128_store)
      = Err (RuntimeError (LoadStateDictErrors missing unexpected msgs)) /\
    In "module.layers.1.weight" unexpected /\
    In "module.layers.1.weight"
       (ls_unexpected (load_walk (fun s : list nat => s) (fun s => s) [] None sosnet128_entries
                         [("module.layers.1.weight", [32; 1; 3; 3])] sosnet128_store)).
Proof.
  apply (load_state_dict_unexpected_key (fun s : list nat => s) (fun s => s) [] None
           (sosnet_layers 128) (desc_norm_layers 128) _ sosnet128_store _ [32; 1; 3; 3]).
  - left; reflexivity.
  - refine (bool_decide_unpack _ _). vm_compute. reflexivity.
Defined.

Lemma load_state_dict_size_mismatch_witness :
  exists missing unexpected msgs,
    snd (load_state_dict (fun s : list nat => s) (fun s => s) [] false None sosnet128_entries
           [("layers.1.weight", [64; 1; 3; 3])] sosnet128_store)
      = Err (RuntimeError (LoadStateDictErrors missing unexpected msgs)) /\
    In (SizeMismatch "layers.1.weight" [64; 1; 3; 3] [32; 1; 3; 3]) msgs.
Proof.
  apply (load_state_dict_size_mismatch (fun s : list nat => s) (fun s => s) [] false None
           sosnet128_entries _ sosnet128_store
           (nth 3 sosnet128_entries
             {| me_prefix := ""; me_locals := []; me_children := []; me_kind := PlainModule |})
           "weight" [32; 1; 3; 3] [64; 1; 3; 3]).
  - apply nth_In. vm_compute. lia.
  - vm_compute. left; reflexivity.
  - vm_compute. reflexivity.
  - reflexivity.
  - discriminate.
  - cbn. lia.
  - intros e' He'.
    assert (Hall : forallb (fun e => negb (existsb (String.eqb "layers.1.weight") (popped_keys e)))
                     sosnet128_entries = true) by (vm_compute; reflexivity).
    rewrite forallb_forall in Hall. apply Hall, negb_true_iff in He'.
    intros Hin. rewrite <- not_true_iff_false in He'. apply He', existsb_exists.
    exists (me_prefix (nth 3 sosnet128_entries
             {| me_prefix := ""; me_locals := []; me_children := []; me_kind := PlainModule |})
            +:+ "weight").
    split; [exact Hin | vm_compute; reflexivity].
Defined.
