(* ===== verification/Compose.v ===== *)
(** * Compose: the module object and its calls

    [SOSNet.__init__] (Module.v) builds a module whose tensors live in its
    store, under the keys [layers.<i>.<name>] that [nn.Sequential]
    registers for its children (StateDict.v); a call of the module runs
    [SOSNet.forward] (Training.v), where each child reads its tensors as
    attributes ([self.weight], [self.running_mean], ...) and the batch
    norms update their buffers in place.  Here the two meet: the store
    seen as the environment of the layers ([env_of]), and a call on the
    module object ([SOSNet_call]) whose buffer updates land back in the
    store ([write_back]).  Tensors are the real-valued ones of Tensor.v,
    with their size as [shape_of].  The theorems follow the module through
    construction, [eval()] and calls: what a call returns and which
    counters of the store it has bumped. *)

From Stdlib Require Import Reals Lra Ascii.
From stdpp Require Import base gmap strings list pretty.
From S2P Require Import Prelude Layers Sequential Shapes StateDict Urls Module Tensor Numeric Training.

(** [input_param[0]]: the first slice of a tensor. *)
Definition tensor_select0 (t : tensor) : tensor :=
  mkTensor (tl (tshape t)) (fun idx => get t (0%nat :: idx)).

(** [torch.tensor(0, dtype=torch.long)] *)
Definition long_zero_t : tensor := mkTensor [] (fun _ => 0%R).

(** The key of the tensor [name] of child [i] of [self.layers]. *)
Definition layer_key (i : nat) (name : string) : string :=
  ("layers" +:+ "." +:+ pretty i +:+ ".") +:+ name.

(** Reading a registered tensor from the store. *)
Definition store_get (p : gmap string tensor) (k : string) : tensor :=
  match p !! k with Some t => t | None => long_zero_t end.

(** The module's store as the environment of its layers: child [i] reads
    its attribute [name] under [layer_key i name]. *)
Definition env_of (m : SOSNet tensor) (mask : nat -> list nat -> bool) : num_env :=
  mkEnv (training m) (fun i n => store_get (params m) (layer_key i n)) mask.

(** The (child, name) pairs the children of [self.layers] register. *)
Definition layer_slots (ls : list Layer) : list (nat * string) :=
  concat (imap (fun i l => map (fun ns => (i, fst ns)) (layer_locals l)) ls).

(** The store after the call: every registered tensor of a child is the
    layer's tensor as the call left it. *)
Definition write_back (ls : list Layer) (e : num_env) (p : gmap string tensor) : gmap string tensor :=
  list_to_map (map (fun '(i, n) => (layer_key i n, ne_param e i n)) (layer_slots ls)) ∪ p.

(** [module(x)]: [forward] on the module's containers and store. *)
Definition SOSNet_call (mask : nat -> list nat -> bool) (m : SOSNet tensor) (x : tensor)
    : SOSNet tensor * res tensor :=
  let '(e', r) := forward_seq_st (layers m) (desc_norm m) x (env_of m mask) in
  (mkSOSNet (training m) (layers m) (desc_norm m) (write_back (layers m) e' (params m)), r).

(** [module.train(b)]; [module.eval()] is [SOSNet_train false]. *)
Definition SOSNet_train (b : bool) (m : SOSNet tensor) : SOSNet tensor :=
  mkSOSNet b (layers m) (desc_norm m) (params m).

(** ** The store after a call *)

Lemma write_back_lookup ls e p i n :
  NoDup (map (fun '(i, n) => layer_key i n) (layer_slots ls)) -> In (i, n) (layer_slots ls) ->
  write_back ls e p !! layer_key i n = Some (ne_param e i n).
Proof.
  intros Hnd Hin. unfold write_back. apply lookup_union_Some_l.
  apply elem_of_list_to_map_1.
  - assert (E : forall l : list (nat * string),
      (map (fun '(i, n) => (layer_key i n, ne_param e i n)) l).*1 =
      map (fun '(i, n) => layer_key i n) l)
      by (induction l as [|[? ?] ? IH]; cbn; [reflexivity | f_equal; exact IH]).
    rewrite E. exact Hnd.
  - apply list_elem_of_In, in_map_iff. exists (i, n). split; [reflexivity | exact Hin].
Qed.

Lemma sosnet_slot_keys_nodup :
  NoDup (map (fun '(i, n) => layer_key i n) (layer_slots (sosnet_layers 128))).
Proof. refine (bool_decide_unpack _ _). vm_compute. reflexivity. Qed.

Lemma sosnet_bn_slots j :
  In j [2; 5; 8; 11; 14; 17; 21]%nat ->
  In (j, "num_batches_tracked") (layer_slots (sosnet_layers 128)).
Proof.
  intros Hj. apply list_elem_of_In.
  repeat (destruct Hj as [<-|Hj]; [refine (bool_decide_unpack _ _); vm_compute; reflexivity|]).
  destruct Hj.
Qed.

(** [SOSNet()] with [dim_desc = 128] declared, as a record. *)
Lemma SOSNet_init_fresh fresh hub :
  SOSNet_init tshape tensor_select0 long_zero_t fresh hub [("dim_desc", 128%nat)] false =
  Ok (mkSOSNet true (sosnet_layers 128) (desc_norm_layers 128)
        (init_params fresh (sosnet_entries (sosnet_layers 128) (desc_norm_layers 128)))).
Proof. reflexivity. Qed.

Lemma SOSNet_call_sosnet mask m x :
  layers m = sosnet_layers 128 -> desc_norm m = desc_norm_layers 128 ->
  SOSNet_call mask m x =
  (mkSOSNet (training m) (layers m) (desc_norm m)
     (write_back (layers m) (fst (forward_st 128 x (env_of m mask))) (params m)),
   snd (forward_st 128 x (env_of m mask))).
Proof.
  intros Hl Hd. unfold SOSNet_call. rewrite Hl, Hd. fold (forward_st 128 x (env_of m mask)).
  destruct (forward_st 128 x (env_of m mask)); reflexivity.
Qed.

(** C9: The module [SOSNet()] returns (with [dim_desc = 128]
    declared), called on a single patch as it comes from the constructor,
    raises [ValueError]; and the call has left every
    [layers.<j>.num_batches_tracked] of the module's store one higher. *)
Theorem SOSNet_call_fresh_single_patch fresh hub mask m x H W :
  SOSNet_init tshape tensor_select0 long_zero_t fresh hub [("dim_desc", 128%nat)] false = Ok m ->
  tshape x = [1; 1; H; W]%nat -> (29 <= H <= 32)%nat -> (29 <= W <= 32)%nat ->
  snd (SOSNet_call mask m x) = Err (ValueError (MoreThanOneValuePerChannel [1; 128; 1; 1]%nat)) /\
  forall j, In j [2; 5; 8; 11; 14; 17; 21]%nat ->
    nbt (env_of (fst (SOSNet_call mask m x)) mask) j = (nbt (env_of m mask) j + 1)%R.
Proof.
  intros Hm Hx HH HW. rewrite SOSNet_init_fresh in Hm. injection Hm as <-.
  rewrite SOSNet_call_sosnet by reflexivity. cbn [fst snd layers desc_norm params training].
  set (m0 := mkSOSNet true _ _ _).
  destruct (forward_st_single_patch_run (env_of m0 mask) x H W eq_refl Hx HH HW) as (Hr & Hn & _).
  split; [exact Hr|]. intros j Hj.
  unfold nbt at 1, env_of at 1, store_get. cbn [ne_param params].
  rewrite write_back_lookup by (apply sosnet_slot_keys_nodup || apply sosnet_bn_slots, Hj).
  fold (nbt (fst (forward_st 128 x (env_of m0 mask))) j). rewrite Hn.
  match goal with |- context [in_dec ?dec j ?l] => destruct (in_dec dec j l) end;
    [reflexivity | contradiction].
Qed.

(** ** A call in evaluation mode on a loaded module *)

(** Every tensor a child of [self.layers] reads is registered in the
    module's store. *)
Lemma sosnet_slots_registered :
  Forall (fun s => layer_key (fst s) (snd s) ∈ map fst (module_keys sosnet_entries128))
    (layer_slots (sosnet_layers 128)).
Proof. refine (bool_decide_unpack _ _). vm_compute. reflexivity. Qed.

(** Writing back the tensors the layers read, unchanged, gives the store
    back. *)
Lemma write_back_self mask (m : SOSNet tensor) :
  Forall (fun s => is_Some (params m !! layer_key (fst s) (snd s))) (layer_slots (layers m)) ->
  write_back (layers m) (env_of m mask) (params m) = params m.
Proof.
  intros Hall. unfold write_back. apply map_subseteq_union, map_subseteq_spec.
  intros k t Hk. apply elem_of_list_to_map_2, list_elem_of_In, in_map_iff in Hk
    as ([i n] & Heq & Hin). injection Heq as <- <-.
  rewrite Forall_forall in Hall.
  destruct (Hall (i, n) (proj2 (list_elem_of_In _ _) Hin)) as [t' Ht']. cbn [fst snd] in Ht'.
  cbn [ne_param env_of]. unfold store_get. rewrite Ht'. reflexivity.
Qed.
(** A side of 29 to 32 ends as a single position. *)
Lemma side_29_32 n : (29 <= n <= 32)%nat -> ((n + 3) / 4 - 7)%nat = 1%nat.
Proof.
  intros Hn. assert (Hs : (n = 29 \/ n = 30 \/ n = 31 \/ n = 32)%nat) by lia.
  destruct Hs as [-> | [-> | [-> | ->]]]; reflexivity.
Qed.

Lemma wf_slots_present (q : gmap string tensor) :
  params_wf tshape sosnet_entries128 q ->
  Forall (fun s => is_Some (q !! layer_key (fst s) (snd s))) (layer_slots (sosnet_layers 128)).
Proof.
  intros [Hk _]. eapply Forall_impl; [apply sosnet_slots_registered|]. intros [i n] H.
  cbn [fst snd] in *.
  apply list_elem_of_In, in_map_iff in H as ([k s] & Hk' & Hin). cbn [fst] in Hk'. subst k.
  destruct (Hk _ _ Hin) as (v & Hv & _). exists v. exact Hv.
Qed.

(** C8: With [dim_desc = 128] declared and a download
    whose ['state_dict'] is the state dict of a module of the same
    architecture, the documented use works end to end:
    [SOSNet(pretrained=True)] returns a module; after [.eval()], calling
    it on a batch of one-channel patches of side 29 to 32 returns a
    [B x 128] matrix whose rows are unit vectors (or zero), and leaves
    the module as it was. *)
Theorem SOSNet_pretrained_eval_call fresh hub ckpt metadata (q : gmap string tensor) mask x B H W :
  (forall k s, tshape (fresh k s) = s) ->
  params_wf tshape sosnet_entries128 q ->
  (url <- getitem urls "lib" ;; hub url) = Ok ckpt ->
  getitem ckpt "state_dict" = Ok (CkptStateDict (state_dict sosnet_entries128 q) metadata) ->
  tshape x = [B; 1; H; W]%nat -> (1 <= B)%nat -> (29 <= H <= 32)%nat -> (29 <= W <= 32)%nat ->
  exists m,
    SOSNet_init tshape tensor_select0 long_zero_t fresh hub [("dim_desc", 128%nat)] true = Ok m /\
    fst (SOSNet_call mask (SOSNet_train false m) x) = SOSNet_train false m /\
    exists d, snd (SOSNet_call mask (SOSNet_train false m) x) = Ok d /\ tshape d = [B; 128]%nat /\
      forall b, (b < B)%nat ->
        rsum 128 (fun j => tval d [b; j] ^ 2) = 1%R \/
        (forall j, (j < 128)%nat -> tval d [b; j] = 0%R).
Proof.
  intros Hfresh Hq Hurl Hsd Hx HB HH HW.
  exists (mkSOSNet true (sosnet_layers 128) (desc_norm_layers 128) q).
  split; [apply (SOSNet_init_loads tshape _ _ fresh Hfresh hub ckpt metadata q Hq Hurl Hsd)|].
  set (m' := SOSNet_train false _).
  rewrite SOSNet_call_sosnet by reflexivity. cbn [fst snd].
  assert (Ht : ne_training (env_of m' mask) = false) by reflexivity.
  split.
  - rewrite forward_st_fst, seq_st_eval by exact Ht.
    rewrite (write_back_self mask m') by (apply wf_slots_present, Hq). reflexivity.
  - rewrite (proj1 (forward_st_spec 128 x (env_of m' mask))).
    pose proof (forward_num_shape_sim (env_of m' mask) 128 x) as Hs.
    rewrite Hx, Ht, shape_of_forward in Hs by lia.
    rewrite (side_29_32 H HH), (side_29_32 W HW) in Hs.
    destruct (forward_num (env_of m' mask) 128 x) as [d|err] eqn:Hd; [|discriminate].
    injection Hs as Hds. exists d. split; [reflexivity | split; [exact Hds|]].
    apply (forward_num_rows (env_of m' mask) x d B H W); [exact Hx | exact HB | left; exact Ht | exact Hd | exact Hds].
Qed.

(** ** The docstring's example on a fresh module *)

(** C28: With [dim_desc = 128] declared, the docstring's example works on
    the module as [SOSNet()] builds it, in training mode: on a batch of
    at least two one-channel patches of side 29 to 32 the call returns a
    [B x 128] matrix whose rows are unit vectors (or zero), and has added
    one to every [layers.<j>.num_batches_tracked] of the module's store. *)
Theorem SOSNet_fresh_call_batch fresh hub mask m x B H W :
  SOSNet_init tshape tensor_select0 long_zero_t fresh hub [("dim_desc", 128%nat)] false = Ok m ->
  tshape x = [B; 1; H; W]%nat -> (2 <= B)%nat -> (29 <= H <= 32)%nat -> (29 <= W <= 32)%nat ->
  exists d, snd (SOSNet_call mask m x) = Ok d /\ tshape d = [B; 128]%nat /\
    (forall b, (b < B)%nat ->
       rsum 128 (fun j => tval d [b; j] ^ 2) = 1%R \/
       (forall j, (j < 128)%nat -> tval d [b; j] = 0%R)) /\
    forall j, In j [2; 5; 8; 11; 14; 17; 21]%nat ->
      nbt (env_of (fst (SOSNet_call mask m x)) mask) j = (nbt (env_of m mask) j + 1)%R.
Proof.
  intros Hm Hx HB HH HW. rewrite SOSNet_init_fresh in Hm. injection Hm as <-.
  rewrite SOSNet_call_sosnet by reflexivity. cbn [fst snd layers desc_norm params training].
  set (e := env_of (mkSOSNet true _ _ _) mask).
  assert (Ht : ne_training e = true) by reflexivity.
  pose proof (forward_num_shape_sim e 128 x) as Hs.
  rewrite Hx, Ht, shape_of_forward in Hs by (first [lia | right; lia]).
  rewrite (side_29_32 H HH), (side_29_32 W HW) in Hs.
  destruct (forward_num e 128 x) as [d|err] eqn:Hd; [|discriminate]. injection Hs as Hds.
  pose proof (proj1 (forward_st_spec 128 x e)) as Hsnd. rewrite Hd in Hsnd.
  destruct (forward_st 128 x e) as [e' r] eqn:Est. cbn [snd fst] in *. subst r.
  exists d. split; [reflexivity | split; [exact Hds | split]].
  - apply (forward_num_rows e x d B H W); [exact Hx | lia | right; lia | exact Hd | exact Hds].
  - intros j Hj. unfold nbt at 1, env_of at 1, store_get. cbn [ne_param params].
    rewrite write_back_lookup by (apply sosnet_slot_keys_nodup || apply sosnet_bn_slots, Hj).
    fold (nbt e' j). rewrite (forward_st_ok_counts 128 x e e' d Ht Est j).
    match goal with |- context [in_dec ?dec j ?l] => destruct (in_dec dec j l) end;
      [reflexivity | contradiction].
Qed.

(** ** Witnesses *)

Definition zero_fresh (k : string) (s : list nat) : tensor := mkTensor s (fun _ => 0%R).

Definition offline_hub (url : string) : res (list (string * ckpt_value tensor)) := Err (KeyError url).

Definition keep_all (i : nat) (idx : list nat) : bool := true.

Lemma SOSNet_call_fresh_single_patch_witness :
  exists m,
    SOSNet_init tshape tensor_select0 long_zero_t zero_fresh offline_hub [("dim_desc", 128%nat)] false
      = Ok m /\
    snd (SOSNet_call keep_all m patch32) =
      Err (ValueError (MoreThanOneValuePerChannel [1; 128; 1; 1]%nat)) /\
    forall j, In j [2; 5; 8; 11; 14; 17; 21]%nat ->
      nbt (env_of (fst (SOSNet_call keep_all m patch32)) keep_all) j =
      (nbt (env_of m keep_all) j + 1)%R.
Proof.
  eexists. split; [apply SOSNet_init_fresh|].
  apply (SOSNet_call_fresh_single_patch zero_fresh offline_hub keep_all _ patch32 32 32);
    [apply SOSNet_init_fresh | reflexivity | lia | lia].
Defined.

(** A download whose ['state_dict'] is that of a freshly built module. *)
Definition fresh_store : gmap string tensor := init_params zero_fresh sosnet_entries128.

Definition fresh_ckpt : list (string * ckpt_value tensor) :=
  [("state_dict", CkptStateDict (state_dict sosnet_entries128 fresh_store) None)].

Definition fresh_hub (url : string) : res (list (string * ckpt_value tensor)) := Ok fresh_ckpt.

Lemma SOSNet_pretrained_eval_call_witness :
  exists m,
    SOSNet_init tshape tensor_select0 long_zero_t zero_fresh fresh_hub [("dim_desc", 128%nat)] true
      = Ok m /\
    fst (SOSNet_call keep_all (SOSNet_train false m) batch2) = SOSNet_train false m /\
    exists d, snd (SOSNet_call keep_all (SOSNet_train false m) batch2) = Ok d /\
      tshape d = [2; 128]%nat /\
      forall b, (b < 2)%nat ->
        rsum 128 (fun j => tval d [b; j] ^ 2) = 1%R \/
        (forall j, (j < 128)%nat -> tval d [b; j] = 0%R).
Proof.
  apply (SOSNet_pretrained_eval_call zero_fresh fresh_hub fresh_ckpt None fresh_store keep_all batch2
           2 32 32); try reflexivity; try lia.
  apply (init_params_wf tshape zero_fresh). intros k s. reflexivity.
Defined.

Lemma SOSNet_fresh_call_batch_witness :
  exists m,
    SOSNet_init tshape tensor_select0 long_zero_t zero_fresh offline_hub [("dim_desc", 128%nat)] false
      = Ok m /\
    exists d, snd (SOSNet_call keep_all m batch2) = Ok d /\ tshape d = [2; 128]%nat /\
      (forall b, (b < 2)%nat ->
         rsum 128 (fun j => tval d [b; j] ^ 2) = 1%R \/
         (forall j, (j < 128)%nat -> tval d [b; j] = 0%R)) /\
      forall j, In j [2; 5; 8; 11; 14; 17; 21]%nat ->
        nbt (env_of (fst (SOSNet_call keep_all m batch2)) keep_all) j =
        (nbt (env_of m keep_all) j + 1)%R.
Proof.
  eexists. split; [apply SOSNet_init_fresh|].
  apply (SOSNet_fresh_call_batch zero_fresh offline_hub keep_all _ batch2 2 32 32);
    [apply SOSNet_init_fresh | reflexivity | lia | lia | lia].
Defined.
